(** * Transaction lineage analyzer: a shallow embedding and its properties

    The development follows [src/transaction_lineage_analyzer.py]:

    - [PyFloat]: Python's built-in [float(str)] on ASCII text, with binary64
      values as Rocq's primitive floats;
    - [PyDict]: an insertion-ordered [dict] from batch names to gallons;
    - [Transaction], [BatchLineage] and the analyzer with its two-pass
      [_build_lineage], the recursive [get_full_lineage_tree], the two
      enumerations and the rows of [export_lineage_to_csv];
    - [PyFormat]: the string formatting of [generate_lineage_report], and
      the counts of [export_to_json].

    From [src/analyze_all_inventory_lots.py] it has the conversion of a
    transaction file to the analyzer's columns, the batches that vessels
    hold, the inventory summary and the report files of the batches.

    Python's [dict] of batch lineages is filled by iterating over a [set] of
    strings, whose order depends on the interpreter's string hashing; it is a
    [gmap] here, and statements about what is enumerated from it are about
    membership, never about order. Logging has no effect on the values
    computed and is left out. *)

From Stdlib Require Import Floats ZArith Ascii String DecimalString OrderedTypeEx.
From stdpp Require Import gmap strings list fin_maps sorting.

(* ===================================================================== *)
(** ** Python's [float] on strings *)
(* ===================================================================== *)

(** [float(s)] for a [str] made of ASCII characters: surrounding white space
    (tab, line feed, vertical tab, form feed, carriage return, space) is
    stripped, then the text must be an optionally signed [inf],
    [infinity] or [nan] (in any letter case) or a decimal number

      [[digitpart] "." digitpart | digitpart ["."]] [("e"|"E") [sign] digitpart]

    where a [digitpart] is digits with single underscores allowed between
    two digits. Anything else is a [ValueError], here [None]. The value is
    the decimal number rounded to the nearest binary64, ties to even.
    Bytes above 127 are never accepted (CPython also accepts the decimal
    digits and the white space of other scripts). *)
Module PyFloat.

Definition is_space (c : ascii) : bool :=
  let n := nat_of_ascii c in
  ((9 <=? n)%nat && (n <=? 13)%nat) || (n =? 32)%nat.

Definition digit_of (c : ascii) : option Z :=
  let n := nat_of_ascii c in
  if ((48 <=? n)%nat && (n <=? 57)%nat) then Some (Z.of_nat (n - 48)) else None.

Definition to_lower (c : ascii) : ascii :=
  let n := nat_of_ascii c in
  if ((65 <=? n)%nat && (n <=? 90)%nat) then ascii_of_nat (n + 32) else c.

Fixpoint lstrip (s : list ascii) : list ascii :=
  match s with
  | c :: s' => if is_space c then lstrip s' else s
  | [] => []
  end.

Definition strip (s : list ascii) : list ascii :=
  rev (lstrip (rev (lstrip s))).

(** The continuation of a [digitpart] after its first digit:
    [(["_"] digit)*]. Returns the digits read and the unread rest. *)
Fixpoint digits_tail (s : list ascii) : list Z * list ascii :=
  match s with
  | [] => ([], [])
  | c :: s' =>
      match digit_of c with
      | Some d => let '(ds, r) := digits_tail s' in (d :: ds, r)
      | None =>
          if Ascii.eqb c "_" then
            match s' with
            | c2 :: s'' =>
                match digit_of c2 with
                | Some d => let '(ds, r) := digits_tail s'' in (d :: ds, r)
                | None => ([], s)
                end
            | [] => ([], s)
            end
          else ([], s)
      end
  end.

Definition digitpart (s : list ascii) : option (list Z * list ascii) :=
  match s with
  | c :: s' =>
      match digit_of c with
      | Some d => let '(ds, r) := digits_tail s' in Some (d :: ds, r)
      | None => None
      end
  | [] => None
  end.

(** Integer digits, fraction digits and the rest. *)
Definition number (s : list ascii) : option (list Z * list Z * list ascii) :=
  match digitpart s with
  | Some (ip, r) =>
      match r with
      | c :: r' =>
          if Ascii.eqb c "." then
            match digitpart r' with
            | Some (fp, r'') => Some (ip, fp, r'')
            | None => Some (ip, [], r')
            end
          else Some (ip, [], r)
      | [] => Some (ip, [], [])
      end
  | None =>
      match s with
      | c :: r' =>
          if Ascii.eqb c "." then
            match digitpart r' with
            | Some (fp, r'') => Some ([], fp, r'')
            | None => None
            end
          else None
      | [] => None
      end
  end.

Definition sign (s : list ascii) : bool * list ascii :=
  match s with
  | c :: s' =>
      if Ascii.eqb c "-" then (true, s')
      else if Ascii.eqb c "+" then (false, s')
      else (false, s)
  | [] => (false, [])
  end.

Definition digits_value (ds : list Z) : Z :=
  fold_left (fun acc d => 10 * acc + d)%Z ds 0%Z.

(** The exponent part, [0] when there is none. *)
Definition exponent (s : list ascii) : option (Z * list ascii) :=
  match s with
  | [] => Some (0%Z, [])
  | c :: s' =>
      if Ascii.eqb (to_lower c) "e" then
        let '(neg, r) := sign s' in
        match digitpart r with
        | Some (ds, r') =>
            Some ((if neg then - digits_value ds else digits_value ds)%Z, r')
        | None => None
        end
      else Some (0%Z, s)
  end.

(** [m * 10^e], correctly rounded. For a negative [e] the quotient is taken
    with at least 64 significant bits and the remainder decides the
    rounding location. *)
Definition decimal_to_float (neg : bool) (m e : Z) : float :=
  SF2Prim
    (if (m =? 0)%Z then S754_zero neg
     else if (0 <=? e)%Z then
       binary_round prec emax neg (Z.to_pos (m * 10 ^ e)) 0
     else
       let d := (10 ^ (- e))%Z in
       let s := (Z.log2 d + 64)%Z in
       let n := Z.shiftl m s in
       let q := (n / d)%Z in
       let r := (n mod d)%Z in
       let loc := if (r =? 0)%Z then loc_Exact
                  else loc_Inexact (2 * r ?= d)%Z in
       binary_round_aux prec emax neg q (- s) loc).

Definition special (neg : bool) (s : list ascii) : option float :=
  let low := string_of_list_ascii (map to_lower s) in
  if (String.eqb low "inf" || String.eqb low "infinity")%bool
  then Some (if neg then neg_infinity else infinity)
  else if String.eqb low "nan" then Some nan
  else None.

Definition of_chars (s : list ascii) : option float :=
  let '(neg, body) := sign (strip s) in
  match number body with
  | Some (ip, fp, r) =>
      match exponent r with
      | Some (e, []) =>
          Some (decimal_to_float neg (digits_value (ip ++ fp))
                  (e - Z.of_nat (length fp)))
      | _ => None
      end
  | None => special neg body
  end.

(** [float(s)] for a string [s]; [None] is [ValueError]. *)
Definition of_str (s : string) : option float :=
  of_chars (list_ascii_of_string s).

(** [float(0)], the default of [data.get('NET', 0)]. *)
Definition of_int_0 : float := 0%float.

End PyFloat.

(* ===================================================================== *)
(** ** Exceptions *)
(* ===================================================================== *)

Inductive exn : Type := ValueError.

Inductive result (A : Type) : Type :=
| Ok (a : A)
| Raise (e : exn).
Arguments Ok {A} a.
Arguments Raise {A} e.

Definition bind {A B : Type} (r : result A) (k : A -> result B) : result B :=
  match r with
  | Ok a => k a
  | Raise e => Raise e
  end.

Notation "'do!' x <- r ; k" := (bind r (fun x => k))
  (at level 10, x name, r at level 100, k at level 200).

(* ===================================================================== *)
(** ** [class Transaction] *)
(* ===================================================================== *)

Record Transaction : Type := {
  op_date : string;
  op_id : string;
  op_type : string;
  from_vessel : string;
  from_batch : string;
  to_vessel : string;
  to_batch : string;
  net : float;
  loss_gain_amount : float;
  loss_gain_reason : string;
  winery : string
}.

(** A row as [csv.DictReader] yields it when no line of the file is shorter
    than the header: every key that is present maps to a string. (For a
    shorter line the reader fills the missing fields with [None], which
    [float] refuses with a [TypeError]; such rows are outside this type.) *)
Abbreviation row := (gmap string string).

(** [data.get(key, '')] *)
Definition get_str (data : row) (key : string) : string :=
  default ""%string (data !! key).

(** [float(data.get(key, 0))] *)
Definition get_float (data : row) (key : string) : result float :=
  match data !! key with
  | None => Ok PyFloat.of_int_0
  | Some s =>
      match PyFloat.of_str s with
      | Some f => Ok f
      | None => Raise ValueError
      end
  end.

(** [Transaction.__init__] *)
Definition Transaction_init (data : row) : result Transaction :=
  let op_date := get_str data "Op Date" in
  let op_id := get_str data "Op Id" in
  let op_type := get_str data "Op Type" in
  let from_vessel := get_str data "From Vessel" in
  let from_batch := get_str data "From Batch" in
  let to_vessel := get_str data "To Vessel" in
  let to_batch := get_str data "To Batch" in
  do! net <- get_float data "NET";
  do! loss_gain_amount <- get_float data "Loss/Gain Amount (gal)";
  let loss_gain_reason := get_str data "Loss/Gain Reason" in
  let winery := get_str data "Winery" in
  Ok {| op_date := op_date; op_id := op_id; op_type := op_type;
        from_vessel := from_vessel; from_batch := from_batch;
        to_vessel := to_vessel; to_batch := to_batch;
        net := net; loss_gain_amount := loss_gain_amount;
        loss_gain_reason := loss_gain_reason; winery := winery |}.

(* ===================================================================== *)
(** ** An insertion-ordered [dict] from strings to floats *)
(* ===================================================================== *)

Module PyDict.

(** [d.get(k)] *)
Fixpoint get (d : list (string * float)) (k : string) : option float :=
  match d with
  | [] => None
  | (k', v) :: d' => if String.eqb k' k then Some v else get d' k
  end.

(** [k in d] *)
Definition mem (d : list (string * float)) (k : string) : bool :=
  match get d k with Some _ => true | None => false end.

(** [d[k] = v]: a present key keeps its place, a new key goes last. *)
Fixpoint set (d : list (string * float)) (k : string) (v : float)
  : list (string * float) :=
  match d with
  | [] => [(k, v)]
  | (k', v') :: d' =>
      if String.eqb k' k then (k', v) :: d' else (k', v') :: set d' k v
  end.

Definition keys (d : list (string * float)) : list string := map fst d.

End PyDict.

(** Truth value of a string: non-empty. *)
Definition truthy (s : string) : bool := negb (String.eqb s "").

(* ===================================================================== *)
(** ** [class BatchLineage] *)
(* ===================================================================== *)

Record BatchLineage : Type := {
  batch_name : string;
  contributing_batches : list (string * float);
  contributing_transactions : list Transaction;
  outgoing_transactions : list Transaction;
  current_volume : float;
  is_on_hand : bool;
  has_left_inventory : bool
}.

(** [BatchLineage.__init__] *)
Definition BatchLineage_init (batch_name : string) : BatchLineage :=
  {| batch_name := batch_name;
     contributing_batches := [];
     contributing_transactions := [];
     outgoing_transactions := [];
     current_volume := 0%float;
     is_on_hand := false;
     has_left_inventory := false |}.

Definition set_contributing_batches (self : BatchLineage)
    (d : list (string * float)) : BatchLineage :=
  {| batch_name := batch_name self;
     contributing_batches := d;
     contributing_transactions := contributing_transactions self;
     outgoing_transactions := outgoing_transactions self;
     current_volume := current_volume self;
     is_on_hand := is_on_hand self;
     has_left_inventory := has_left_inventory self |}.

Definition set_contributing_transactions (self : BatchLineage)
    (l : list Transaction) : BatchLineage :=
  {| batch_name := batch_name self;
     contributing_batches := contributing_batches self;
     contributing_transactions := l;
     outgoing_transactions := outgoing_transactions self;
     current_volume := current_volume self;
     is_on_hand := is_on_hand self;
     has_left_inventory := has_left_inventory self |}.

Definition set_outgoing_transactions (self : BatchLineage)
    (l : list Transaction) : BatchLineage :=
  {| batch_name := batch_name self;
     contributing_batches := contributing_batches self;
     contributing_transactions := contributing_transactions self;
     outgoing_transactions := l;
     current_volume := current_volume self;
     is_on_hand := is_on_hand self;
     has_left_inventory := has_left_inventory self |}.

Definition set_current_volume (self : BatchLineage) (v : float)
  : BatchLineage :=
  {| batch_name := batch_name self;
     contributing_batches := contributing_batches self;
     contributing_transactions := contributing_transactions self;
     outgoing_transactions := outgoing_transactions self;
     current_volume := v;
     is_on_hand := is_on_hand self;
     has_left_inventory := has_left_inventory self |}.

Definition set_is_on_hand (self : BatchLineage) (b : bool) : BatchLineage :=
  {| batch_name := batch_name self;
     contributing_batches := contributing_batches self;
     contributing_transactions := contributing_transactions self;
     outgoing_transactions := outgoing_transactions self;
     current_volume := current_volume self;
     is_on_hand := b;
     has_left_inventory := has_left_inventory self |}.

Definition set_has_left_inventory (self : BatchLineage) (b : bool)
  : BatchLineage :=
  {| batch_name := batch_name self;
     contributing_batches := contributing_batches self;
     contributing_transactions := contributing_transactions self;
     outgoing_transactions := outgoing_transactions self;
     current_volume := current_volume self;
     is_on_hand := is_on_hand self;
     has_left_inventory := b |}.

(** [BatchLineage.add_incoming_transaction]. The read of
    [contributing_batches[source_batch]] in [+=] follows the assignment of
    [0.0] to a missing key, so it always finds the key. *)
Definition add_incoming_transaction (self : BatchLineage)
    (transaction : Transaction) (gallons : float) : BatchLineage :=
  let source_batch := from_batch transaction in
  let self :=
    if truthy source_batch && negb (String.eqb source_batch (batch_name self))
    then
      let d := contributing_batches self in
      let d := if PyDict.mem d source_batch then d
               else PyDict.set d source_batch 0%float in
      match PyDict.get d source_batch with
      | Some v =>
          set_contributing_batches self (PyDict.set d source_batch (v + gallons)%float)
      | None => set_contributing_batches self d
      end
    else self in
  set_contributing_transactions self
    (contributing_transactions self ++ [transaction]).

(** [BatchLineage.add_outgoing_transaction] *)
Definition add_outgoing_transaction (self : BatchLineage)
    (transaction : Transaction) : BatchLineage :=
  set_outgoing_transactions self (outgoing_transactions self ++ [transaction]).

(* ===================================================================== *)
(** ** [class TransactionLineageAnalyzer] *)
(* ===================================================================== *)

Record TransactionLineageAnalyzer : Type := {
  transactions : list Transaction;
  batch_lineages : gmap string BatchLineage
}.

(** [TransactionLineageAnalyzer()] without a file. *)
Definition Analyzer_init : TransactionLineageAnalyzer :=
  {| transactions := []; batch_lineages := ∅ |}.

(** [k in self.batch_lineages] *)
Definition has_batch (m : gmap string BatchLineage) (k : string) : bool :=
  bool_decide (is_Some (m !! k)).

(** First pass of [_build_lineage]: the set [all_batches]. *)
Definition all_batches (ts : list Transaction) : gset string :=
  foldl (fun s trans =>
           let s := if truthy (from_batch trans)
                    then {[ from_batch trans ]} ∪ s else s in
           if truthy (to_batch trans) then {[ to_batch trans ]} ∪ s else s)
        ∅ ts.

(** [for batch in all_batches: self.batch_lineages[batch] = BatchLineage(batch)] *)
Definition create_lineages (m : gmap string BatchLineage) (s : gset string)
  : gmap string BatchLineage :=
  foldl (fun m batch => <[ batch := BatchLineage_init batch ]> m) m (elements s).

(** The body of the second loop of [_build_lineage], for one transaction. *)
Definition populate (m : gmap string BatchLineage) (trans : Transaction)
  : gmap string BatchLineage :=
  let to_batch := to_batch trans in
  let from_batch := from_batch trans in
  if String.eqb (op_type trans) "On-Hand" then
    if has_batch m to_batch then
      alter (fun l => set_current_volume (set_is_on_hand l true) (net trans))
            to_batch m
    else m
  else if (String.eqb (op_type trans) "Transfer"
           || String.eqb (op_type trans) "Blend"
           || String.eqb (op_type trans) "Receipt") then
    let m :=
      if truthy to_batch && has_batch m to_batch then
        alter (fun l => add_incoming_transaction l trans (net trans)) to_batch m
      else m in
    if truthy from_batch && has_batch m from_batch then
      let m := alter (fun l => add_outgoing_transaction l trans) from_batch m in
      if negb (String.eqb (op_type trans) "Receipt") then
        alter (fun l => set_has_left_inventory l true) from_batch m
      else m
    else m
  else if String.eqb (op_type trans) "Adjustment" then
    if truthy to_batch && has_batch m to_batch then
      alter (fun l => add_incoming_transaction l trans (net trans)) to_batch m
    else m
  else m.

(** [_build_lineage] *)
Definition _build_lineage (self : TransactionLineageAnalyzer)
  : TransactionLineageAnalyzer :=
  let m := create_lineages (batch_lineages self) (all_batches (transactions self)) in
  {| transactions := transactions self;
     batch_lineages := foldl populate m (transactions self) |}.

(** The loop of [load_from_csv] over the rows of the file: a row whose
    construction raises ends the loop with the exception. (The
    transactions appended before that stay in the analyzer's list; the
    exception leaves the constructor, so no analyzer is returned.) *)
Fixpoint read_rows (rows : list row) (acc : list Transaction)
  : result (list Transaction) :=
  match rows with
  | [] => Ok acc
  | r :: rows' =>
      do! transaction <- Transaction_init r;
      read_rows rows' (acc ++ [transaction])
  end.

(** [load_from_csv], the file given by its rows. Both [except] clauses
    re-raise, so an exception from a row leaves the method. *)
Definition load_from_csv (self : TransactionLineageAnalyzer) (rows : list row)
  : result TransactionLineageAnalyzer :=
  do! ts <- read_rows rows (transactions self);
  Ok (_build_lineage {| transactions := ts;
                        batch_lineages := batch_lineages self |}).

(** The analyzer built over a list of transaction records: a fresh analyzer
    whose transaction list is [ts], after [_build_lineage]. *)
Definition ingest (ts : list Transaction) : TransactionLineageAnalyzer :=
  _build_lineage {| transactions := ts; batch_lineages := ∅ |}.

(** [get_batch_lineage] *)
Definition get_batch_lineage (self : TransactionLineageAnalyzer)
    (batch_name : string) : option BatchLineage :=
  batch_lineages self !! batch_name.

(* ===================================================================== *)
(** ** [get_full_lineage_tree] *)
(* ===================================================================== *)

#[local] Set Warnings "-register-all".

(** The dictionaries the method returns. [gallons_contributed] is the key
    the caller's loop adds to each sub-tree; the tree returned to the user
    does not have it. *)
Inductive tree : Type :=
| CycleDetected (name : string) (gallons_contributed : option float)
| NotFound (name : string) (gallons_contributed : option float)
| LineageNode (name : string) (volume : float) (on_hand has_left : bool)
    (contributing : list tree) (gallons_contributed : option float).

(** [sub_tree['gallons_contributed'] = gallons] *)
Definition set_gallons_contributed (t : tree) (gallons : float) : tree :=
  match t with
  | CycleDetected n _ => CycleDetected n (Some gallons)
  | NotFound n _ => NotFound n (Some gallons)
  | LineageNode n v o h c _ => LineageNode n v o h c (Some gallons)
  end.

Definition tree_name (t : tree) : string :=
  match t with
  | CycleDetected n _ | NotFound n _ | LineageNode n _ _ _ _ _ => n
  end.

Definition cycle_detected (t : tree) : bool :=
  match t with CycleDetected _ _ => true | _ => false end.

Definition tree_children (t : tree) : list tree :=
  match t with LineageNode _ _ _ _ c _ => c | _ => [] end.

(** The method with its call depth bounded by [depth]; [None] when the
    recursion would go deeper (the interpreter's [RecursionError]).

    [visited] is a mutable set: the method adds [batch_name] to the set it
    was given (or to the fresh set that replaces [None]), which the caller
    sees. The second component of the result is the state in which the call
    leaves that set. Each recursive call is given [visited.copy()], a new set
    with the same elements: what the callee adds goes to the copy, whose
    final state is dropped here, and the next sibling is called with a copy
    of the caller's own set. *)
Fixpoint get_full_lineage_tree_at (depth : nat)
    (self : TransactionLineageAnalyzer) (batch_name : string)
    (visited : option (gset string)) : option (tree * gset string) :=
  match depth with
  | O => None
  | S depth =>
      let visited := default ∅ visited in
      if decide (batch_name ∈ visited) then
        Some (CycleDetected batch_name None, visited)
      else
        let visited := {[ batch_name ]} ∪ visited in
        match get_batch_lineage self batch_name with
        | None => Some (NotFound batch_name None, visited)
        | Some lineage =>
            match
              mapM (fun item : string * float =>
                      let contributing_batch := item.1 in
                      let gallons := item.2 in
                      match get_full_lineage_tree_at depth self
                              contributing_batch (Some visited) with
                      | Some (sub_tree, _) =>
                          Some (set_gallons_contributed sub_tree gallons)
                      | None => None
                      end)
                   (contributing_batches lineage)
            with
            | Some subs =>
                Some (LineageNode batch_name (current_volume lineage)
                        (is_on_hand lineage) (has_left_inventory lineage)
                        subs None,
                      visited)
            | None => None
            end
        end
  end.

(** Call depth that is always enough: one frame per batch of the graph that
    is not yet visited, and one more. *)
Definition enough_depth (self : TransactionLineageAnalyzer)
    (visited : option (gset string)) : nat :=
  S (size (dom (batch_lineages self) ∖ default ∅ visited)).

(** The method run with that depth: the tree and the final state of the
    [visited] set. *)
Definition get_full_lineage_tree_run (self : TransactionLineageAnalyzer)
    (batch_name : string) (visited : option (gset string))
  : option (tree * gset string) :=
  get_full_lineage_tree_at (enough_depth self visited) self batch_name visited.

(** [get_full_lineage_tree] *)
Definition get_full_lineage_tree (self : TransactionLineageAnalyzer)
    (batch_name : string) (visited : option (gset string)) : option tree :=
  fst <$> get_full_lineage_tree_run self batch_name visited.

(** [s] is a sub-tree of [t] reached through the nodes named [path], from
    the root down to the parent of [s]. *)
Inductive subtree_at : tree -> list string -> tree -> Prop :=
| subtree_here t : subtree_at t [] t
| subtree_below n v o h cs g c path s :
    c ∈ cs -> subtree_at c path s ->
    subtree_at (LineageNode n v o h cs g) (n :: path) s.

(* ===================================================================== *)
(** ** Enumerations and the lineage edge export *)
(* ===================================================================== *)

(** [get_all_on_hand_batches] *)
Definition get_all_on_hand_batches (self : TransactionLineageAnalyzer)
  : list string :=
  fst <$>
    (List.filter (fun item : string * BatchLineage => is_on_hand item.2)
       (map_to_list (batch_lineages self))).

(** [get_all_shipped_batches] *)
Definition get_all_shipped_batches (self : TransactionLineageAnalyzer)
  : list string :=
  fst <$>
    (List.filter (fun item : string * BatchLineage =>
                    has_left_inventory item.2 && negb (is_on_hand item.2))
       (map_to_list (batch_lineages self))).

(** A number written to a CSV cell: the origin row has the [int] [0]. *)
Inductive pynum : Type :=
| PyInt (z : Z)
| PyFlt (f : float).

Record edge_row : Type := {
  Destination_Batch : string;
  Source_Batch : string;
  Gallons_Contributed : pynum;
  Destination_Current_Volume : float;
  Destination_Is_On_Hand : bool;
  Destination_Has_Left : bool
}.

(** The rows one batch adds to [rows] once it passed the filter. *)
Definition rows_of_batch (batch_name : string) (lineage : BatchLineage)
  : list edge_row :=
  match contributing_batches lineage with
  | [] =>
      [ {| Destination_Batch := batch_name;
           Source_Batch := "";
           Gallons_Contributed := PyInt 0;
           Destination_Current_Volume := current_volume lineage;
           Destination_Is_On_Hand := is_on_hand lineage;
           Destination_Has_Left := has_left_inventory lineage |} ]
  | items =>
      map (fun item : string * float =>
             {| Destination_Batch := batch_name;
                Source_Batch := item.1;
                Gallons_Contributed := PyFlt item.2;
                Destination_Current_Volume := current_volume lineage;
                Destination_Is_On_Hand := is_on_hand lineage;
                Destination_Has_Left := has_left_inventory lineage |})
          items
  end.

Definition filter_is (batch_filter : option string) (s : string) : bool :=
  match batch_filter with
  | Some f => String.eqb f s
  | None => false
  end.

(** The list [rows] that [export_lineage_to_csv] builds. *)
Definition export_rows (self : TransactionLineageAnalyzer)
    (batch_filter : option string) : list edge_row :=
  flat_map (fun item : string * BatchLineage =>
              let batch_name := item.1 in
              let lineage := item.2 in
              if filter_is batch_filter "on-hand" && negb (is_on_hand lineage)
              then []
              else if filter_is batch_filter "shipped"
                      && negb (has_left_inventory lineage)
              then []
              else rows_of_batch batch_name lineage)
           (map_to_list (batch_lineages self)).

(** [export_lineage_to_csv]: the rows written to the output file, [None]
    when no file is written. *)
Definition export_lineage_to_csv (self : TransactionLineageAnalyzer)
    (batch_filter : option string) : option (list edge_row) :=
  match export_rows self batch_filter with
  | [] => None
  | rows => Some rows
  end.

(* ===================================================================== *)
(** ** What one ledger does to one batch *)
(* ===================================================================== *)

(** Used in the statements below: the conditions under which a record
    reaches the lineage of the batch named [b]. *)

Definition is_on_hand_for (b : string) (t : Transaction) : bool :=
  String.eqb (op_type t) "On-Hand" && String.eqb (to_batch t) b.

Definition is_movement (t : Transaction) : bool :=
  String.eqb (op_type t) "Transfer" || String.eqb (op_type t) "Blend"
  || String.eqb (op_type t) "Receipt".

Definition is_departure (t : Transaction) : bool :=
  String.eqb (op_type t) "Transfer" || String.eqb (op_type t) "Blend".

Definition known_type (t : Transaction) : bool :=
  String.eqb (op_type t) "On-Hand" || is_movement t
  || String.eqb (op_type t) "Adjustment".

Definition incoming_for (b : string) (t : Transaction) : bool :=
  (is_movement t || String.eqb (op_type t) "Adjustment")
  && String.eqb (to_batch t) b.

Definition outgoing_for (b : string) (t : Transaction) : bool :=
  is_movement t && String.eqb (from_batch t) b.

Definition departs_from (b : string) (t : Transaction) : bool :=
  is_departure t && String.eqb (from_batch t) b.

Definition feeds (a b : string) (t : Transaction) : bool :=
  incoming_for b t && String.eqb (from_batch t) a.

(** Python's left-to-right sum [((0.0 + x1) + x2) + ...]. *)
Definition float_sum (xs : list float) : float :=
  foldl (fun acc x => (acc + x)%float) 0%float xs.

(** A transaction record with the given type, endpoints and net volume. *)
Definition record (ty src dst : string) (n : float) : Transaction :=
  {| op_date := "2024-01-01"; op_id := "OP"; op_type := ty;
     from_vessel := "V1"; from_batch := src;
     to_vessel := "V2"; to_batch := dst;
     net := n; loss_gain_amount := 0%float;
     loss_gain_reason := ""; winery := "W" |}.

(** What [populate] does to the lineage stored under the key [b]. *)
Definition apply_record (b : string) (l : BatchLineage) (t : Transaction)
  : BatchLineage :=
  if String.eqb (op_type t) "On-Hand" then
    if String.eqb (to_batch t) b
    then set_current_volume (set_is_on_hand l true) (net t) else l
  else if is_movement t then
    let l := if truthy (to_batch t) && String.eqb (to_batch t) b
             then add_incoming_transaction l t (net t) else l in
    if truthy (from_batch t) && String.eqb (from_batch t) b then
      let l := add_outgoing_transaction l t in
      if negb (String.eqb (op_type t) "Receipt")
      then set_has_left_inventory l true else l
    else l
  else if String.eqb (op_type t) "Adjustment" then
    if truthy (to_batch t) && String.eqb (to_batch t) b
    then add_incoming_transaction l t (net t) else l
  else l.

(** [b] is a non-empty source or destination batch name of a record. *)
Definition mentions (b : string) (t : Transaction) : bool :=
  truthy b && (String.eqb (from_batch t) b || String.eqb (to_batch t) b).

(** The lineage of [b] after the records [ts], from a new [BatchLineage]. *)
Definition lineage_of (b : string) (ts : list Transaction) : BatchLineage :=
  foldl (apply_record b) (BatchLineage_init b) ts.

(** The set in which a call of [get_full_lineage_tree] leaves [visited]. *)
Definition visited_after (b : string) (v : option (gset string)) : gset string :=
  if decide (b ∈ default ∅ v) then default ∅ v else {[ b ]} ∪ default ∅ v.

(** A tree as the method returned it, before its caller added
    [gallons_contributed]. *)
Definition without_gallons (t : tree) : tree :=
  match t with
  | CycleDetected n _ => CycleDetected n None
  | NotFound n _ => NotFound n None
  | LineageNode n v o h c _ => LineageNode n v o h c None
  end.

(** The destination batches of a list of exported rows. *)
Definition destinations (rows : list edge_row) : list string :=
  Destination_Batch <$> rows.

(** [float] rejects the text that [data] holds under [key]. *)
Definition rejected (data : row) (key : string) : Prop :=
  ∃ s, data !! key = Some s ∧ PyFloat.of_str s = None.

(** [f] is what [float(data.get(key, 0))] evaluates to. *)
Definition field_value (data : row) (key : string) (f : float) : Prop :=
  match data !! key with
  | None => f = 0%float
  | Some s => PyFloat.of_str s = Some f
  end.

(** A complete ledger row whose net volume is the text [net_text]. *)
Definition ledger_row (net_text : string) : row :=
  list_to_map
    [ ("Op Date", "2024-01-05"); ("Op Id", "T-1"); ("Op Type", "Transfer");
      ("From Vessel", "V1"); ("From Batch", "A");
      ("To Vessel", "V2"); ("To Batch", "B");
      ("NET", net_text); ("Loss/Gain Amount (gal)", "0");
      ("Loss/Gain Reason", ""); ("Winery", "W") ]%string.

(** The ledger with the contributions [A -> B -> C -> A]. *)
Definition cyclic_ledger : list Transaction :=
  [ record "Transfer" "A" "B" 1; record "Transfer" "B" "C" 2;
    record "Transfer" "C" "A" 3 ].

(** A ledger in which [A] feeds both [B] and [C], which both feed [D]. *)
Definition diamond_ledger : list Transaction :=
  [ record "Transfer" "A" "B" 1; record "Transfer" "A" "C" 2;
    record "Blend" "B" "D" 3; record "Blend" "C" "D" 4 ].

(** A ledger in which [A] has shipped to [B] and is still on hand. *)
Definition partly_shipped_ledger : list Transaction :=
  [ record "Transfer" "A" "B" 5; record "On-Hand" "" "A" 2 ].

(* ===================================================================== *)
(** ** [export_to_json] *)
(* ===================================================================== *)

(** [BatchLineage.to_dict] *)
Record lineage_dict : Type := {
  d_batch_name : string;
  d_current_volume : float;
  d_is_on_hand : bool;
  d_has_left_inventory : bool;
  d_contributing_batches : list (string * float);
  total_contributing_batches : nat;
  incoming_transaction_count : nat;
  outgoing_transaction_count : nat
}.

Definition BatchLineage_to_dict (self : BatchLineage) : lineage_dict :=
  {| d_batch_name := batch_name self;
     d_current_volume := current_volume self;
     d_is_on_hand := is_on_hand self;
     d_has_left_inventory := has_left_inventory self;
     d_contributing_batches := contributing_batches self;
     total_contributing_batches := length (contributing_batches self);
     incoming_transaction_count := length (contributing_transactions self);
     outgoing_transaction_count := length (outgoing_transactions self) |}.

(** The ['metadata'] object of [export_to_json]. *)
Record metadata : Type := {
  total_transactions : nat;
  total_batches : nat;
  on_hand_batches : nat;
  shipped_batches : nat
}.

Definition export_metadata (self : TransactionLineageAnalyzer) : metadata :=
  {| total_transactions := length (transactions self);
     total_batches := size (batch_lineages self);
     on_hand_batches := length (get_all_on_hand_batches self);
     shipped_batches := length (get_all_shipped_batches self) |}.

(** The ['batches'] object of [export_to_json]. *)
Definition export_batches (self : TransactionLineageAnalyzer)
  : gmap string lineage_dict :=
  BatchLineage_to_dict <$> batch_lineages self.

(* ===================================================================== *)
(** ** More on lineage trees *)
(* ===================================================================== *)

(** [t.get('gallons_contributed')] *)
Definition gallons_of (t : tree) : option float :=
  match t with
  | CycleDetected _ g | NotFound _ g | LineageNode _ _ _ _ _ g => g
  end.

Definition not_found (t : tree) : bool :=
  match t with NotFound _ _ => true | _ => false end.

(** Every contributing batch of every batch of the graph is itself a batch
    of the graph. *)
Definition contributors_in_graph (self : TransactionLineageAnalyzer) : Prop :=
  ∀ b l a, get_batch_lineage self b = Some l →
           a ∈ PyDict.keys (contributing_batches l) →
           is_Some (get_batch_lineage self a).

(* ===================================================================== *)
(** ** More on the lineage edge export *)
(* ===================================================================== *)

(** The loop of [export_lineage_to_csv] skips the batch ([continue]). *)
Definition skipped (batch_filter : option string) (lineage : BatchLineage)
  : bool :=
  (filter_is batch_filter "on-hand" && negb (is_on_hand lineage))
  || (filter_is batch_filter "shipped" && negb (has_left_inventory lineage)).

(** The rows of a list whose destination is the batch [b]. *)
Definition rows_for (b : string) (rows : list edge_row) : list edge_row :=
  List.filter (fun r => String.eqb (Destination_Batch r) b) rows.

(* ===================================================================== *)
(** ** [generate_lineage_report] *)
(* ===================================================================== *)

(** Python's string formatting as the report uses it, on ASCII text. *)
Module PyFormat.

(** [str(n)] for a natural number. *)
Definition str (n : nat) : string :=
  NilZero.string_of_uint (Nat.to_uint n).

(** The decimal digits of an integer that is not negative. *)
Definition digits (z : Z) : string :=
  NilZero.string_of_uint (N.to_uint (Z.to_N z)).

(** [c * n] *)
Fixpoint times (c : ascii) (n : nat) : string :=
  match n with
  | O => EmptyString
  | S n' => String c (times c n')
  end.

(** [f"{s:w}"] for a [str]: padded on the right up to the width [w], never
    cut. *)
Definition ljust (w : nat) (s : string) : string :=
  (s ++ times " " (w - String.length s))%string.

(** Padding on the left, as the alignment [>] asks for. *)
Definition rjust (w : nat) (s : string) : string :=
  (times " " (w - String.length s) ++ s)%string.

(** [num / den] rounded to the nearest integer, ties to even ([0 < den]). *)
Definition div_half_even (num den : Z) : Z :=
  let q := (num / den)%Z in
  let r := (num mod den)%Z in
  match (2 * r ?= den)%Z with
  | Lt => q
  | Gt => (q + 1)%Z
  | Eq => if Z.even q then q else (q + 1)%Z
  end.

(** [f"{x:.2f}"]: the exact value of the float rounded to two decimals,
    ties to even; the sign is kept when the digits are all zero. *)
Definition fixed2 (x : float) : string :=
  match Prim2SF x with
  | S754_nan => "nan"
  | S754_infinity s => if s then "-inf" else "inf"
  | S754_zero s => if s then "-0.00" else "0.00"
  | S754_finite s m e =>
      let n := if (0 <=? e)%Z then (Zpos m * 2 ^ e * 100)%Z
               else div_half_even (Zpos m * 100) (2 ^ (- e)) in
      ((if s then "-" else "")
       ++ digits (n / 100) ++ "." ++ digits ((n mod 100) / 10)
       ++ digits (n mod 10))%string
  end.

(** The line feed that [join] puts between the lines. *)
Definition nl : string := String "010" EmptyString.

End PyFormat.

(** The order of [str] values, by code points. *)
Definition str_le (a b : string) : Prop := String.leb a b = true.

#[global] Instance str_le_dec (a b : string) : Decision (str_le a b).
Proof. unfold str_le. apply _. Defined.

(** [sorted(d.items())] for a dictionary with [str] keys: the keys of a
    dictionary are distinct, so the names alone decide the order. *)
Definition name_le (x y : string * float) : Prop := str_le x.1 y.1.

#[global] Instance name_le_dec (x y : string * float) : Decision (name_le x y).
Proof. unfold name_le. apply _. Defined.

Definition sorted_items (d : list (string * float)) : list (string * float) :=
  merge_sort name_le d.

(** The status shown in the report. *)
Definition status_of (lineage : BatchLineage) : string :=
  if is_on_hand lineage then "ON-HAND"
  else if has_left_inventory lineage then "SHIPPED"
  else "UNKNOWN".

(** The line of one contributing batch. *)
Definition contributor_line (item : string * float) : string :=
  ("  " ++ PyFormat.ljust 30 item.1 ++ " : "
   ++ PyFormat.rjust 10 (PyFormat.fixed2 item.2) ++ " gallons")%string.

(** The line of one transaction, incoming or outgoing. *)
Definition transaction_line (trans : Transaction) : string :=
  ("  " ++ PyFormat.ljust 12 (op_date trans) ++ " "
   ++ PyFormat.ljust 12 (op_id trans) ++ " "
   ++ PyFormat.ljust 12 (op_type trans) ++ " "
   ++ PyFormat.ljust 20 (from_batch trans) ++ " -> "
   ++ PyFormat.ljust 20 (to_batch trans) ++ " "
   ++ PyFormat.rjust 8 (PyFormat.fixed2 (net trans)) ++ " gal")%string.

(** A section of transactions, left out when the list is empty. *)
Definition transaction_section (title : string) (ts : list Transaction)
  : list string :=
  match ts with
  | [] => []
  | _ => [(title ++ " (" ++ PyFormat.str (length ts) ++ "):")%string;
          PyFormat.times "-" 80]
         ++ map transaction_line ts ++ [""%string]
  end.

(** The list [report] of [generate_lineage_report] for a batch of the
    graph. *)
Definition report_lines (batch_name : string) (lineage : BatchLineage)
  : list string :=
  [ PyFormat.times "=" 80;
    ("LINEAGE REPORT FOR: " ++ batch_name)%string;
    PyFormat.times "=" 80;
    ("Status: " ++ status_of lineage)%string;
    ("Current Volume: " ++ PyFormat.fixed2 (current_volume lineage)
     ++ " gallons")%string;
    ""%string ]
  ++ match contributing_batches lineage with
     | [] => [ "No contributing batches (this may be an original receipt)"%string;
               ""%string ]
     | items =>
         [ ("CONTRIBUTING BATCHES (" ++ PyFormat.str (length items) ++ "):")%string;
           PyFormat.times "-" 80 ]
         ++ map contributor_line (sorted_items items) ++ [""%string]
     end
  ++ transaction_section "INCOMING TRANSACTIONS" (contributing_transactions lineage)
  ++ transaction_section "OUTGOING TRANSACTIONS" (outgoing_transactions lineage)
  ++ [ PyFormat.times "=" 80 ].

(** The text returned for a batch that the graph does not have. *)
Definition not_found_text (batch_name : string) : string :=
  ("Batch '" ++ batch_name ++ "' not found in transactions")%string.

Definition generate_lineage_report (self : TransactionLineageAnalyzer)
    (batch_name : string) : string :=
  match get_batch_lineage self batch_name with
  | None => not_found_text batch_name
  | Some lineage => String.concat PyFormat.nl (report_lines batch_name lineage)
  end.

(* ===================================================================== *)
(** ** [analyze_all_inventory_lots.py] *)
(* ===================================================================== *)

(** The dictionary [converted_row] that
    [convert_transaction_csv_to_simple_format] builds from one row of the
    input file, in the order of its keys. *)
Definition convert_row (row : row) : list (string * string) :=
  [ ("Op Date", default "" (row !! "Op Date"));
    ("Op Id", default (default "" (row !! "Tx Id")) (row !! "Op Id"));
    ("Op Type", default "" (row !! "Op Type"));
    ("From Vessel", default "" (row !! "Src Vessel"));
    ("From Batch", default "" (row !! "Src Batch Pre"));
    ("To Vessel", default "" (row !! "Dest Vessel"));
    ("To Batch", default "" (row !! "Dest Batch Post"));
    ("NET", default "0" (row !! "NET"));
    ("Loss/Gain Amount (gal)", default "0" (row !! "Loss/Gain Amount (gal)"));
    ("Loss/Gain Reason", default "" (row !! "Loss/Gain Reason"));
    ("Winery", "") ]%string.

(** [convert_transaction_csv_to_simple_format], the input file given by
    its rows: the value returned and the rows written to the output file,
    [None] when no file is written. *)
Definition convert_transaction_csv_to_simple_format (rows : list row)
  : bool * option (list (list (string * string))) :=
  match map convert_row rows with
  | [] => (false, None)
  | converted_rows => (true, Some converted_rows)
  end.

(** A written row as [csv.DictReader] gives it back to the analyzer. *)
Definition as_row (converted_row : list (string * string)) : row :=
  list_to_map converted_row.

(** [s.replace(old, new)] for one-character [old] and [new]. *)
Fixpoint replace_char (old new : ascii) (s : string) : string :=
  match s with
  | EmptyString => EmptyString
  | String c s' =>
      String (if Ascii.eqb c old then new else c) (replace_char old new s')
  end.

(** [safe_filename] in [generate_detailed_batch_reports] *)
Definition safe_filename (batch_name : string) : string :=
  replace_char "\" "_" (replace_char "/" "_" batch_name).

(** The name of the report file of a batch, inside [output_dir]. *)
Definition report_file_name (batch_name : string) : string :=
  (safe_filename batch_name ++ "_lineage.txt")%string.

(** The characters that [safe_filename] does not tell apart. *)
Definition same_in_file_name (c d : ascii) : Prop :=
  c = d
  ∨ ((c = "/" ∨ c = "\" ∨ c = "_") ∧ (d = "/" ∨ d = "\" ∨ d = "_"))%char.

(** A vessel of [vessels_main.json], as far as
    [get_on_hand_batches_from_vessels] reads it: the value under
    ['volume_value'] is a JSON number or [null], the value under
    ['wine_batch_name'] a JSON string or [null], and either key may be
    missing ([None]). *)
Inductive json_number : Type :=
| JNull
| JInt (z : Z)
| JFloat (f : float).

Record vessel : Type := {
  volume_value : option json_number;
  wine_batch_name : option (option string)
}.

(** Truth value of the volume, and [volume > 0]. *)
Definition volume_truthy (v : json_number) : bool :=
  match v with
  | JNull => false
  | JInt z => negb (z =? 0)%Z
  | JFloat f => negb (PrimFloat.eqb f 0)
  end.

(** [volume > 0]; comparing [None] with a number raises [TypeError]. *)
Definition volume_positive (v : json_number) : option bool :=
  match v with
  | JNull => None
  | JInt z => Some (0 <? z)%Z
  | JFloat f => Some (PrimFloat.ltb 0 f)
  end.

(** [get_on_hand_batches_from_vessels]; [None] is the [TypeError] that the
    comparison of [None] with [0] would raise. *)
Fixpoint get_on_hand_batches_from_vessels_from (on_hand_batches : gset string)
    (vessels : list vessel) : option (gset string) :=
  match vessels with
  | [] => Some on_hand_batches
  | vessel :: vessels' =>
      let volume := default (JInt 0) (volume_value vessel) in
      let batch_name := default (Some ""%string) (wine_batch_name vessel) in
      if volume_truthy volume then
        match volume_positive volume with
        | None => None
        | Some true =>
            match batch_name with
            | Some name =>
                if truthy name then
                  get_on_hand_batches_from_vessels_from
                    ({[ name ]} ∪ on_hand_batches) vessels'
                else get_on_hand_batches_from_vessels_from on_hand_batches vessels'
            | None => get_on_hand_batches_from_vessels_from on_hand_batches vessels'
            end
        | Some false =>
            get_on_hand_batches_from_vessels_from on_hand_batches vessels'
        end
      else get_on_hand_batches_from_vessels_from on_hand_batches vessels'
  end.

Definition get_on_hand_batches_from_vessels (vessels : list vessel)
  : option (gset string) :=
  get_on_hand_batches_from_vessels_from ∅ vessels.

(** A vessel holds the batch [name] with a volume above zero. *)
Definition holds (name : string) (v : vessel) : Prop :=
  wine_batch_name v = Some (Some name)
  ∧ match volume_value v with
    | Some (JInt z) => (0 < z)%Z
    | Some (JFloat f) => PrimFloat.ltb 0 f = true
    | _ => False
    end.

(** [sorted(s)] for a set of [str]. *)
Definition sorted_names (s : gset string) : list string :=
  merge_sort str_le (elements s).

(** [generate_detailed_batch_reports]: the files written into [output_dir],
    by name, with the text each holds in the end; a later write to a name
    replaces the earlier one. The batches are taken in sorted order. *)
Definition generate_detailed_batch_reports (analyzer : TransactionLineageAnalyzer)
    (batches : gset string) : gmap string string :=
  foldl (fun files batch_name =>
           let report := generate_lineage_report analyzer batch_name in
           <[ report_file_name batch_name := report ]> files)
        ∅ (sorted_names batches).

(** Writing the files of a list of batches, one after the other, given the
    file name and the text of each. *)
Definition write_all (name text : string → string)
    (files : gmap string string) (bs : list string) : gmap string string :=
  foldl (fun files b => <[ name b := text b ]> files) files bs.

(** The first ten names of a set, and how many more there are. *)
Definition first_ten (s : gset string) : list string :=
  map (fun batch => ("  - " ++ batch)%string) (take 10 (sorted_names s))
  ++ (if 10 <? size s
      then [("  ... and " ++ PyFormat.str (size s - 10) ++ " more")%string]
      else []).

(** The cross-reference of [generate_inventory_summary_report], written
    when [vessel_batches] is given and not empty. *)
Definition cross_reference (on_hand_from_transactions : list string)
    (vessel_batches : option (gset string)) : list string :=
  match vessel_batches with
  | None => []
  | Some vessel_batches =>
      if bool_decide (vessel_batches = ∅) then [] else
      let in_both := list_to_set on_hand_from_transactions ∩ vessel_batches in
      let only_in_transactions :=
        list_to_set on_hand_from_transactions ∖ vessel_batches in
      let only_in_vessels :=
        vessel_batches ∖ list_to_set on_hand_from_transactions in
      [ ("Batches with volume from vessel data: "
         ++ PyFormat.str (size vessel_batches))%string;
        ("Batches found in both sources: " ++ PyFormat.str (size in_both))%string;
        ("Batches only in transactions: "
         ++ PyFormat.str (size only_in_transactions))%string;
        ("Batches only in vessels: "
         ++ PyFormat.str (size only_in_vessels))%string;
        ""%string ]
      ++ (if bool_decide (only_in_transactions = ∅) then [] else
          "WARNING: Batches in transactions but not in vessel data:"%string
          :: first_ten only_in_transactions ++ [""%string])
      ++ (if bool_decide (only_in_vessels = ∅) then [] else
          "NOTE: Batches in vessel data but not marked as on-hand in transactions:"%string
          :: first_ten only_in_vessels ++ [""%string])
  end.

(** The batches of the details table. *)
Definition summary_batches (on_hand_from_transactions : list string)
    (vessel_batches : option (gset string)) : gset string :=
  match vessel_batches with
  | None => list_to_set on_hand_from_transactions
  | Some vessel_batches =>
      if bool_decide (vessel_batches = ∅)
      then list_to_set on_hand_from_transactions
      else list_to_set on_hand_from_transactions ∪ vessel_batches
  end.

(** The row of a batch in the details table. *)
Definition summary_row (analyzer : TransactionLineageAnalyzer)
    (batch_name : string) : string :=
  match get_batch_lineage analyzer batch_name with
  | Some lineage =>
      (PyFormat.ljust 40 batch_name ++ " "
       ++ PyFormat.rjust 13 (PyFormat.fixed2 (current_volume lineage)) ++ "   "
       ++ PyFormat.rjust 18
            (PyFormat.str (length (contributing_batches lineage))))%string
  | None =>
      (PyFormat.ljust 40 batch_name ++ " " ++ PyFormat.ljust 15 "N/A" ++ " "
       ++ PyFormat.ljust 20 "N/A")%string
  end.

(** [total_volume] after the loop over the batches of the table. *)
Definition total_volume (analyzer : TransactionLineageAnalyzer)
    (batches : list string) : float :=
  foldl (fun total batch_name =>
           match get_batch_lineage analyzer batch_name with
           | Some lineage => (total + current_volume lineage)%float
           | None => total
           end) 0%float batches.

(** [generate_inventory_summary_report]: the text returned, which is also
    the text written to [inventory_summary.txt] when an output directory is
    given. [generated] is the time of the call as [strftime] prints it. *)
Definition summary_lines (generated : string)
    (analyzer : TransactionLineageAnalyzer)
    (vessel_batches : option (gset string)) : list string :=
  let on_hand_from_transactions := get_all_on_hand_batches analyzer in
  let all_batches := summary_batches on_hand_from_transactions vessel_batches in
  [ PyFormat.times "=" 100; "INVENTORY LOTS ANALYSIS SUMMARY"%string;
    PyFormat.times "=" 100; ("Generated: " ++ generated)%string; ""%string;
    ("On-hand batches from transaction data: "
     ++ PyFormat.str (length on_hand_from_transactions))%string ]
  ++ cross_reference on_hand_from_transactions vessel_batches
  ++ [ PyFormat.times "=" 100; "ON-HAND INVENTORY DETAILS"%string;
       PyFormat.times "=" 100;
       (PyFormat.ljust 40 "Batch Name" ++ " " ++ PyFormat.ljust 15 "Volume (gal)"
        ++ " " ++ PyFormat.ljust 20 "Contributing Batches")%string;
       PyFormat.times "-" 100 ]
  ++ map (summary_row analyzer) (sorted_names all_batches)
  ++ [ PyFormat.times "-" 100;
       (PyFormat.ljust 40 "Total Volume:" ++ " "
        ++ PyFormat.rjust 13
             (PyFormat.fixed2 (total_volume analyzer (sorted_names all_batches))))%string;
       PyFormat.times "=" 100 ].

Definition generate_inventory_summary_report (generated : string)
    (analyzer : TransactionLineageAnalyzer)
    (vessel_batches : option (gset string)) : string :=
  String.concat PyFormat.nl (summary_lines generated analyzer vessel_batches).

(* ===================================================================== *)
(** ** Proof automation *)
(* ===================================================================== *)

Create Rewrite HintDb lineage_fields.

(** Case analysis on every string comparison of the goal. *)
Ltac eqb_cases :=
  repeat match goal with
    | |- context [String.eqb ?a ?b] => destruct (String.eqb_spec a b)
    end.

(** A field of [apply_record b l t], by cases on the type and the
    endpoints of [t]; [lineage_fields] holds what [add_incoming_transaction]
    leaves unchanged. *)
Ltac record_cases :=
  unfold apply_record, is_on_hand_for, incoming_for, outgoing_for,
    departs_from, is_departure, is_movement, add_outgoing_transaction, truthy;
  eqb_cases;
  repeat first
    [ progress simpl
    | progress autorewrite with lineage_fields ];
  try congruence.

(* ===================================================================== *)
(** ** [float] on sample texts *)
(* ===================================================================== *)

Example float_12_5 : PyFloat.of_str "12.5" = Some 12.5%float.
Proof. vm_compute. reflexivity. Qed.
Example float_5_0 : PyFloat.of_str " 5.0 " = Some 5%float.
Proof. vm_compute. reflexivity. Qed.
Example float_tenth : PyFloat.of_str "0.1" = Some 0x1.999999999999ap-4%float.
Proof. vm_compute. reflexivity. Qed.
Example float_third : PyFloat.of_str "-.3333333333333333333333e0" = Some (-0x1.5555555555555p-2)%float.
Proof. vm_compute. reflexivity. Qed.
Example float_1e3 : PyFloat.of_str "1_0E+2" = Some 1000%float.
Proof. vm_compute. reflexivity. Qed.
Example float_big : PyFloat.of_str "1e400" = Some infinity.
Proof. vm_compute. reflexivity. Qed.
Example float_tiny : PyFloat.of_str "5e-324" = Some 0x0.0000000000001p-1022%float.
Proof. vm_compute. reflexivity. Qed.
Example float_half_tiny : PyFloat.of_str "2.4703282292062327e-324" = Some 0%float.
Proof. vm_compute. reflexivity. Qed.
Example float_inf : PyFloat.of_str "-Infinity" = Some neg_infinity.
Proof. vm_compute. reflexivity. Qed.
Example float_abc : PyFloat.of_str "abc" = None.
Proof. vm_compute. reflexivity. Qed.
Example float_empty : PyFloat.of_str "" = None.
Proof. vm_compute. reflexivity. Qed.
Example float_bad_underscore : PyFloat.of_str "1__0" = None.
Proof. vm_compute. reflexivity. Qed.
Example float_bad_exp : PyFloat.of_str "1e" = None.
Proof. vm_compute. reflexivity. Qed.
Example float_comma : PyFloat.of_str "1,234.5" = None.
Proof. vm_compute. reflexivity. Qed.

(* ===================================================================== *)
(** ** Strings and dictionaries *)
(* ===================================================================== *)

Lemma truthy_true (s : string) : truthy s = true ↔ s ≠ ""%string.
Proof.
  unfold truthy. destruct (String.eqb_spec s ""); simpl; split; intros; congruence.
Qed.

Lemma truthy_false (s : string) : truthy s = false ↔ s = ""%string.
Proof.
  unfold truthy. destruct (String.eqb_spec s ""); simpl; split; intros; congruence.
Qed.

Module PyDictFacts.
Import PyDict.

Lemma get_set (d : list (string * float)) k v k' :
  get (set d k v) k' = if String.eqb k k' then Some v else get d k'.
Proof.
  induction d as [|[k0 v0] d IH]; simpl.
  - reflexivity.
  - destruct (String.eqb_spec k0 k) as [->|Hne]; simpl.
    + destruct (String.eqb_spec k k'); reflexivity.
    + rewrite IH. destruct (String.eqb_spec k0 k') as [->|]; [|reflexivity].
      destruct (String.eqb_spec k k'); congruence.
Qed.

Lemma keys_set (d : list (string * float)) k v x :
  x ∈ keys (set d k v) → x = k ∨ x ∈ keys d.
Proof.
  unfold keys. induction d as [|[k0 v0] d IH]; simpl.
  - rewrite list_elem_of_singleton. auto.
  - destruct (String.eqb_spec k0 k) as [->|Hne]; simpl.
    + auto.
    + rewrite !elem_of_cons. intros [->|Hin]; [auto|].
      destruct (IH Hin); auto.
Qed.

End PyDictFacts.

(* ===================================================================== *)
(** ** The two passes of [_build_lineage], batch by batch *)
(* ===================================================================== *)

Section Passes.
Implicit Types (m : gmap string BatchLineage) (t : Transaction)
  (ts : list Transaction) (b : string) (l : BatchLineage).

Lemma all_batches_from (s : gset string) ts b :
  b ∈ foldl (fun s trans =>
               let s := if truthy (from_batch trans)
                        then {[ from_batch trans ]} ∪ s else s in
               if truthy (to_batch trans) then {[ to_batch trans ]} ∪ s else s)
            s ts
  ↔ b ∈ s ∨ existsb (mentions b) ts = true.
Proof.
  revert s. induction ts as [|t ts IH]; intros s; simpl.
  - split; [auto | intros [?|?]; [done | discriminate]].
  - rewrite IH. unfold mentions. rewrite orb_true_iff, andb_true_iff, orb_true_iff.
    destruct (truthy (from_batch t)) eqn:Hf, (truthy (to_batch t)) eqn:Ht;
      rewrite ?truthy_true, ?truthy_false in *;
      rewrite ?elem_of_union, ?elem_of_singleton;
      destruct (String.eqb_spec (from_batch t) b), (String.eqb_spec (to_batch t) b);
      subst; rewrite ?truthy_true; try tauto; try (intuition congruence).
Qed.

Lemma elem_of_all_batches ts b :
  b ∈ all_batches ts ↔ existsb (mentions b) ts = true.
Proof.
  unfold all_batches. rewrite all_batches_from.
  split; [intros [Hin|He]; [by apply not_elem_of_empty in Hin | done] | auto].
Qed.

Lemma create_lineages_lookup m (s : gset string) b :
  create_lineages m s !! b
  = if decide (b ∈ s) then Some (BatchLineage_init b) else m !! b.
Proof.
  unfold create_lineages.
  assert (H : ∀ (ks : list string) m,
             foldl (fun m batch => <[ batch := BatchLineage_init batch ]> m) m ks !! b
             = if decide (b ∈ ks) then Some (BatchLineage_init b) else m !! b).
  { induction ks as [|k ks IH]; intros m0; cbn [foldl].
    - rewrite decide_False; [done | apply not_elem_of_nil].
    - rewrite IH. destruct (decide (b ∈ ks)) as [Hin|Hnin].
      + rewrite decide_True; [done | by apply elem_of_cons; right].
      + destruct (decide (k = b)) as [->|Hne].
        * rewrite lookup_insert_eq, decide_True; [done | by apply elem_of_cons; left].
        * rewrite lookup_insert_ne by done.
          rewrite decide_False; [done|].
          rewrite elem_of_cons. intros [Heq|Hin]; congruence. }
  rewrite H. destruct (decide (b ∈ s)) as [Hin|Hnin].
  - rewrite decide_True; [done | by apply elem_of_elements].
  - rewrite decide_False; [done | by rewrite elem_of_elements].
Qed.

(** An update guarded by [k in self.batch_lineages], read at the key [b]. *)
Lemma guarded_alter_lookup m (f : BatchLineage → BatchLineage) (g : bool) k b :
  (if g && has_batch m k then alter f k m else m) !! b
  = (fun l => if g && String.eqb k b then f l else l) <$> (m !! b).
Proof.
  unfold has_batch.
  destruct g; simpl; [|by destruct (m !! b)].
  destruct (String.eqb_spec k b) as [->|Hne].
  - case_bool_decide as Hin.
    + by rewrite lookup_alter_eq.
    + apply eq_None_not_Some in Hin. by rewrite Hin.
  - case_bool_decide; [rewrite lookup_alter_ne by done|]; by destruct (m !! b).
Qed.

Lemma populate_lookup m t b :
  populate m t !! b = (fun l => apply_record b l t) <$> (m !! b).
Proof.
  unfold populate, apply_record, is_movement.
  destruct (String.eqb (op_type t) "On-Hand").
  { rewrite <- (andb_true_l (has_batch m (to_batch t))).
    rewrite guarded_alter_lookup. simpl. done. }
  destruct (String.eqb (op_type t) "Transfer" || String.eqb (op_type t) "Blend"
            || String.eqb (op_type t) "Receipt").
  { set (m1 := if truthy (to_batch t) && has_batch m (to_batch t) then _ else m).
    assert (H1 : ∀ x, m1 !! x = _) by (intros x; apply guarded_alter_lookup).
    transitivity
      ((if truthy (from_batch t) && has_batch m1 (from_batch t)
        then alter (fun l =>
                      if negb (String.eqb (op_type t) "Receipt")
                      then set_has_left_inventory (add_outgoing_transaction l t) true
                      else add_outgoing_transaction l t) (from_batch t) m1
        else m1) !! b).
    { destruct (truthy (from_batch t) && has_batch m1 (from_batch t)); [|done].
      destruct (negb (String.eqb (op_type t) "Receipt")); [|done].
      by rewrite alter_alter_eq. }
    rewrite guarded_alter_lookup, H1.
    destruct (m !! b); simpl; [|done].
    by destruct (truthy (to_batch t) && String.eqb (to_batch t) b),
         (truthy (from_batch t) && String.eqb (from_batch t) b). }
  destruct (String.eqb (op_type t) "Adjustment"); [|by destruct (m !! b)].
  apply guarded_alter_lookup.
Qed.

Lemma foldl_populate_lookup ts m b :
  foldl populate m ts !! b = (fun l => foldl (apply_record b) l ts) <$> (m !! b).
Proof.
  revert m. induction ts as [|t ts IH]; intros m; simpl.
  - by destruct (m !! b).
  - rewrite IH, populate_lookup. by destruct (m !! b).
Qed.

(** The lineage of every batch after ingestion. *)
Lemma get_batch_lineage_ingest ts b :
  get_batch_lineage (ingest ts) b
  = if existsb (mentions b) ts then Some (lineage_of b ts) else None.
Proof.
  unfold get_batch_lineage, ingest, _build_lineage, lineage_of; simpl.
  rewrite foldl_populate_lookup, create_lineages_lookup.
  destruct (existsb (mentions b) ts) eqn:He.
  - rewrite decide_True; [done | by apply elem_of_all_batches].
  - rewrite decide_False; [done|]. rewrite elem_of_all_batches. congruence.
Qed.

Lemma mentions_nonempty ts b :
  existsb (mentions b) ts = true → b ≠ ""%string.
Proof.
  intros H. apply existsb_exists in H as (t & _ & H).
  unfold mentions in H. apply andb_true_iff in H as [H _].
  by apply truthy_true.
Qed.

End Passes.

(* ===================================================================== *)
(** ** The fields of a lineage after a ledger *)
(* ===================================================================== *)

Section Fields.
Implicit Types (t : Transaction) (ts : list Transaction) (b : string)
  (l : BatchLineage) (g : float).

(** [add_incoming_transaction] writes two fields only. *)
Lemma add_incoming_transaction_frame l t g :
  batch_name (add_incoming_transaction l t g) = batch_name l
  ∧ is_on_hand (add_incoming_transaction l t g) = is_on_hand l
  ∧ current_volume (add_incoming_transaction l t g) = current_volume l
  ∧ has_left_inventory (add_incoming_transaction l t g) = has_left_inventory l
  ∧ outgoing_transactions (add_incoming_transaction l t g) = outgoing_transactions l
  ∧ contributing_transactions (add_incoming_transaction l t g)
    = contributing_transactions l ++ [t].
Proof.
  unfold add_incoming_transaction.
  destruct (truthy (from_batch t) && negb (String.eqb (from_batch t) (batch_name l)));
    [|done].
  destruct (PyDict.mem (contributing_batches l) (from_batch t));
    by destruct (PyDict.get _ (from_batch t)).
Qed.

Lemma add_incoming_batch_name l t g :
  batch_name (add_incoming_transaction l t g) = batch_name l.
Proof. apply add_incoming_transaction_frame. Qed.
Lemma add_incoming_is_on_hand l t g :
  is_on_hand (add_incoming_transaction l t g) = is_on_hand l.
Proof. apply add_incoming_transaction_frame. Qed.
Lemma add_incoming_current_volume l t g :
  current_volume (add_incoming_transaction l t g) = current_volume l.
Proof. apply add_incoming_transaction_frame. Qed.
Lemma add_incoming_has_left_inventory l t g :
  has_left_inventory (add_incoming_transaction l t g) = has_left_inventory l.
Proof. apply add_incoming_transaction_frame. Qed.
Lemma add_incoming_outgoing l t g :
  outgoing_transactions (add_incoming_transaction l t g) = outgoing_transactions l.
Proof. apply add_incoming_transaction_frame. Qed.
Lemma add_incoming_incoming l t g :
  contributing_transactions (add_incoming_transaction l t g)
  = contributing_transactions l ++ [t].
Proof. apply add_incoming_transaction_frame. Qed.

End Fields.


#[local] Hint Rewrite add_incoming_batch_name add_incoming_is_on_hand
  add_incoming_current_volume add_incoming_has_left_inventory
  add_incoming_outgoing add_incoming_incoming
  orb_false_r orb_true_r @app_nil_r : lineage_fields.

Section Projections.
#[local] Opaque add_incoming_transaction.
Implicit Types (t : Transaction) (ts : list Transaction) (b : string)
  (l : BatchLineage).

Lemma apply_record_batch_name b l t :
  batch_name (apply_record b l t) = batch_name l.
Proof. record_cases. Qed.

Lemma apply_record_is_on_hand b l t :
  is_on_hand (apply_record b l t) = is_on_hand l || is_on_hand_for b t.
Proof. record_cases. Qed.

Lemma apply_record_current_volume b l t :
  current_volume (apply_record b l t)
  = if is_on_hand_for b t then net t else current_volume l.
Proof. record_cases. Qed.

Lemma apply_record_has_left_inventory b l t :
  b ≠ ""%string →
  has_left_inventory (apply_record b l t)
  = has_left_inventory l || departs_from b t.
Proof. intros Hb. record_cases. Qed.

Lemma apply_record_outgoing b l t :
  b ≠ ""%string →
  outgoing_transactions (apply_record b l t)
  = outgoing_transactions l ++ (if outgoing_for b t then [t] else []).
Proof. intros Hb. record_cases. Qed.

Lemma apply_record_incoming b l t :
  b ≠ ""%string →
  contributing_transactions (apply_record b l t)
  = contributing_transactions l ++ (if incoming_for b t then [t] else []).
Proof. intros Hb. record_cases. Qed.

(** A record of a type outside the vocabulary changes no lineage. *)
Lemma apply_record_unknown b l t :
  known_type t = false → apply_record b l t = l.
Proof.
  unfold known_type. intros H.
  apply orb_false_iff in H as [H H3]. apply orb_false_iff in H as [H1 H2].
  unfold apply_record. by rewrite H1, H2, H3.
Qed.

End Projections.

Section Ledger.
Implicit Types (t : Transaction) (ts : list Transaction) (b : string)
  (l : BatchLineage).

Lemma foldl_apply_batch_name b ts l :
  batch_name (foldl (apply_record b) l ts) = batch_name l.
Proof.
  revert l. induction ts as [|t ts IH]; intros l; simpl; [done|].
  by rewrite IH, apply_record_batch_name.
Qed.

Lemma foldl_apply_is_on_hand b ts l :
  is_on_hand (foldl (apply_record b) l ts)
  = is_on_hand l || existsb (is_on_hand_for b) ts.
Proof.
  revert l. induction ts as [|t ts IH]; intros l; simpl.
  - by rewrite orb_false_r.
  - by rewrite IH, apply_record_is_on_hand, orb_assoc.
Qed.

Lemma foldl_apply_current_volume_keep b ts l :
  existsb (is_on_hand_for b) ts = false →
  current_volume (foldl (apply_record b) l ts) = current_volume l.
Proof.
  revert l. induction ts as [|t ts IH]; intros l; simpl; [done|].
  intros [Ht Hts]%orb_false_iff.
  by rewrite IH, apply_record_current_volume, Ht.
Qed.

Lemma foldl_apply_has_left_inventory b ts l :
  b ≠ ""%string →
  has_left_inventory (foldl (apply_record b) l ts)
  = has_left_inventory l || existsb (departs_from b) ts.
Proof.
  intros Hb. revert l. induction ts as [|t ts IH]; intros l; simpl.
  - by rewrite orb_false_r.
  - by rewrite IH, apply_record_has_left_inventory, orb_assoc.
Qed.

Lemma foldl_apply_outgoing b ts l :
  b ≠ ""%string →
  outgoing_transactions (foldl (apply_record b) l ts)
  = outgoing_transactions l ++ List.filter (outgoing_for b) ts.
Proof.
  intros Hb. revert l. induction ts as [|t ts IH]; intros l; simpl.
  - by rewrite app_nil_r.
  - rewrite IH, apply_record_outgoing by done.
    destruct (outgoing_for b t); simpl; by rewrite <- app_assoc.
Qed.

Lemma foldl_apply_incoming b ts l :
  b ≠ ""%string →
  contributing_transactions (foldl (apply_record b) l ts)
  = contributing_transactions l ++ List.filter (incoming_for b) ts.
Proof.
  intros Hb. revert l. induction ts as [|t ts IH]; intros l; simpl.
  - by rewrite app_nil_r.
  - rewrite IH, apply_record_incoming by done.
    destruct (incoming_for b t); simpl; by rewrite <- app_assoc.
Qed.

Lemma foldl_apply_unknown b pre r post l :
  known_type r = false →
  foldl (apply_record b) l (pre ++ r :: post)
  = foldl (apply_record b) l (pre ++ post).
Proof.
  intros Hr. rewrite !foldl_app. simpl. by rewrite apply_record_unknown.
Qed.

End Ledger.

Section Contributions.
Implicit Types (t : Transaction) (ts : list Transaction) (a b : string)
  (l : BatchLineage) (g : float).

Lemma add_incoming_get l t g a :
  PyDict.get (contributing_batches (add_incoming_transaction l t g)) a
  = if truthy (from_batch t) && negb (String.eqb (from_batch t) (batch_name l))
       && String.eqb (from_batch t) a
    then Some (default 0%float (PyDict.get (contributing_batches l) a) + g)%float
    else PyDict.get (contributing_batches l) a.
Proof.
  unfold add_incoming_transaction.
  destruct (truthy (from_batch t) && negb (String.eqb (from_batch t) (batch_name l)));
    simpl; [|done].
  unfold PyDict.mem.
  destruct (PyDict.get (contributing_batches l) (from_batch t)) as [v|] eqn:Hget.
  - rewrite Hget. simpl. rewrite PyDictFacts.get_set.
    destruct (String.eqb_spec (from_batch t) a) as [<-|]; [|done].
    by rewrite Hget.
  - rewrite PyDictFacts.get_set, String.eqb_refl. simpl.
    rewrite !PyDictFacts.get_set.
    destruct (String.eqb_spec (from_batch t) a) as [<-|]; [|done].
    by rewrite Hget.
Qed.

Lemma add_incoming_keys l t g x :
  x ∈ PyDict.keys (contributing_batches (add_incoming_transaction l t g)) →
  x ∈ PyDict.keys (contributing_batches l)
  ∨ (x ≠ ""%string ∧ x ≠ batch_name l).
Proof.
  unfold add_incoming_transaction.
  destruct (truthy (from_batch t)) eqn:Hf; simpl; [|auto].
  destruct (String.eqb_spec (from_batch t) (batch_name l)) as [|Hne]; simpl; [auto|].
  apply truthy_true in Hf.
  assert (Hset : ∀ d v, x ∈ PyDict.keys (PyDict.set d (from_batch t) v) →
                        x ∈ PyDict.keys d ∨ (x ≠ ""%string ∧ x ≠ batch_name l)).
  { intros d v [->|Hin]%PyDictFacts.keys_set; auto. }
  destruct (PyDict.mem (contributing_batches l) (from_batch t));
    destruct (PyDict.get _ (from_batch t)); simpl; intros Hin.
  - eauto.
  - auto.
  - apply Hset in Hin as [Hin|?]; [|auto]. eauto.
  - eauto.
Qed.

#[local] Opaque add_incoming_transaction.

Lemma apply_record_get b l t a :
  b ≠ ""%string → a ≠ ""%string → a ≠ b → batch_name l = b →
  PyDict.get (contributing_batches (apply_record b l t)) a
  = if feeds a b t
    then Some (default 0%float (PyDict.get (contributing_batches l) a) + net t)%float
    else PyDict.get (contributing_batches l) a.
Proof.
  intros Hb Ha Hab Hl.
  unfold apply_record, feeds, incoming_for, is_movement, add_outgoing_transaction.
  pose proof (add_incoming_get l t (net t) a) as Hin. rewrite Hl in Hin.
  unfold truthy in *.
  eqb_cases; simpl in *; rewrite ?Hin; try congruence.
Qed.

Lemma apply_record_keys b l t x :
  x ∈ PyDict.keys (contributing_batches (apply_record b l t)) →
  x ∈ PyDict.keys (contributing_batches l)
  ∨ (x ≠ ""%string ∧ x ≠ batch_name l).
Proof.
  pose proof (add_incoming_keys l t (net t) x) as Hin.
  unfold apply_record, is_movement, add_outgoing_transaction, truthy.
  eqb_cases; simpl; auto.
Qed.

Lemma foldl_apply_get b a ts l :
  b ≠ ""%string → a ≠ ""%string → a ≠ b → batch_name l = b →
  PyDict.get (contributing_batches (foldl (apply_record b) l ts)) a
  = match List.filter (feeds a b) ts with
    | [] => PyDict.get (contributing_batches l) a
    | fs => Some (foldl (fun acc x => (acc + x)%float)
                    (default 0%float (PyDict.get (contributing_batches l) a))
                    (map net fs))
    end.
Proof.
  intros Hb Ha Hab. revert l. induction ts as [|t ts IH]; intros l Hl; simpl; [done|].
  rewrite IH by (by rewrite apply_record_batch_name).
  rewrite apply_record_get by done.
  destruct (feeds a b t); simpl; [|done].
  by destruct (List.filter (feeds a b) ts).
Qed.

Lemma foldl_apply_keys b ts l x :
  x ∈ PyDict.keys (contributing_batches (foldl (apply_record b) l ts)) →
  x ∈ PyDict.keys (contributing_batches l)
  ∨ (x ≠ ""%string ∧ x ≠ batch_name l).
Proof.
  revert l. induction ts as [|t ts IH]; intros l; simpl; [auto|].
  intros [Hin|Hx]%IH.
  - by apply apply_record_keys in Hin.
  - rewrite apply_record_batch_name in Hx. auto.
Qed.

(** The gallons recorded in [b] as contributed by [a]: the left-to-right
    sum of the net volumes of the records that feed [b] from [a]. *)
Lemma lineage_of_contribution b a ts :
  b ≠ ""%string → a ≠ ""%string → a ≠ b →
  PyDict.get (contributing_batches (lineage_of b ts)) a
  = match List.filter (feeds a b) ts with
    | [] => None
    | fs => Some (float_sum (map net fs))
    end.
Proof.
  intros Hb Ha Hab. unfold lineage_of. by rewrite foldl_apply_get.
Qed.

End Contributions.

(* ===================================================================== *)
(** ** The lineage tree *)
(* ===================================================================== *)

Section Tree.
Variable self : TransactionLineageAnalyzer.
Implicit Types (b : string) (v : option (gset string)) (t s : tree)
  (p : list string).

Lemma unvisited_shrinks (D v0 : gset string) b :
  b ∈ D → b ∉ v0 → size (D ∖ ({[ b ]} ∪ v0)) < size (D ∖ v0).
Proof.
  intros HD Hv. apply subset_size. split.
  - intros x. rewrite !elem_of_difference, not_elem_of_union. tauto.
  - intros Hsub. assert (Hb : b ∈ D ∖ v0) by (by apply elem_of_difference).
    apply Hsub, elem_of_difference in Hb as [_ Hb].
    apply Hb, elem_of_union. left. by apply elem_of_singleton.
Qed.

Lemma lineage_in_dom b l :
  get_batch_lineage self b = Some l → b ∈ dom (batch_lineages self).
Proof. intros H. apply elem_of_dom. by exists l. Qed.

(** With enough depth the method returns. *)
Lemma tree_at_enough depth b v :
  size (dom (batch_lineages self) ∖ default ∅ v) < depth →
  ∃ t, get_full_lineage_tree_at depth self b v = Some (t, visited_after b v).
Proof.
  revert b v. induction depth as [|depth IH]; intros b v Hd; [lia|].
  unfold visited_after. simpl.
  destruct (decide (b ∈ default ∅ v)) as [Hin|Hnin]; [by eexists|].
  destruct (get_batch_lineage self b) as [l|] eqn:Hl; [|by eexists].
  match goal with |- context [mapM ?f ?xs] => destruct (mapM f xs) as [subs|] eqn:Hm end;
    [by eexists|].
  exfalso. apply mapM_None in Hm. apply Exists_exists in Hm as ([c g] & _ & Hc).
  simpl in Hc.
  destruct (IH c (Some ({[ b ]} ∪ default ∅ v))) as [t Ht].
  { simpl. pose proof (unvisited_shrinks _ _ _ (lineage_in_dom _ _ Hl) Hnin). lia. }
  by rewrite Ht in Hc.
Qed.

(** More depth than needed changes nothing. *)
Lemma tree_at_depth_irrelevant d1 d2 b v :
  size (dom (batch_lineages self) ∖ default ∅ v) < d1 →
  size (dom (batch_lineages self) ∖ default ∅ v) < d2 →
  get_full_lineage_tree_at d1 self b v = get_full_lineage_tree_at d2 self b v.
Proof.
  revert d2 b v. induction d1 as [|d1 IH]; intros d2 b v H1 H2; [lia|].
  destruct d2 as [|d2]; [lia|]. simpl.
  destruct (decide (b ∈ default ∅ v)) as [Hin|Hnin]; [done|].
  destruct (get_batch_lineage self b) as [l|] eqn:Hl; [|done].
  pose proof (unvisited_shrinks _ _ _ (lineage_in_dom _ _ Hl) Hnin) as Hlt.
  erewrite mapM_ext; [reflexivity|].
  intros [c g]. simpl. rewrite (IH d2); [done| simpl; lia | simpl; lia].
Qed.

(** The method as its body reads, every recursive call being the method
    itself on [visited.copy()]. *)
Lemma get_full_lineage_tree_run_unfold b v :
  get_full_lineage_tree_run self b v
  = let visited := default ∅ v in
    if decide (b ∈ visited) then Some (CycleDetected b None, visited)
    else
      let visited := {[ b ]} ∪ visited in
      match get_batch_lineage self b with
      | None => Some (NotFound b None, visited)
      | Some lineage =>
          match
            mapM (fun item : string * float =>
                    match get_full_lineage_tree_run self item.1 (Some visited) with
                    | Some (sub_tree, _) =>
                        Some (set_gallons_contributed sub_tree item.2)
                    | None => None
                    end)
                 (contributing_batches lineage)
          with
          | Some subs =>
              Some (LineageNode b (current_volume lineage) (is_on_hand lineage)
                      (has_left_inventory lineage) subs None,
                    visited)
          | None => None
          end
      end.
Proof.
  unfold get_full_lineage_tree_run at 1. unfold enough_depth. simpl.
  destruct (decide (b ∈ default ∅ v)) as [Hin|Hnin]; [done|].
  destruct (get_batch_lineage self b) as [l|] eqn:Hl; [|done].
  pose proof (unvisited_shrinks _ _ _ (lineage_in_dom _ _ Hl) Hnin) as Hlt.
  erewrite mapM_ext; [reflexivity|].
  intros [c g]. simpl. unfold get_full_lineage_tree_run, enough_depth.
  rewrite (tree_at_depth_irrelevant _ (S (size (dom (batch_lineages self)
             ∖ default ∅ (Some ({[ b ]} ∪ default ∅ v)))))); [done| simpl; lia | simpl; lia].
Qed.

Lemma get_full_lineage_tree_run_total b v :
  ∃ t, get_full_lineage_tree_run self b v = Some (t, visited_after b v).
Proof. apply tree_at_enough. unfold enough_depth. lia. Qed.

Lemma subtree_at_set_gallons t g p s :
  subtree_at (set_gallons_contributed t g) p s →
  ∃ s0, subtree_at t p s0 ∧ cycle_detected s0 = cycle_detected s
        ∧ tree_name s0 = tree_name s ∧ tree_children s0 = tree_children s.
Proof.
  intros H. inversion H as [t0 Ht0 | n vol o h cs g0 c path s1 Hc Hs Ht0]; subst.
  - exists t. split; [constructor|]. by destruct t.
  - destruct t; simpl in Ht0; try discriminate.
    injection Ht0 as -> -> -> -> -> _.
    exists s. split; [|done]. by econstructor.
Qed.

(** Where the marker is: a sub-tree is a [cycle_detected] leaf exactly when
    its batch name is in the set the traversal started with or names one of
    its own ancestors in the tree. *)
Lemma cycle_detected_iff_on_path p b v t vf s :
  get_full_lineage_tree_run self b v = Some (t, vf) →
  subtree_at t p s →
  cycle_detected s = true ↔ tree_name s ∈ default ∅ v ∨ tree_name s ∈ p.
Proof.
  revert b v t vf s. induction p as [|n p IH]; intros b v t vf s Hrun Hsub.
  - inversion Hsub; subst. rewrite get_full_lineage_tree_run_unfold in Hrun.
    simpl in Hrun.
    destruct (decide (b ∈ default ∅ v)) as [Hin|Hnin].
    { injection Hrun as <- <-. simpl. split; auto. }
    assert (Hname : tree_name s = b ∧ cycle_detected s = false).
    { destruct (get_batch_lineage self b); [|by injection Hrun as <- <-].
      match type of Hrun with context [mapM ?f ?xs] => destruct (mapM f xs) end;
        [by injection Hrun as <- <- | discriminate]. }
    destruct Hname as [-> ->]. split; [discriminate|].
    intros [?|Hnil]; [done | by apply elem_of_nil in Hnil].
  - inversion Hsub as [| n0 vol o h cs g0 c path s1 Hc Hs]; subst.
    rewrite get_full_lineage_tree_run_unfold in Hrun. simpl in Hrun.
    destruct (decide (b ∈ default ∅ v)) as [Hin|Hnin]; [discriminate|].
    destruct (get_batch_lineage self b) as [l|]; [|discriminate].
    match type of Hrun with context [mapM ?f ?xs] =>
      destruct (mapM f xs) as [subs|] eqn:Hm end; [|discriminate].
    injection Hrun as <- <- <- <- <- <-.
    apply mapM_Some in Hm.
    apply list_elem_of_lookup in Hc as [i Hi].
    destruct (Forall2_lookup_r _ _ _ _ _ Hm Hi) as ([c0 g] & _ & Hc0).
    simpl in Hc0.
    destruct (get_full_lineage_tree_run self c0 (Some ({[ b ]} ∪ default ∅ v)))
      as [[sub vsub]|] eqn:Hsubrun; [|discriminate].
    injection Hc0 as <-.
    apply subtree_at_set_gallons in Hs as (s0 & Hs0 & Hcyc & Hnm & _).
    rewrite <- Hcyc, <- Hnm.
    rewrite (IH _ _ _ _ _ Hsubrun Hs0). simpl.
    rewrite elem_of_union, elem_of_singleton, elem_of_cons. tauto.
Qed.

Lemma get_full_lineage_tree_run_default b v :
  get_full_lineage_tree_run self b (Some (default ∅ v))
  = get_full_lineage_tree_run self b v.
Proof. by destruct v. Qed.

Lemma run_without_gallons b v t vf :
  get_full_lineage_tree_run self b v = Some (t, vf) → without_gallons t = t.
Proof.
  rewrite get_full_lineage_tree_run_unfold. simpl.
  destruct (decide (b ∈ default ∅ v)); [by intros [= <- _]|].
  destruct (get_batch_lineage self b); [|by intros [= <- _]].
  match goal with |- context [mapM ?f ?xs] => destruct (mapM f xs) end;
    [by intros [= <- _] | discriminate].
Qed.

Lemma run_tree_name b v t vf :
  get_full_lineage_tree_run self b v = Some (t, vf) → tree_name t = b.
Proof.
  rewrite get_full_lineage_tree_run_unfold. simpl.
  destruct (decide (b ∈ default ∅ v)); [by intros [= <- _]|].
  destruct (get_batch_lineage self b); [|by intros [= <- _]].
  match goal with |- context [mapM ?f ?xs] => destruct (mapM f xs) end;
    [by intros [= <- _] | discriminate].
Qed.

Lemma subtree_at_set_gallons_inv t g p s :
  subtree_at (set_gallons_contributed t g) p s →
  (p = [] ∧ s = set_gallons_contributed t g) ∨ (p ≠ [] ∧ subtree_at t p s).
Proof.
  intros H. inversion H as [t0 Ht0 | n vol o h cs g0 c path s1 Hc Hs Ht0]; subst.
  - by left.
  - right. split; [done|]. destruct t; simpl in Ht0; try discriminate.
    injection Ht0 as -> -> -> -> -> _. by econstructor.
Qed.

(** Every sub-tree is what the method returns for its batch name when the
    visited set holds the names the traversal started with and the names of
    the ancestors of that sub-tree, and nothing else. *)
Lemma subtree_at_is_run p b v t vf s :
  get_full_lineage_tree_run self b v = Some (t, vf) →
  subtree_at t p s →
  ∃ vs, get_full_lineage_tree_run self (tree_name s)
          (Some (default ∅ v ∪ list_to_set p))
        = Some (without_gallons s, vs).
Proof.
  revert b v t vf s. induction p as [|n p IH]; intros b v t vf s Hrun Hsub.
  - inversion Hsub; subst. exists vf. simpl.
    rewrite union_empty_r_L, get_full_lineage_tree_run_default.
    by rewrite (run_without_gallons _ _ _ _ Hrun), (run_tree_name _ _ _ _ Hrun).
  - inversion Hsub as [| n0 vol o h cs g0 c path s1 Hc Hs]; subst.
    rewrite get_full_lineage_tree_run_unfold in Hrun. simpl in Hrun.
    destruct (decide (b ∈ default ∅ v)) as [Hin|Hnin]; [discriminate|].
    destruct (get_batch_lineage self b) as [l|]; [|discriminate].
    match type of Hrun with context [mapM ?f ?xs] =>
      destruct (mapM f xs) as [subs|] eqn:Hm end; [|discriminate].
    injection Hrun as <- <- <- <- <- <-.
    apply mapM_Some in Hm.
    apply list_elem_of_lookup in Hc as [i Hi].
    destruct (Forall2_lookup_r _ _ _ _ _ Hm Hi) as ([c0 g] & _ & Hc0).
    simpl in Hc0.
    destruct (get_full_lineage_tree_run self c0 (Some ({[ b ]} ∪ default ∅ v)))
      as [[sub vsub]|] eqn:Hsubrun; [|discriminate].
    injection Hc0 as <-.
    assert (Hset : default ∅ v ∪ list_to_set (b :: p)
                   = ({[ b ]} ∪ default ∅ v) ∪ list_to_set p).
    { simpl. apply set_eq. intros x.
      rewrite !elem_of_union, elem_of_singleton. tauto. }
    rewrite Hset.
    apply subtree_at_set_gallons_inv in Hs as [[-> ->]|[_ Hs]].
    + exists vsub. simpl. rewrite union_empty_r_L.
      assert (Hn : tree_name (set_gallons_contributed sub g) = c0).
      { rewrite <- (run_tree_name _ _ _ _ Hsubrun). by destruct sub. }
      assert (Hw : without_gallons (set_gallons_contributed sub g) = sub).
      { rewrite <- (run_without_gallons _ _ _ _ Hsubrun) at 2. by destruct sub. }
      by rewrite Hn, Hw.
    + apply (IH _ _ _ _ _ Hsubrun Hs).
Qed.

End Tree.

(* ===================================================================== *)
(** ** Enumerations and exported rows *)
(* ===================================================================== *)

Section Enumerations.
Variable self : TransactionLineageAnalyzer.
Implicit Types (b : string) (l : BatchLineage).

Lemma elem_of_filtered_names (f : string * BatchLineage → bool) b :
  b ∈ fst <$> List.filter f (map_to_list (batch_lineages self))
  ↔ ∃ l, get_batch_lineage self b = Some l ∧ f (b, l) = true.
Proof.
  unfold get_batch_lineage. rewrite list_elem_of_fmap. split.
  - intros ([k l] & -> & Hin). apply list_elem_of_In, filter_In in Hin as [Hin Hf].
    apply list_elem_of_In, elem_of_map_to_list in Hin. eauto.
  - intros (l & Hl & Hf). exists (b, l). split; [done|].
    apply list_elem_of_In, filter_In. split; [|done].
    by apply list_elem_of_In, elem_of_map_to_list.
Qed.

Lemma NoDup_filtered_names (f : string * BatchLineage → bool) :
  NoDup (fst <$> List.filter f (map_to_list (batch_lineages self))).
Proof.
  pose proof (NoDup_fst_map_to_list (batch_lineages self)) as Hnd.
  induction (map_to_list (batch_lineages self)) as [|x xs IH]; simpl; [constructor|].
  apply NoDup_cons in Hnd as [Hx Hnd].
  destruct (f x); simpl; [|auto].
  apply NoDup_cons. split; [|auto].
  intros Hin. apply Hx. apply list_elem_of_fmap in Hin as (y & -> & Hy).
  apply list_elem_of_fmap. exists y. split; [done|].
  apply list_elem_of_In, filter_In in Hy as [Hy _]. by apply list_elem_of_In.
Qed.

Lemma rows_of_batch_destination b l r :
  In r (rows_of_batch b l) → Destination_Batch r = b.
Proof.
  unfold rows_of_batch. destruct (contributing_batches l) as [|i rest].
  - intros [<-|[]]. done.
  - intros (x & <- & _)%in_map_iff. done.
Qed.

Lemma rows_of_batch_nonempty b l : ∃ r, In r (rows_of_batch b l).
Proof.
  unfold rows_of_batch. destruct (contributing_batches l) as [|i rest];
    eexists; left; reflexivity.
Qed.

(** The destination batches of the export under the ['shipped'] filter. *)
Lemma elem_of_shipped_export b :
  b ∈ destinations (export_rows self (Some "shipped"%string))
  ↔ ∃ l, get_batch_lineage self b = Some l ∧ has_left_inventory l = true.
Proof.
  unfold destinations, export_rows, get_batch_lineage.
  rewrite list_elem_of_fmap. simpl. split.
  - intros (r & -> & Hr). apply list_elem_of_In, in_flat_map in Hr as ([k l] & Hkl & Hr).
    apply list_elem_of_In, elem_of_map_to_list in Hkl. simpl in Hr.
    destruct (has_left_inventory l) eqn:Hleft; simpl in Hr; [|done].
    apply rows_of_batch_destination in Hr as ->. eauto.
  - intros (l & Hl & Hleft). destruct (rows_of_batch_nonempty b l) as [r Hr].
    exists r. split; [by rewrite (rows_of_batch_destination _ _ _ Hr)|].
    apply list_elem_of_In, in_flat_map. exists (b, l). split.
    + by apply list_elem_of_In, elem_of_map_to_list.
    + simpl. by rewrite Hleft.
Qed.

End Enumerations.

(* ===================================================================== *)
(** ** Construction of a transaction from a row *)
(* ===================================================================== *)

Lemma get_float_Ok data key f :
  get_float data key = Ok f ↔ field_value data key f.
Proof.
  unfold get_float, field_value, PyFloat.of_int_0.
  destruct (data !! key) as [s|]; [destruct (PyFloat.of_str s)|];
    split; intros H; try congruence; by injection H as ->.
Qed.

Lemma get_float_Raise data key e :
  get_float data key = Raise e ↔ rejected data key.
Proof.
  unfold get_float, rejected. destruct e.
  destruct (data !! key) as [s|]; [destruct (PyFloat.of_str s) eqn:Hs|]; split;
    try discriminate; eauto.
  - intros (s' & [= <-] & Hs'). congruence.
  - intros (s' & [=] & _).
Qed.

Lemma read_rows_raises rows acc data :
  In data rows → Transaction_init data = Raise ValueError →
  read_rows rows acc = Raise ValueError.
Proof.
  revert acc. induction rows as [|r rows IH]; intros acc; simpl; [done|].
  intros [->|Hin] Hraise.
  - by rewrite Hraise.
  - destruct (Transaction_init r) as [t|[]]; simpl; [by apply IH | done].
Qed.

(** Loading a file into a new analyzer is [ingest] on the transactions of
    its rows. *)
Lemma load_from_csv_ingest rows ts :
  read_rows rows [] = Ok ts →
  load_from_csv Analyzer_init rows = Ok (ingest ts).
Proof. unfold load_from_csv. simpl. by intros ->. Qed.

(** C1, as stated, fails: a row whose ['NET'] field holds the text [abc],
    which [float] rejects, gives no transaction at all, so none whose net
    volume is 0. *)
Lemma unparsable_net_is_not_masked :
  PyFloat.of_str "abc" = None
  ∧ ¬ ∃ t, Transaction_init (ledger_row "abc") = Ok t ∧ net t = 0%float.
Proof.
  split; [by vm_compute|].
  assert (H : Transaction_init (ledger_row "abc") = Raise ValueError)
    by (by vm_compute).
  intros (t & Ht & _). congruence.
Qed.

(** C1, amended: only a missing numeric field defaults to zero. A row in
    which ['NET'] or ['Loss/Gain Amount (gal)'] is present with a text that
    [float] rejects makes the construction raise [ValueError], and exactly
    such rows do; when the construction succeeds each numeric field holds
    [0.0] for a missing key and the parsed number otherwise; and
    [load_from_csv] raises as soon as one row of the file does. *)
Theorem Transaction_init_numeric_fields (data : row) :
  (Transaction_init data = Raise ValueError
   ↔ rejected data "NET" ∨ rejected data "Loss/Gain Amount (gal)")
  ∧ (∀ t, Transaction_init data = Ok t →
          field_value data "NET" (net t)
          ∧ field_value data "Loss/Gain Amount (gal)" (loss_gain_amount t))
  ∧ (∀ self rows,
       In data rows →
       rejected data "NET" ∨ rejected data "Loss/Gain Amount (gal)" →
       load_from_csv self rows = Raise ValueError).
Proof.
  assert (Hraise : Transaction_init data = Raise ValueError
                   ↔ rejected data "NET" ∨ rejected data "Loss/Gain Amount (gal)").
  { unfold Transaction_init, bind.
    rewrite <- !(get_float_Raise _ _ ValueError).
    destruct (get_float data "NET") as [n|[]];
      destruct (get_float data "Loss/Gain Amount (gal)") as [g|[]];
      split; intros H; auto; try discriminate; destruct H; discriminate. }
  split; [exact Hraise|]. split.
  - intros t. unfold Transaction_init, bind.
    rewrite <- !get_float_Ok.
    destruct (get_float data "NET") as [n|]; [|discriminate].
    destruct (get_float data "Loss/Gain Amount (gal)") as [g|]; [|discriminate].
    by intros [= <-].
  - intros self rows Hin Hrej. apply Hraise in Hrej.
    unfold load_from_csv. by rewrite (read_rows_raises _ _ _ Hin Hrej).
Qed.

(** The amended C1 at a row with an unparsable net volume. *)
Lemma Transaction_init_numeric_fields_witness :
  rejected (ledger_row "abc") "NET"
  ∧ load_from_csv Analyzer_init [ledger_row "12.5"; ledger_row "abc"]
    = Raise ValueError.
Proof.
  assert (Hrej : rejected (ledger_row "abc") "NET").
  { exists "abc"%string. split; by vm_compute. }
  split; [exact Hrej|].
  apply (Transaction_init_numeric_fields (ledger_row "abc")).
  - right. left. reflexivity.
  - left. exact Hrej.
Defined.

(* ===================================================================== *)
(** ** Records of an unknown type *)
(* ===================================================================== *)

Lemma apply_record_not_mentioned b l t :
  b ≠ ""%string → mentions b t = false → apply_record b l t = l.
Proof.
  intros Hb. unfold mentions, apply_record, is_movement.
  apply truthy_true in Hb. rewrite Hb. simpl.
  intros [Hf Ht]%orb_false_iff. rewrite Hf, Ht, !andb_false_r.
  by repeat match goal with |- context [if ?c then _ else _] => destruct c end.
Qed.

Lemma lineage_of_not_mentioned b ts :
  b ≠ ""%string → existsb (mentions b) ts = false →
  lineage_of b ts = BatchLineage_init b.
Proof.
  intros Hb. unfold lineage_of. generalize (BatchLineage_init b).
  induction ts as [|t ts IH]; intros l; simpl; [done|].
  intros [Ht Hts]%orb_false_iff. by rewrite apply_record_not_mentioned, IH.
Qed.

(** C2, as stated, fails: with the single record [Bogus A -> B] batch [A]
    has a lineage in the graph; without the record it has none. *)
Lemma unknown_type_creates_batch :
  known_type (record "Bogus" "A" "B" 5) = false
  ∧ get_batch_lineage (ingest [record "Bogus" "A" "B" 5]) "A"
    ≠ get_batch_lineage (ingest []) "A".
Proof. split; [by vm_compute|]. by vm_compute. Qed.

(** C2, amended: a record [r] whose type is outside the vocabulary changes
    the lineage of no batch that another record of the sequence names as
    source or destination. A non-empty endpoint of [r] that no other record
    names is in the graph with a new, empty lineage when [r] is ingested,
    and is not in the graph when [r] is left out. *)
Theorem unknown_type_only_creates (pre post : list Transaction)
    (r : Transaction) (b : string) :
  known_type r = false →
  get_batch_lineage (ingest (pre ++ r :: post)) b
  = match get_batch_lineage (ingest (pre ++ post)) b with
    | Some l => Some l
    | None => if mentions b r then Some (BatchLineage_init b) else None
    end.
Proof.
  intros Hr. rewrite !get_batch_lineage_ingest. unfold lineage_of.
  rewrite foldl_apply_unknown by done.
  rewrite !existsb_app. simpl.
  destruct (existsb (mentions b) pre) eqn:Hpre; simpl; [done|].
  destruct (existsb (mentions b) post) eqn:Hpost; simpl.
  { by rewrite orb_true_r. }
  rewrite orb_false_r. destruct (mentions b r) eqn:Hb; [|done].
  f_equal. apply lineage_of_not_mentioned.
  - unfold mentions in Hb. apply andb_true_iff in Hb as [Hb _].
    by apply truthy_true.
  - by rewrite existsb_app, Hpre, Hpost.
Qed.

(** The amended C2 on a ledger in which [A] is also the source of a
    transfer and [B] is named by the unknown record only. *)
Lemma unknown_type_only_creates_witness :
  get_batch_lineage
    (ingest ([record "Transfer" "A" "C" 4] ++ record "Bogus" "A" "B" 5 :: [])) "A"
  = get_batch_lineage (ingest ([record "Transfer" "A" "C" 4] ++ [])) "A"
  ∧ get_batch_lineage
      (ingest ([record "Transfer" "A" "C" 4] ++ record "Bogus" "A" "B" 5 :: [])) "B"
    = Some (BatchLineage_init "B").
Proof.
  split.
  - rewrite (unknown_type_only_creates [record "Transfer" "A" "C" 4] []
               (record "Bogus" "A" "B" 5) "A"); [|reflexivity].
    by vm_compute.
  - rewrite (unknown_type_only_creates [record "Transfer" "A" "C" 4] []
               (record "Bogus" "A" "B" 5) "B"); [|reflexivity].
    by vm_compute.
Defined.

(* ===================================================================== *)
(** ** Termination and cycle markers of [get_full_lineage_tree] *)
(* ===================================================================== *)

Lemma cycle_detected_leaf (s : tree) :
  cycle_detected s = true → ∃ g, s = CycleDetected (tree_name s) g.
Proof. destruct s; try discriminate. intros _. by eexists. Qed.

(** C3: for every state of the analyzer, every batch name and every visited
    set, [get_full_lineage_tree] returns a tree, and it does so within any
    call depth of at least one frame per unvisited batch of the graph plus
    one, whatever cycles the contributing-batches edges have. In the tree
    returned, every sub-tree whose batch name is in the visited set the call
    started with, or is the name of one of its ancestors, is a
    [cycle_detected] leaf. *)
Theorem get_full_lineage_tree_terminates (self : TransactionLineageAnalyzer)
    (b : string) (v : option (gset string)) :
  ∃ t,
    get_full_lineage_tree self b v = Some t
    ∧ (∀ depth, enough_depth self v ≤ depth →
         get_full_lineage_tree_at depth self b v = Some (t, visited_after b v))
    ∧ (∀ p s, subtree_at t p s →
         tree_name s ∈ default ∅ v ∨ tree_name s ∈ p →
         ∃ g, s = CycleDetected (tree_name s) g).
Proof.
  destruct (get_full_lineage_tree_run_total self b v) as [t Ht].
  exists t. split; [|split].
  - unfold get_full_lineage_tree. by rewrite Ht.
  - intros depth Hd. rewrite <- Ht. unfold get_full_lineage_tree_run.
    apply tree_at_depth_irrelevant; unfold enough_depth in *; lia.
  - intros p s Hsub Hon. apply cycle_detected_leaf.
    by apply (cycle_detected_iff_on_path self p b v t _ s Ht Hsub).
Qed.

(** C3 on the ledger [A -> B -> C -> A]: the tree of [A] ends in a cycle
    marker for [A] below [B]. *)
Example cyclic_ledger_tree :
  get_full_lineage_tree (ingest cyclic_ledger) "A" None
  = Some (LineageNode "A" 0 false true
            [LineageNode "C" 0 false true
               [LineageNode "B" 0 false true
                  [CycleDetected "A" (Some 1%float)] (Some 2%float)]
               (Some 3%float)]
            None).
Proof. by vm_compute. Qed.

(** C3 on the same ledger: the call returns within four frames, and the
    sub-tree below [A], [C] and [B] is the cycle marker of [A]. *)
Lemma get_full_lineage_tree_terminates_witness :
  ∃ t, get_full_lineage_tree_at 4 (ingest cyclic_ledger) "A" None
       = Some (t, {[ "A"%string ]})
       ∧ ∀ s, subtree_at t ["A"; "C"; "B"]%string s → tree_name s = "A"%string →
              ∃ g, s = CycleDetected "A" g.
Proof.
  destruct (get_full_lineage_tree_terminates (ingest cyclic_ledger) "A" None)
    as (t & _ & Hdepth & Hcycle).
  exists t. split.
  - rewrite (Hdepth 4) by (vm_compute; lia). by vm_compute.
  - intros s Hs Hname. rewrite <- Hname. apply (Hcycle _ _ Hs).
    right. rewrite Hname. apply elem_of_cons. by left.
Defined.

(** C4: cycle detection is per branch. The method satisfies the equation
    of its body, in which every child is expanded with the same visited set,
    the caller's set with the caller's own name and nothing that a sibling
    added; the call leaves in the set it was given its own batch name only.
    Hence every sub-tree is the method's result for the set made of the
    initial names and the names of its ancestors, and it is a
    [cycle_detected] marker exactly when its own name is among those. *)
Theorem cycle_detection_is_per_branch (self : TransactionLineageAnalyzer)
    (b : string) (v : option (gset string)) :
  get_full_lineage_tree_run self b v
  = (let visited := default ∅ v in
     if decide (b ∈ visited) then Some (CycleDetected b None, visited)
     else
       let visited := {[ b ]} ∪ visited in
       match get_batch_lineage self b with
       | None => Some (NotFound b None, visited)
       | Some lineage =>
           match
             mapM (fun item : string * float =>
                     match get_full_lineage_tree_run self item.1 (Some visited) with
                     | Some (sub_tree, _) =>
                         Some (set_gallons_contributed sub_tree item.2)
                     | None => None
                     end)
                  (contributing_batches lineage)
           with
           | Some subs =>
               Some (LineageNode b (current_volume lineage) (is_on_hand lineage)
                       (has_left_inventory lineage) subs None,
                     visited)
           | None => None
           end
       end)
  ∧ ∃ t,
      get_full_lineage_tree_run self b v = Some (t, visited_after b v)
      ∧ ∀ p s, subtree_at t p s →
          get_full_lineage_tree self (tree_name s)
            (Some (default ∅ v ∪ list_to_set p))
          = Some (without_gallons s)
          ∧ (cycle_detected s = true
             ↔ tree_name s ∈ default ∅ v ∨ tree_name s ∈ p).
Proof.
  split; [apply get_full_lineage_tree_run_unfold|].
  destruct (get_full_lineage_tree_run_total self b v) as [t Ht].
  exists t. split; [done|]. intros p s Hsub. split.
  - destruct (subtree_at_is_run self p b v t _ s Ht Hsub) as [vs Hvs].
    unfold get_full_lineage_tree. by rewrite Hvs.
  - by apply (cycle_detected_iff_on_path self p b v t _ s Ht Hsub).
Qed.

(** C4 on the diamond ledger: [A] is expanded below [B] and again below
    [C], with no cycle marker. *)
Example diamond_ledger_tree :
  get_full_lineage_tree (ingest diamond_ledger) "D" None
  = Some (LineageNode "D" 0 false false
            [LineageNode "B" 0 false true
               [LineageNode "A" 0 false true [] (Some 1%float)] (Some 3%float);
             LineageNode "C" 0 false true
               [LineageNode "A" 0 false true [] (Some 2%float)] (Some 4%float)]
            None).
Proof. by vm_compute. Qed.

(** C4 on the same ledger: both sub-trees named [A], the one below [D]
    and [B] and the one below [D] and [C], are what the method returns for
    [A] with only their own ancestors visited, and neither is a marker. *)
Lemma cycle_detection_is_per_branch_witness :
  ∃ t, get_full_lineage_tree (ingest diamond_ledger) "D" None = Some t
       ∧ ∀ p s, (p = ["D"; "B"] ∨ p = ["D"; "C"])%string →
                subtree_at t p s → tree_name s = "A"%string →
                cycle_detected s = false
                ∧ without_gallons s = LineageNode "A" 0 false true [] None.
Proof.
  destruct (cycle_detection_is_per_branch (ingest diamond_ledger) "D" None)
    as (_ & t & Ht & Hsub).
  exists t. split; [unfold get_full_lineage_tree; by rewrite Ht|].
  intros p s Hp Hs Hname. destruct (Hsub p s Hs) as [Hrun Hiff].
  rewrite Hname in Hrun, Hiff. split.
  - apply not_true_iff_false. intros Hc. apply Hiff in Hc as [Hc|Hc].
    + by apply elem_of_empty in Hc.
    + destruct Hp as [-> | ->];
        repeat (apply elem_of_cons in Hc as [Hc|Hc]; [discriminate Hc|]);
        by apply elem_of_nil in Hc.
  - assert (Hv : ∀ p, (p = ["D"; "B"] ∨ p = ["D"; "C"])%string →
                 get_full_lineage_tree (ingest diamond_ledger) "A"
                   (Some (default ∅ None ∪ list_to_set p))
                 = Some (LineageNode "A" 0 false true [] None)).
    { intros p0 [-> | ->]; by vm_compute. }
    rewrite (Hv p Hp) in Hrun. congruence.
Defined.

(* ===================================================================== *)
(** ** On-Hand records *)
(* ===================================================================== *)

(** C5: when [t] is the last On-Hand record of the sequence whose
    destination is the batch [X], then after ingestion [X] is on hand and
    its current volume is the net volume of [t], whatever the other records
    are. *)
Theorem on_hand_last_writer_wins (pre post : list Transaction)
    (t : Transaction) (X : string) :
  X ≠ ""%string →
  op_type t = "On-Hand"%string → to_batch t = X →
  Forall (fun u => ¬ (op_type u = "On-Hand"%string ∧ to_batch u = X)) post →
  ∃ l, get_batch_lineage (ingest (pre ++ t :: post)) X = Some l
       ∧ is_on_hand l = true
       ∧ current_volume l = net t.
Proof.
  intros HX Hop Hto Hpost.
  assert (Hfor : is_on_hand_for X t = true).
  { unfold is_on_hand_for. by rewrite Hop, Hto, !String.eqb_refl. }
  assert (Hnone : existsb (is_on_hand_for X) post = false).
  { apply not_true_iff_false. intros (u & Hu & Hx)%existsb_exists.
    rewrite Forall_forall in Hpost. apply (Hpost u); [by apply list_elem_of_In|].
    unfold is_on_hand_for in Hx. apply andb_true_iff in Hx as [H1 H2].
    by apply String.eqb_eq in H1, H2. }
  rewrite get_batch_lineage_ingest.
  assert (Hm : existsb (mentions X) (pre ++ t :: post) = true).
  { rewrite existsb_app. simpl. unfold mentions at 2.
    apply truthy_true in HX. rewrite HX, Hto, String.eqb_refl. simpl.
    by rewrite !orb_true_r. }
  rewrite Hm. eexists. split; [done|]. unfold lineage_of.
  rewrite foldl_app. simpl. split.
  - by rewrite foldl_apply_is_on_hand, apply_record_is_on_hand, Hfor, orb_true_r.
  - by rewrite foldl_apply_current_volume_keep, apply_record_current_volume, Hfor.
Qed.

(** C5 at a ledger with a transfer into [X], two On-Hand records for [X]
    and a later blend out of [X]. *)
Lemma on_hand_last_writer_wins_witness :
  ∃ l, get_batch_lineage
         (ingest ([record "Transfer" "A" "X" 40; record "On-Hand" "" "X" 7]
                  ++ record "On-Hand" "" "X" 12.5
                  :: [record "Blend" "X" "B" 3])) "X" = Some l
       ∧ is_on_hand l = true
       ∧ current_volume l = 12.5%float.
Proof.
  apply (on_hand_last_writer_wins
           [record "Transfer" "A" "X" 40; record "On-Hand" "" "X" 7]
           [record "Blend" "X" "B" 3]
           (record "On-Hand" "" "X" 12.5) "X").
  - discriminate.
  - reflexivity.
  - reflexivity.
  - repeat constructor. simpl. intros [H _]. discriminate.
Defined.

(* ===================================================================== *)
(** ** Contribution weights *)
(* ===================================================================== *)

(** After ingestion the gallons that [B] records for the contributing batch
    [A] are the left-to-right sum of the net volumes of the records that
    feed [B] from [A]. *)
Lemma ingest_contribution (ts : list Transaction) (A B : string) :
  A ≠ ""%string → B ≠ ""%string → A ≠ B →
  (contributing_batches <$> get_batch_lineage (ingest ts) B)
    ≫= (fun d => PyDict.get d A)
  = match List.filter (feeds A B) ts with
    | [] => None
    | fs => Some (float_sum (map net fs))
    end.
Proof.
  intros HA HB HAB. rewrite get_batch_lineage_ingest.
  destruct (existsb (mentions B) ts) eqn:Hm; simpl.
  - by apply lineage_of_contribution.
  - destruct (List.filter (feeds A B) ts) as [|t fs] eqn:Hf; [done|].
    exfalso. assert (Hin : In t (List.filter (feeds A B) ts)) by (rewrite Hf; by left).
    apply filter_In in Hin as [Hin Ht].
    apply not_true_iff_false in Hm. apply Hm, existsb_exists. exists t.
    split; [done|]. unfold feeds, incoming_for in Ht. unfold mentions.
    apply andb_true_iff in Ht as [[_ Hto]%andb_true_iff _].
    apply truthy_true in HB. by rewrite HB, Hto, orb_true_r.
Qed.

Lemma filter_none {A : Type} (f : A → bool) (xs : list A) :
  Forall (fun x => f x = false) xs → List.filter f xs = [].
Proof.
  induction 1 as [|x xs Hx _ IH]; simpl; [done|]. by rewrite Hx.
Qed.

(** C6: two Transfer records from [A] to [B] with net volumes 5.0 and 3.0,
    in either order and anywhere in the sequence, being the records of the
    sequence that feed [B] from [A], make the lineage of [B] map the
    contributing batch [A] to 8.0. *)
Theorem contributions_accumulate (pre mid post : list Transaction)
    (t1 t2 : Transaction) (A B : string) :
  A ≠ ""%string → B ≠ ""%string → A ≠ B →
  op_type t1 = "Transfer"%string → from_batch t1 = A → to_batch t1 = B →
  op_type t2 = "Transfer"%string → from_batch t2 = A → to_batch t2 = B →
  (net t1 = 5%float ∧ net t2 = 3%float) ∨ (net t1 = 3%float ∧ net t2 = 5%float) →
  Forall (fun u => feeds A B u = false) (pre ++ mid ++ post) →
  ∃ l, get_batch_lineage (ingest (pre ++ t1 :: mid ++ t2 :: post)) B = Some l
       ∧ PyDict.get (contributing_batches l) A = Some 8%float.
Proof.
  intros HA HB HAB Ho1 Hf1 Ht1 Ho2 Hf2 Ht2 Hnet Hrest.
  apply Forall_app in Hrest as [Hpre Hrest].
  apply Forall_app in Hrest as [Hmid Hpost].
  assert (Hfeeds : ∀ t, op_type t = "Transfer"%string → from_batch t = A →
                        to_batch t = B → feeds A B t = true).
  { intros t Ho Hf Ht. unfold feeds, incoming_for, is_movement.
    by rewrite Ho, Hf, Ht, !String.eqb_refl. }
  pose proof (ingest_contribution (pre ++ t1 :: mid ++ t2 :: post) A B HA HB HAB)
    as Hc.
  rewrite List.filter_app in Hc. simpl in Hc.
  rewrite List.filter_app in Hc. simpl in Hc.
  rewrite (Hfeeds t1), (Hfeeds t2) in Hc by done.
  rewrite !filter_none in Hc by done. simpl in Hc.
  destruct (get_batch_lineage (ingest (pre ++ t1 :: mid ++ t2 :: post)) B)
    as [l|]; [|discriminate].
  exists l. split; [done|]. simpl in Hc. rewrite Hc.
  by destruct Hnet as [[-> ->]|[-> ->]]; vm_compute.
Qed.

(** C6 at two transfers of 5.0 and 3.0 gallons from [A] to [B], with a
    transfer from another source between them. *)
Lemma contributions_accumulate_witness :
  ∃ l, get_batch_lineage
         (ingest ([] ++ record "Transfer" "A" "B" 5
                  :: [record "Transfer" "C" "B" 9]
                  ++ record "Transfer" "A" "B" 3 :: [])) "B" = Some l
       ∧ PyDict.get (contributing_batches l) "A" = Some 8%float.
Proof.
  apply (contributions_accumulate [] [record "Transfer" "C" "B" 9] []
           (record "Transfer" "A" "B" 5) (record "Transfer" "A" "B" 3) "A" "B");
    try done.
  - left. split; reflexivity.
  - repeat constructor.
Defined.

(* ===================================================================== *)
(** ** Departures, receipts and the shipped batches *)
(* ===================================================================== *)

Lemma ingest_lineage_fields (ts : list Transaction) (b : string) (l : BatchLineage) :
  get_batch_lineage (ingest ts) b = Some l →
  b ≠ ""%string
  ∧ batch_name l = b
  ∧ is_on_hand l = existsb (is_on_hand_for b) ts
  ∧ has_left_inventory l = existsb (departs_from b) ts
  ∧ outgoing_transactions l = List.filter (outgoing_for b) ts
  ∧ contributing_transactions l = List.filter (incoming_for b) ts.
Proof.
  rewrite get_batch_lineage_ingest.
  destruct (existsb (mentions b) ts) eqn:Hm; [|discriminate].
  intros [= <-]. apply mentions_nonempty in Hm. unfold lineage_of.
  rewrite foldl_apply_batch_name, foldl_apply_is_on_hand,
    foldl_apply_has_left_inventory, foldl_apply_outgoing,
    foldl_apply_incoming by done.
  done.
Qed.

(** C7: in the loop of [_build_lineage], a Receipt record with the source
    batch [A] appends the record to the outgoing transactions of [A] and
    leaves [has_left_inventory] of [A] as it was, while a Transfer or Blend
    record with the source [A] appends the record and sets the flag. After
    a whole ledger, the outgoing transactions of [A] are its Transfer, Blend
    and Receipt records with source [A], and the flag is set exactly when
    one of them is a Transfer or a Blend. *)
Theorem receipt_is_not_a_departure :
  (∀ (m : gmap string BatchLineage) (t : Transaction) (A : string)
     (l : BatchLineage),
     A ≠ ""%string → from_batch t = A → m !! A = Some l →
     (op_type t = "Receipt"%string →
      ∃ l', populate m t !! A = Some l'
            ∧ outgoing_transactions l' = outgoing_transactions l ++ [t]
            ∧ has_left_inventory l' = has_left_inventory l)
     ∧ (op_type t = "Transfer"%string ∨ op_type t = "Blend"%string →
        ∃ l', populate m t !! A = Some l'
              ∧ outgoing_transactions l' = outgoing_transactions l ++ [t]
              ∧ has_left_inventory l' = true))
  ∧ (∀ (ts : list Transaction) (A : string) (l : BatchLineage),
       get_batch_lineage (ingest ts) A = Some l →
       outgoing_transactions l = List.filter (outgoing_for A) ts
       ∧ has_left_inventory l = existsb (departs_from A) ts).
Proof.
  split.
  - intros m t A l HA Hfrom Hl. rewrite populate_lookup, Hl. simpl.
    split; intros Hop; eexists; (split; [reflexivity|]);
      rewrite apply_record_outgoing, apply_record_has_left_inventory by done;
      unfold outgoing_for, departs_from, is_movement, is_departure;
      rewrite Hfrom, String.eqb_refl.
    + rewrite Hop. simpl. by rewrite orb_false_r.
    + destruct Hop as [-> | ->]; simpl; by rewrite orb_true_r.
  - intros ts A l Hl. apply ingest_lineage_fields in Hl. tauto.
Qed.

(** C7 at a graph holding a new lineage for [A], for a Receipt and for a
    Transfer from [A] to [B], and at the ledgers made of one such record. *)
Lemma receipt_is_not_a_departure_witness :
  (∃ l', populate {[ "A"%string := BatchLineage_init "A" ]}
           (record "Receipt" "A" "B" 5) !! "A"%string = Some l'
         ∧ outgoing_transactions l' = [] ++ [record "Receipt" "A" "B" 5]
         ∧ has_left_inventory l' = false)
  ∧ (∃ l', populate {[ "A"%string := BatchLineage_init "A" ]}
             (record "Transfer" "A" "B" 5) !! "A"%string = Some l'
           ∧ outgoing_transactions l' = [] ++ [record "Transfer" "A" "B" 5]
           ∧ has_left_inventory l' = true)
  ∧ (has_left_inventory
       <$> get_batch_lineage (ingest [record "Receipt" "A" "B" 5]) "A")
    = Some false
  ∧ (outgoing_transactions
       <$> get_batch_lineage (ingest [record "Receipt" "A" "B" 5]) "A")
    = Some [record "Receipt" "A" "B" 5]
  ∧ (has_left_inventory
       <$> get_batch_lineage (ingest [record "Transfer" "A" "B" 5]) "A")
    = Some true.
Proof.
  destruct receipt_is_not_a_departure as [Hstep Hledger].
  split; [|split].
  - apply (Hstep {[ "A"%string := BatchLineage_init "A" ]}
             (record "Receipt" "A" "B" 5) "A" (BatchLineage_init "A"));
      [done | reflexivity | by vm_compute | reflexivity].
  - apply (Hstep {[ "A"%string := BatchLineage_init "A" ]}
             (record "Transfer" "A" "B" 5) "A" (BatchLineage_init "A"));
      [done | reflexivity | by vm_compute | by left].
  - destruct (get_batch_lineage (ingest [record "Receipt" "A" "B" 5]) "A")
      as [l|] eqn:Hl; [|by vm_compute in Hl].
    destruct (get_batch_lineage (ingest [record "Transfer" "A" "B" 5]) "A")
      as [l2|] eqn:Hl2; [|by vm_compute in Hl2].
    destruct (Hledger _ _ _ Hl) as [Ho Hh].
    destruct (Hledger _ _ _ Hl2) as [_ Hh2].
    simpl. rewrite Ho, Hh, Hh2. done.
Defined.

(** C8: [get_all_shipped_batches] lists, once each, exactly the batches of
    the graph whose [has_left_inventory] is true and whose [is_on_hand] is
    false; after ingestion a batch that is the source of a Transfer record
    and the destination of no On-Hand record is among them. *)
Theorem shipped_batches_exact :
  (∀ (self : TransactionLineageAnalyzer) (b : string),
     b ∈ get_all_shipped_batches self
     ↔ ∃ l, get_batch_lineage self b = Some l
            ∧ has_left_inventory l = true ∧ is_on_hand l = false)
  ∧ (∀ self : TransactionLineageAnalyzer, NoDup (get_all_shipped_batches self))
  ∧ (∀ (ts : list Transaction) (t : Transaction) (A : string),
       A ≠ ""%string →
       In t ts → op_type t = "Transfer"%string → from_batch t = A →
       Forall (fun u => ¬ (op_type u = "On-Hand"%string ∧ to_batch u = A)) ts →
       A ∈ get_all_shipped_batches (ingest ts)
       ∧ A ∉ get_all_on_hand_batches (ingest ts)).
Proof.
  assert (Hshipped : ∀ (self : TransactionLineageAnalyzer) (b : string),
     b ∈ get_all_shipped_batches self
     ↔ ∃ l, get_batch_lineage self b = Some l
            ∧ has_left_inventory l = true ∧ is_on_hand l = false).
  { intros self b. unfold get_all_shipped_batches.
    rewrite elem_of_filtered_names. simpl.
    split; intros (l & Hl & H); exists l; (split; [done|]).
    - apply andb_true_iff in H as [H1 H2]. by apply negb_true_iff in H2.
    - destruct H as [-> ->]. done. }
  split; [exact Hshipped|]. split; [intros self; apply NoDup_filtered_names|].
  intros ts t A HA Hin Hop Hfrom Hnone.
  assert (Hm : existsb (mentions A) ts = true).
  { apply existsb_exists. exists t. split; [done|]. unfold mentions.
    apply truthy_true in HA. by rewrite HA, Hfrom, String.eqb_refl. }
  pose proof (get_batch_lineage_ingest ts A) as Hl. rewrite Hm in Hl.
  destruct (ingest_lineage_fields _ _ _ Hl) as (_ & _ & Hon & Hleft & _).
  assert (Hon' : is_on_hand (lineage_of A ts) = false).
  { rewrite Hon. apply not_true_iff_false. intros (u & Hu & Hx)%existsb_exists.
    rewrite Forall_forall in Hnone. apply (Hnone u); [by apply list_elem_of_In|].
    unfold is_on_hand_for in Hx. apply andb_true_iff in Hx as [H1 H2].
    by apply String.eqb_eq in H1, H2. }
  assert (Hleft' : has_left_inventory (lineage_of A ts) = true).
  { rewrite Hleft. apply existsb_exists. exists t. split; [done|].
    unfold departs_from, is_departure. by rewrite Hop, Hfrom, !String.eqb_refl. }
  split.
  - apply Hshipped. eauto.
  - unfold get_all_on_hand_batches. rewrite elem_of_filtered_names. simpl.
    intros (l & Hl2 & Hx). congruence.
Qed.

(** C8 at a ledger in which [A] is transferred away and [B] is on hand. *)
Lemma shipped_batches_exact_witness :
  "A"%string ∈ get_all_shipped_batches
        (ingest [record "Transfer" "A" "B" 5; record "On-Hand" "" "B" 5])
  ∧ "A"%string ∉ get_all_on_hand_batches
        (ingest [record "Transfer" "A" "B" 5; record "On-Hand" "" "B" 5]).
Proof.
  destruct shipped_batches_exact as (_ & _ & H).
  apply (H [record "Transfer" "A" "B" 5; record "On-Hand" "" "B" 5]
           (record "Transfer" "A" "B" 5) "A"); try done.
  - by left.
  - repeat constructor; simpl; intros [? ?]; discriminate.
Defined.

(* ===================================================================== *)
(** ** Contributing batches never name the batch itself *)
(* ===================================================================== *)

(** C9: after ingestion, the contributing batches of a batch [B] of the
    graph have neither [B] nor the empty string among their keys, and the
    incoming transactions of [B] are all the Transfer, Blend, Receipt and
    Adjustment records whose destination is [B], in ledger order, those
    whose source is [B] or empty included. *)
Theorem no_self_or_empty_contribution (ts : list Transaction) (B : string)
    (l : BatchLineage) :
  get_batch_lineage (ingest ts) B = Some l →
  (B ∉ PyDict.keys (contributing_batches l))
  ∧ (""%string ∉ PyDict.keys (contributing_batches l))
  ∧ contributing_transactions l = List.filter (incoming_for B) ts.
Proof.
  intros Hl. destruct (ingest_lineage_fields _ _ _ Hl) as (HB & _ & _ & _ & _ & Hin).
  rewrite get_batch_lineage_ingest in Hl.
  destruct (existsb (mentions B) ts); [|discriminate]. injection Hl as <-.
  split; [|split; [|done]].
  - intros Hk. apply foldl_apply_keys in Hk as [Hk|[_ Hk]].
    + by apply elem_of_nil in Hk.
    + by apply Hk.
  - intros Hk. apply foldl_apply_keys in Hk as [Hk|[Hk _]].
    + by apply elem_of_nil in Hk.
    + by apply Hk.
Qed.

(** C9 at a ledger with a transfer from [B] to itself and an adjustment of
    [B] without a source. *)
Lemma no_self_or_empty_contribution_witness :
  ∃ l, get_batch_lineage
         (ingest [record "Transfer" "B" "B" 5; record "Adjustment" "" "B" 1]) "B"
       = Some l
       ∧ ("B"%string ∉ PyDict.keys (contributing_batches l))
       ∧ (""%string ∉ PyDict.keys (contributing_batches l))
       ∧ contributing_transactions l
         = [record "Transfer" "B" "B" 5; record "Adjustment" "" "B" 1].
Proof.
  destruct (get_batch_lineage
              (ingest [record "Transfer" "B" "B" 5; record "Adjustment" "" "B" 1]) "B")
    as [l|] eqn:Hl; [|by vm_compute in Hl].
  exists l. split; [done|].
  exact (no_self_or_empty_contribution _ _ _ Hl).
Defined.

(* ===================================================================== *)
(** ** The ['shipped'] filter of the edge export *)
(* ===================================================================== *)

(** C10: with [batch_filter='shipped'] the exported rows have as
    destination exactly the batches whose [has_left_inventory] is true,
    whatever their [is_on_hand]; every batch of [get_all_shipped_batches]
    is among them, and for some ledger a batch that is on hand is among
    them and not in [get_all_shipped_batches]. *)
Theorem shipped_export_ignores_on_hand :
  (∀ (self : TransactionLineageAnalyzer) (b : string),
     b ∈ destinations (export_rows self (Some "shipped"%string))
     ↔ ∃ l, get_batch_lineage self b = Some l ∧ has_left_inventory l = true)
  ∧ (∀ (self : TransactionLineageAnalyzer) (b : string),
       b ∈ get_all_shipped_batches self →
       b ∈ destinations (export_rows self (Some "shipped"%string)))
  ∧ (∃ (ts : list Transaction) (b : string) (l : BatchLineage),
       get_batch_lineage (ingest ts) b = Some l
       ∧ is_on_hand l = true
       ∧ b ∈ destinations (export_rows (ingest ts) (Some "shipped"%string))
       ∧ b ∉ get_all_shipped_batches (ingest ts)).
Proof.
  split; [apply elem_of_shipped_export|]. split.
  - intros self b. unfold get_all_shipped_batches.
    rewrite elem_of_filtered_names, elem_of_shipped_export. simpl.
    intros (l & Hl & [H _]%andb_true_iff). eauto.
  - exists partly_shipped_ledger, "A"%string.
    destruct (get_batch_lineage (ingest partly_shipped_ledger) "A")
      as [l|] eqn:Hl; [|by vm_compute in Hl].
    assert (Hon : is_on_hand l = true).
    { apply ingest_lineage_fields in Hl as (_ & _ & -> & _). by vm_compute. }
    assert (Hleft : has_left_inventory l = true).
    { apply ingest_lineage_fields in Hl as (_ & _ & _ & -> & _). by vm_compute. }
    exists l. split; [done|]. split; [done|]. split.
    + apply elem_of_shipped_export. eauto.
    + unfold get_all_shipped_batches. rewrite elem_of_filtered_names. simpl.
      intros (l' & Hl' & Hx). rewrite Hl in Hl'. injection Hl' as <-.
      rewrite Hon, andb_false_r in Hx. discriminate.
Qed.

(** C10 on the ledger in which [A] has shipped to [B] and is on hand: the
    export has a row for [A] and [get_all_shipped_batches] is empty. *)
Example partly_shipped_export :
  export_lineage_to_csv (ingest partly_shipped_ledger) (Some "shipped"%string)
  = Some [ {| Destination_Batch := "A"; Source_Batch := "";
              Gallons_Contributed := PyInt 0;
              Destination_Current_Volume := 2;
              Destination_Is_On_Hand := true;
              Destination_Has_Left := true |} ]
  ∧ get_all_shipped_batches (ingest partly_shipped_ledger) = [].
Proof. split; by vm_compute. Qed.

(* ===================================================================== *)
(** ** The graph after ingestion *)
(* ===================================================================== *)

Lemma existsb_mentions ts b :
  existsb (mentions b) ts = true
  ↔ b ≠ ""%string ∧ ∃ t, In t ts ∧ (from_batch t = b ∨ to_batch t = b).
Proof.
  rewrite existsb_exists. unfold mentions. split.
  - intros (t & Hin & [Hb Hft]%andb_true_iff). split; [by apply truthy_true|].
    exists t. split; [done|]. apply orb_true_iff in Hft as [H|H];
      apply String.eqb_eq in H; auto.
  - intros (Hb & t & Hin & Hft). exists t. split; [done|].
    apply truthy_true in Hb. rewrite Hb. simpl. apply orb_true_iff.
    destruct Hft as [<-|<-]; rewrite String.eqb_refl; auto.
Qed.

Lemma existsb_is_on_hand_for ts b :
  existsb (is_on_hand_for b) ts = true
  ↔ ∃ t, In t ts ∧ op_type t = "On-Hand"%string ∧ to_batch t = b.
Proof.
  rewrite existsb_exists. unfold is_on_hand_for. split.
  - intros (t & Hin & [H1 H2]%andb_true_iff). apply String.eqb_eq in H1, H2. eauto.
  - intros (t & Hin & H1 & H2). exists t. split; [done|].
    by rewrite H1, H2, !String.eqb_refl.
Qed.

(** X1: the first pass gives the graph one node for every non-empty batch
    name that a record of the ledger has as source or destination, of
    whatever operation type, and for no other name; the node stored under
    a name carries that name. *)
Theorem graph_nodes_are_the_named_batches (ts : list Transaction) (b : string) :
  (is_Some (get_batch_lineage (ingest ts) b)
   ↔ b ≠ ""%string ∧ ∃ t, In t ts ∧ (from_batch t = b ∨ to_batch t = b))
  ∧ (∀ l, get_batch_lineage (ingest ts) b = Some l → batch_name l = b).
Proof.
  split.
  - rewrite get_batch_lineage_ingest, <- existsb_mentions.
    destruct (existsb (mentions b) ts); split; intros H; try done.
  - intros l Hl. by apply ingest_lineage_fields in Hl as (_ & ? & _).
Qed.

(** X2: [get_all_on_hand_batches] lists, once each, exactly the batches of
    the graph whose [is_on_hand] is true; after ingestion these are the
    non-empty names that are the destination of an On-Hand record. *)
Theorem on_hand_batches_exact :
  (∀ (self : TransactionLineageAnalyzer) (b : string),
     b ∈ get_all_on_hand_batches self
     ↔ ∃ l, get_batch_lineage self b = Some l ∧ is_on_hand l = true)
  ∧ (∀ self : TransactionLineageAnalyzer, NoDup (get_all_on_hand_batches self))
  ∧ (∀ (ts : list Transaction) (b : string),
       b ∈ get_all_on_hand_batches (ingest ts)
       ↔ b ≠ ""%string
         ∧ ∃ t, In t ts ∧ op_type t = "On-Hand"%string ∧ to_batch t = b).
Proof.
  assert (H1 : ∀ (self : TransactionLineageAnalyzer) (b : string),
     b ∈ get_all_on_hand_batches self
     ↔ ∃ l, get_batch_lineage self b = Some l ∧ is_on_hand l = true).
  { intros self b. unfold get_all_on_hand_batches.
    by rewrite elem_of_filtered_names. }
  split; [exact H1|]. split; [intros self; apply NoDup_filtered_names|].
  intros ts b. rewrite H1, <- existsb_is_on_hand_for. split.
  - intros (l & Hl & Hon).
    apply ingest_lineage_fields in Hl as (Hb & _ & Hon' & _). split; [done|congruence].
  - intros (Hb & Hex).
    assert (Hm : existsb (mentions b) ts = true).
    { apply existsb_mentions. split; [done|].
      apply existsb_is_on_hand_for in Hex as (t & Hin & _ & Hto). eauto. }
    pose proof (get_batch_lineage_ingest ts b) as Hl. rewrite Hm in Hl.
    exists (lineage_of b ts). split; [done|].
    apply ingest_lineage_fields in Hl as (_ & _ & -> & _). done.
Qed.

(** X3: the current volume comes from On-Hand records only. A batch of the
    graph that no On-Hand record names as destination has volume [0.0] and
    is not on hand, whatever was transferred, blended, received or adjusted
    into or out of it. *)
Theorem volume_only_from_on_hand (ts : list Transaction) (b : string)
    (l : BatchLineage) :
  get_batch_lineage (ingest ts) b = Some l →
  Forall (fun t => ¬ (op_type t = "On-Hand"%string ∧ to_batch t = b)) ts →
  current_volume l = 0%float ∧ is_on_hand l = false.
Proof.
  intros Hl Hnone.
  assert (Hex : existsb (is_on_hand_for b) ts = false).
  { apply not_true_iff_false. intros (t & Hin & Hop & Hto)%existsb_is_on_hand_for.
    rewrite Forall_forall in Hnone. apply (Hnone t); [by apply list_elem_of_In|done]. }
  pose proof (ingest_lineage_fields _ _ _ Hl) as (_ & _ & Hon & _).
  rewrite get_batch_lineage_ingest in Hl.
  destruct (existsb (mentions b) ts); [|discriminate]. injection Hl as <-.
  split; [|congruence].
  unfold lineage_of. by rewrite foldl_apply_current_volume_keep.
Qed.

(** X3 at a batch that receives a transfer and an adjustment and feeds a
    blend. *)
Lemma volume_only_from_on_hand_witness :
  ∃ l, get_batch_lineage
         (ingest [record "Transfer" "A" "B" 40; record "Adjustment" "" "B" (-3);
                  record "Blend" "B" "C" 10]) "B" = Some l
       ∧ current_volume l = 0%float ∧ is_on_hand l = false.
Proof.
  destruct (get_batch_lineage
              (ingest [record "Transfer" "A" "B" 40; record "Adjustment" "" "B" (-3);
                       record "Blend" "B" "C" 10]) "B") as [l|] eqn:Hl;
    [|by vm_compute in Hl].
  exists l. split; [done|].
  apply (volume_only_from_on_hand _ _ _ Hl).
  repeat constructor; simpl; intros [H _]; discriminate H.
Defined.

(* ===================================================================== *)
(** ** The second pass, record by record *)
(* ===================================================================== *)

Lemma populate_dom (m : gmap string BatchLineage) (t : Transaction) :
  dom (populate m t) = dom m.
Proof.
  apply set_eq. intros b. rewrite !elem_of_dom, populate_lookup.
  by rewrite fmap_is_Some.
Qed.

Lemma apply_record_other b l t :
  from_batch t ≠ b → to_batch t ≠ b → apply_record b l t = l.
Proof.
  intros Hf Ht. unfold apply_record.
  apply String.eqb_neq in Hf, Ht. rewrite Hf, Ht, !andb_false_r.
  by repeat match goal with |- context [if ?c then _ else _] => destruct c end.
Qed.

(** X4: one step of the second loop of [_build_lineage] neither adds a
    batch to the graph nor removes one, and it leaves the lineage of every
    batch other than the record's source and destination as it was. *)
Theorem populate_touches_endpoints_only (m : gmap string BatchLineage)
    (t : Transaction) :
  dom (populate m t) = dom m
  ∧ ∀ b, b ≠ from_batch t → b ≠ to_batch t → populate m t !! b = m !! b.
Proof.
  split; [apply populate_dom|].
  intros b Hf Ht. rewrite populate_lookup.
  destruct (m !! b) as [l|]; [|done]. simpl.
  by rewrite apply_record_other.
Qed.

(** X5: an Adjustment record with source [A] and another destination [B]
    in the graph credits its net volume to the contribution of [A] in [B]
    and is appended to the incoming transactions of [B], while the lineage
    of [A] stays as it was: nothing is appended to its outgoing
    transactions and [has_left_inventory] is not set. *)
Theorem adjustment_is_one_sided (m : gmap string BatchLineage)
    (t : Transaction) (A B : string) (l : BatchLineage) :
  op_type t = "Adjustment"%string → from_batch t = A → to_batch t = B →
  A ≠ ""%string → B ≠ ""%string → A ≠ B →
  m !! B = Some l → batch_name l = B →
  populate m t !! A = m !! A
  ∧ ∃ l', populate m t !! B = Some l'
          ∧ PyDict.get (contributing_batches l') A
            = Some (default 0%float (PyDict.get (contributing_batches l) A) + net t)%float
          ∧ contributing_transactions l' = contributing_transactions l ++ [t]
          ∧ outgoing_transactions l' = outgoing_transactions l
          ∧ has_left_inventory l' = has_left_inventory l.
Proof.
  intros Hop Hf Ht HA HB HAB Hl Hname. split.
  - rewrite populate_lookup. destruct (m !! A) as [lA|]; [|done]. simpl. f_equal.
    unfold apply_record, is_movement. rewrite Hop, Ht. simpl.
    apply String.eqb_neq in HAB. rewrite String.eqb_sym in HAB.
    by rewrite HAB, andb_false_r.
  - rewrite populate_lookup, Hl. simpl. eexists. split; [reflexivity|].
    rewrite apply_record_get, apply_record_incoming, apply_record_outgoing,
      apply_record_has_left_inventory by done.
    unfold feeds, incoming_for, outgoing_for, departs_from, is_movement,
      is_departure.
    rewrite Hop, Hf, Ht, !String.eqb_refl. simpl.
    by rewrite app_nil_r, orb_false_r.
Qed.

(** X5 at a graph with new lineages for [A] and [B]. *)
Lemma adjustment_is_one_sided_witness :
  populate {[ "A"%string := BatchLineage_init "A"; "B"%string := BatchLineage_init "B" ]}
    (record "Adjustment" "A" "B" 2.5) !! "A"%string
  = Some (BatchLineage_init "A")
  ∧ ∃ l', populate
            {[ "A"%string := BatchLineage_init "A"; "B"%string := BatchLineage_init "B" ]}
            (record "Adjustment" "A" "B" 2.5) !! "B"%string = Some l'
          ∧ PyDict.get (contributing_batches l') "A" = Some 2.5%float.
Proof.
  destruct (adjustment_is_one_sided
              {[ "A"%string := BatchLineage_init "A"; "B"%string := BatchLineage_init "B" ]}
              (record "Adjustment" "A" "B" 2.5) "A" "B" (BatchLineage_init "B"))
    as [HA (l' & Hl' & Hget & _)]; try done.
  split.
  - rewrite HA. by vm_compute.
  - exists l'. split; [done|]. rewrite Hget. by vm_compute.
Defined.

(* ===================================================================== *)
(** ** Loading files *)
(* ===================================================================== *)

Lemma read_rows_Ok rows acc ts :
  read_rows rows acc = Ok ts
  ↔ ∃ new, Forall2 (fun r t => Transaction_init r = Ok t) rows new
           ∧ ts = acc ++ new.
Proof.
  revert acc. induction rows as [|r rows IH]; intros acc; simpl.
  - split.
    + intros [= <-]. exists []. split; [constructor | by rewrite app_nil_r].
    + intros (new & Hf & ->). apply Forall2_nil_inv_l in Hf as ->.
      by rewrite app_nil_r.
  - destruct (Transaction_init r) as [t|e] eqn:Ht; simpl.
    + rewrite IH. split.
      * intros (new & Hf & ->). exists (t :: new).
        split; [by constructor | by rewrite <- app_assoc].
      * intros (new & Hf & ->).
        apply Forall2_cons_inv_l in Hf as (t' & new' & Ht' & Hf & ->).
        exists new'. split; [done|]. rewrite <- app_assoc. simpl. congruence.
    + split; [discriminate|].
      intros (new & Hf & _).
      apply Forall2_cons_inv_l in Hf as (t' & new' & Ht' & _). congruence.
Qed.

Lemma read_rows_app rows1 rows2 acc :
  read_rows (rows1 ++ rows2) acc
  = bind (read_rows rows1 acc) (read_rows rows2).
Proof.
  revert acc. induction rows1 as [|r rows1 IH]; intros acc; simpl; [done|].
  destruct (Transaction_init r); simpl; [apply IH | done].
Qed.

Lemma Transaction_init_Raise data :
  Transaction_init data = Raise ValueError
  ↔ rejected data "NET" ∨ rejected data "Loss/Gain Amount (gal)".
Proof.
  unfold Transaction_init, bind.
  rewrite <- !(get_float_Raise _ _ ValueError).
  destruct (get_float data "NET") as [n|[]];
    destruct (get_float data "Loss/Gain Amount (gal)") as [g|[]];
    split; intros H; auto; try discriminate; destruct H; discriminate.
Qed.

Lemma read_rows_Raise rows acc :
  read_rows rows acc = Raise ValueError
  ↔ Exists (fun r => Transaction_init r = Raise ValueError) rows.
Proof.
  revert acc. induction rows as [|r rows IH]; intros acc; simpl.
  - split; [discriminate | intros H; inversion H].
  - rewrite Exists_cons. destruct (Transaction_init r) as [t|[]]; simpl.
    + rewrite IH. split; [auto | intros [?|?]; [discriminate | done]].
    + split; auto.
Qed.

Lemma load_from_csv_Ok (rows : list row) (a : TransactionLineageAnalyzer) :
  load_from_csv Analyzer_init rows = Ok a
  ↔ ∃ ts, Forall2 (fun r t => Transaction_init r = Ok t) rows ts ∧ a = ingest ts.
Proof.
  unfold load_from_csv. simpl. split.
  - destruct (read_rows rows []) as [ts|] eqn:Hts; simpl; [|discriminate].
    intros [= <-]. apply read_rows_Ok in Hts as (new & Hf & ->). eauto.
  - intros (ts & Hf & ->).
    assert (Hts : read_rows rows [] = Ok ts) by (apply read_rows_Ok; eauto).
    by rewrite Hts.
Qed.

(** X6: loading is all or nothing and keeps the order of the file. On a new
    analyzer [load_from_csv] returns exactly when every row of the file
    gives a transaction; the analyzer then holds these transactions in file
    order, with the graph built over them. It raises [ValueError] exactly
    when some row has a text that [float] rejects in one of its two numeric
    fields. *)
Theorem load_from_csv_all_or_nothing (rows : list row) :
  (∀ a, load_from_csv Analyzer_init rows = Ok a
        ↔ ∃ ts, Forall2 (fun r t => Transaction_init r = Ok t) rows ts
                ∧ a = ingest ts)
  ∧ (load_from_csv Analyzer_init rows = Raise ValueError
     ↔ Exists (fun r => rejected r "NET" ∨ rejected r "Loss/Gain Amount (gal)")
              rows).
Proof.
  split.
  - intros a. apply load_from_csv_Ok.
  - unfold load_from_csv. simpl.
    assert (Hex : Exists (fun r => rejected r "NET"
                                   ∨ rejected r "Loss/Gain Amount (gal)") rows
                  ↔ Exists (fun r => Transaction_init r = Raise ValueError) rows).
    { rewrite !Exists_exists. by setoid_rewrite Transaction_init_Raise. }
    rewrite Hex, <- (read_rows_Raise rows []).
    destruct (read_rows rows []) as [ts|[]]; simpl; split; try done; discriminate.
Qed.

Lemma ingest_transactions ts : transactions (ingest ts) = ts.
Proof. reflexivity. Qed.

Lemma dom_ingest ts : dom (batch_lineages (ingest ts)) = all_batches ts.
Proof.
  apply set_eq. intros b. rewrite elem_of_dom, elem_of_all_batches.
  change (batch_lineages (ingest ts) !! b) with (get_batch_lineage (ingest ts) b).
  rewrite get_batch_lineage_ingest.
  destruct (existsb (mentions b) ts); split; intros H; done.
Qed.

Lemma create_lineages_covered (m : gmap string BatchLineage) (s : gset string) :
  dom m ⊆ s → create_lineages m s = create_lineages ∅ s.
Proof.
  intros Hsub. apply map_eq. intros b. rewrite !create_lineages_lookup.
  destruct (decide (b ∈ s)) as [|Hnin]; [done|].
  rewrite lookup_empty. apply not_elem_of_dom. intros Hin. by apply Hnin, Hsub.
Qed.

Lemma build_lineage_again ts new :
  _build_lineage {| transactions := ts ++ new;
                    batch_lineages := batch_lineages (ingest ts) |}
  = ingest (ts ++ new).
Proof.
  remember (batch_lineages (ingest ts)) as m1 eqn:Hm1.
  unfold ingest, _build_lineage. simpl. f_equal. f_equal.
  apply create_lineages_covered. rewrite Hm1, dom_ingest.
  intros b. rewrite !elem_of_all_batches, existsb_app.
  intros ->. done.
Qed.

(** X7: an analyzer can be loaded again. Loading a second file into an
    analyzer that was built from a first one gives what loading the two
    files as one gives: the transactions of both in order and the graph
    built over all of them, nothing of the first graph being counted
    twice; it raises when loading the two as one raises. *)
Theorem load_from_csv_again (rows1 rows2 : list row)
    (a1 : TransactionLineageAnalyzer) :
  load_from_csv Analyzer_init rows1 = Ok a1 →
  load_from_csv a1 rows2 = load_from_csv Analyzer_init (rows1 ++ rows2).
Proof.
  intros H1. unfold load_from_csv in H1.
  cbn [Analyzer_init transactions batch_lineages] in H1.
  destruct (read_rows rows1 []) as [ts1|] eqn:Hr1; cbn [bind] in H1; [|discriminate].
  injection H1 as <-. fold (ingest ts1).
  unfold load_from_csv. cbn [Analyzer_init transactions batch_lineages].
  rewrite read_rows_app, Hr1, ingest_transactions. cbn [bind].
  destruct (read_rows rows2 ts1) as [ts|] eqn:Hr2; cbn [bind]; [|done].
  apply read_rows_Ok in Hr2 as (new & _ & ->).
  by rewrite build_lineage_again.
Qed.

(** X7 at two files of one row each. *)
Lemma load_from_csv_again_witness :
  ∃ a1, load_from_csv Analyzer_init [ledger_row "5.0"] = Ok a1
        ∧ load_from_csv a1 [ledger_row "3.0"]
          = load_from_csv Analyzer_init [ledger_row "5.0"; ledger_row "3.0"]
        ∧ ((contributing_batches <$> get_batch_lineage a1 "B")
             ≫= (fun d => PyDict.get d "A")) = Some 5%float.
Proof.
  destruct (load_from_csv Analyzer_init [ledger_row "5.0"]) as [a1|] eqn:H1;
    [|by vm_compute in H1].
  exists a1. split; [done|]. split.
  - apply (load_from_csv_again [ledger_row "5.0"] [ledger_row "3.0"] a1 H1).
  - vm_compute in H1. injection H1 as <-. by vm_compute.
Defined.

(* ===================================================================== *)
(** ** The counts of [export_to_json] *)
(* ===================================================================== *)

Lemma length_filter_exclusive {A : Type} (f g : A → bool) (xs : list A) :
  (∀ x, f x = true → g x = true → False) →
  length (List.filter f xs) + length (List.filter g xs) ≤ length xs.
Proof.
  intros Hex. induction xs as [|x xs IH]; simpl; [done|].
  destruct (f x) eqn:Hf, (g x) eqn:Hg; simpl; try lia.
  exfalso. by apply (Hex x).
Qed.

Lemma size_all_batches_from (s : gset string) ts :
  size (foldl (fun s trans =>
               let s := if truthy (from_batch trans)
                        then {[ from_batch trans ]} ∪ s else s in
               if truthy (to_batch trans) then {[ to_batch trans ]} ∪ s else s)
            s ts)
  ≤ size s + 2 * length ts.
Proof.
  assert (Hadd : ∀ (x : string) (X : gset string), size ({[ x ]} ∪ X) ≤ 1 + size X).
  { intros x X. rewrite size_union_alt, size_singleton.
    pose proof (subseteq_size (X ∖ {[ x ]}) X) as Hle.
    assert (X ∖ {[ x ]} ⊆ X) as Hsub by (intros y [? _]%elem_of_difference; done).
    specialize (Hle Hsub). lia. }
  revert s. induction ts as [|t ts IH]; intros s; simpl; [lia|].
  etrans; [apply IH|].
  destruct (truthy (from_batch t)), (truthy (to_batch t)).
  - pose proof (Hadd (to_batch t) ({[ from_batch t ]} ∪ s)).
    pose proof (Hadd (from_batch t) s). lia.
  - pose proof (Hadd (from_batch t) s). lia.
  - pose proof (Hadd (to_batch t) s). lia.
  - lia.
Qed.

(** X8: the counts in the metadata of [export_to_json] are consistent. No
    batch is listed both as on hand and as shipped, so the on-hand and
    shipped counts together never exceed the number of batches; after
    ingestion the transaction count is the length of the ledger and there
    are at most two batches per transaction. *)
Theorem export_metadata_counts :
  (∀ (self : TransactionLineageAnalyzer) (b : string),
     b ∈ get_all_on_hand_batches self → b ∉ get_all_shipped_batches self)
  ∧ (∀ self : TransactionLineageAnalyzer,
       on_hand_batches (export_metadata self)
       + shipped_batches (export_metadata self)
       ≤ total_batches (export_metadata self))
  ∧ (∀ ts : list Transaction,
       total_transactions (export_metadata (ingest ts)) = length ts
       ∧ total_batches (export_metadata (ingest ts)) ≤ 2 * length ts).
Proof.
  split; [|split].
  - intros self b. unfold get_all_on_hand_batches, get_all_shipped_batches.
    rewrite !elem_of_filtered_names. simpl.
    intros (l & Hl & Hon) (l' & Hl' & Hs). rewrite Hl in Hl'. injection Hl' as <-.
    rewrite Hon, andb_false_r in Hs. discriminate.
  - intros self. unfold export_metadata, get_all_on_hand_batches,
      get_all_shipped_batches. simpl.
    rewrite !length_fmap, <- length_map_to_list.
    apply length_filter_exclusive.
    intros [k l]. simpl. intros -> H. by rewrite andb_false_r in H.
  - intros ts. split; [done|].
    unfold export_metadata. simpl.
    change (size (foldl populate (create_lineages ∅ (all_batches ts)) ts))
      with (size (batch_lineages (ingest ts))).
    rewrite <- size_dom, dom_ingest. unfold all_batches.
    etrans; [apply size_all_batches_from|]. rewrite size_empty. lia.
Qed.

Lemma add_incoming_counts l t g :
  length (contributing_batches l) ≤ length (contributing_transactions l) →
  length (contributing_batches (add_incoming_transaction l t g))
  ≤ length (contributing_transactions (add_incoming_transaction l t g)).
Proof.
  assert (Hset : ∀ d k v, length (PyDict.set d k v) ≤ S (length d)).
  { induction d as [|[k0 v0] d IH]; intros k v; simpl; [lia|].
    destruct (String.eqb k0 k); simpl; [lia|]. specialize (IH k v). lia. }
  assert (Hkeep : ∀ d k v v', PyDict.get d k = Some v' →
                              length (PyDict.set d k v) = length d).
  { induction d as [|[k0 v0] d IH]; intros k v v'; simpl; [discriminate|].
    destruct (String.eqb k0 k); simpl; [done|]. intros H. by rewrite (IH _ _ _ H). }
  intros Hle. unfold add_incoming_transaction.
  destruct (truthy (from_batch t) && negb (String.eqb (from_batch t) (batch_name l)));
    [|simpl; rewrite length_app; simpl; lia].
  unfold PyDict.mem.
  destruct (PyDict.get (contributing_batches l) (from_batch t)) as [v|] eqn:Hget.
  - rewrite Hget. simpl. rewrite length_app, (Hkeep _ _ _ _ Hget). simpl. lia.
  - rewrite PyDictFacts.get_set, String.eqb_refl. simpl.
    rewrite length_app. simpl.
    rewrite (Hkeep _ _ _ 0%float) by (by rewrite PyDictFacts.get_set, String.eqb_refl).
    pose proof (Hset (contributing_batches l) (from_batch t) 0%float). lia.
Qed.

Lemma apply_record_counts b l t :
  length (contributing_batches l) ≤ length (contributing_transactions l) →
  length (contributing_batches (apply_record b l t))
  ≤ length (contributing_transactions (apply_record b l t)).
Proof.
  intros Hle. pose proof (add_incoming_counts l t (net t) Hle) as Hin.
  unfold apply_record, add_outgoing_transaction.
  repeat match goal with |- context [if ?c then _ else _] => destruct c end;
    simpl; done.
Qed.

Lemma lineage_of_counts b ts :
  length (contributing_batches (lineage_of b ts))
  ≤ length (contributing_transactions (lineage_of b ts)).
Proof.
  unfold lineage_of.
  assert (H : ∀ l, length (contributing_batches l) ≤ length (contributing_transactions l) →
              length (contributing_batches (foldl (apply_record b) l ts))
              ≤ length (contributing_transactions (foldl (apply_record b) l ts))).
  { induction ts as [|t ts IH]; intros l Hle; simpl; [done|].
    apply IH. by apply apply_record_counts. }
  apply H. simpl. lia.
Qed.

(** X9: the counts of [BatchLineage.to_dict] after ingestion. The incoming
    count of a batch is the number of Transfer, Blend, Receipt and
    Adjustment records whose destination it is, the outgoing count the
    number of Transfer, Blend and Receipt records whose source it is, and
    the number of contributing batches never exceeds the incoming count. *)
Theorem to_dict_counts (ts : list Transaction) (b : string) (d : lineage_dict) :
  export_batches (ingest ts) !! b = Some d →
  incoming_transaction_count d = length (List.filter (incoming_for b) ts)
  ∧ outgoing_transaction_count d = length (List.filter (outgoing_for b) ts)
  ∧ total_contributing_batches d ≤ incoming_transaction_count d
  ∧ d_batch_name d = b.
Proof.
  unfold export_batches. rewrite lookup_fmap.
  change (batch_lineages (ingest ts) !! b) with (get_batch_lineage (ingest ts) b).
  destruct (get_batch_lineage (ingest ts) b) as [l|] eqn:Hl; [|discriminate].
  simpl. intros [= <-]. simpl.
  pose proof (ingest_lineage_fields _ _ _ Hl) as (_ & Hn & _ & _ & Ho & Hi).
  rewrite Ho, Hi. split; [done|]. split; [done|]. split; [|done].
  rewrite <- Hi. rewrite get_batch_lineage_ingest in Hl.
  destruct (existsb (mentions b) ts); [|discriminate]. injection Hl as <-.
  apply lineage_of_counts.
Qed.

(** X9 at a batch fed twice from one source and once from itself. *)
Lemma to_dict_counts_witness :
  ∃ d, export_batches
         (ingest [record "Transfer" "A" "B" 5; record "Transfer" "A" "B" 3;
                  record "Blend" "B" "B" 1]) !! "B"%string = Some d
       ∧ incoming_transaction_count d = 3
       ∧ outgoing_transaction_count d = 1
       ∧ total_contributing_batches d ≤ 3.
Proof.
  destruct (export_batches
              (ingest [record "Transfer" "A" "B" 5; record "Transfer" "A" "B" 3;
                       record "Blend" "B" "B" 1]) !! "B"%string) as [d|] eqn:Hd;
    [|by vm_compute in Hd].
  exists d. split; [done|].
  destruct (to_dict_counts _ _ _ Hd) as (Hi & Ho & Hc & _).
  rewrite Hi in Hc |- *. rewrite Ho. clear Hd Hi Ho.
  split; [reflexivity|]. split; [reflexivity|].
  etrans; [exact Hc|]. vm_compute. lia.
Defined.

(* ===================================================================== *)
(** ** The shape of lineage trees *)
(* ===================================================================== *)

Lemma add_incoming_keys_source l t g x :
  x ∈ PyDict.keys (contributing_batches (add_incoming_transaction l t g)) →
  x ∈ PyDict.keys (contributing_batches l)
  ∨ (x = from_batch t ∧ x ≠ ""%string).
Proof.
  unfold add_incoming_transaction.
  destruct (truthy (from_batch t)) eqn:Hf; simpl; [|auto].
  destruct (String.eqb_spec (from_batch t) (batch_name l)) as [|Hne]; simpl; [auto|].
  apply truthy_true in Hf.
  assert (Hset : ∀ d v, x ∈ PyDict.keys (PyDict.set d (from_batch t) v) →
                        x ∈ PyDict.keys d ∨ (x = from_batch t ∧ x ≠ ""%string)).
  { intros d v [->|Hin]%PyDictFacts.keys_set; auto. }
  destruct (PyDict.mem (contributing_batches l) (from_batch t));
    destruct (PyDict.get _ (from_batch t)); simpl; intros Hin.
  - eauto.
  - auto.
  - apply Hset in Hin as [Hin|?]; [|auto]. eauto.
  - eauto.
Qed.

Lemma apply_record_keys_source b l t x :
  x ∈ PyDict.keys (contributing_batches (apply_record b l t)) →
  x ∈ PyDict.keys (contributing_batches l)
  ∨ (x = from_batch t ∧ x ≠ ""%string).
Proof.
  pose proof (add_incoming_keys_source l t (net t) x) as Hin.
  unfold apply_record, add_outgoing_transaction.
  repeat match goal with |- context [if ?c then _ else _] => destruct c end;
    simpl; auto.
Qed.

Lemma foldl_apply_keys_source b ts l x :
  x ∈ PyDict.keys (contributing_batches (foldl (apply_record b) l ts)) →
  x ∈ PyDict.keys (contributing_batches l)
  ∨ (x ≠ ""%string ∧ ∃ t, In t ts ∧ from_batch t = x).
Proof.
  revert l. induction ts as [|t ts IH]; intros l; simpl; [auto|].
  intros [Hin|(Hx & t' & Hin & Hf)]%IH.
  - apply apply_record_keys_source in Hin as [Hin|[-> Hx]]; [auto|].
    right. split; [done|]. exists t. auto.
  - right. split; [done|]. exists t'. auto.
Qed.

(** After ingestion every contributing batch of every batch is itself a
    batch of the graph. *)
Lemma ingest_closed (ts : list Transaction) :
  contributors_in_graph (ingest ts).
Proof.
  intros b l a Hl Ha. rewrite get_batch_lineage_ingest in Hl.
  destruct (existsb (mentions b) ts); [|discriminate]. injection Hl as <-.
  apply foldl_apply_keys_source in Ha as [Ha|(Hx & t & Hin & Hf)].
  - by apply elem_of_nil in Ha.
  - rewrite get_batch_lineage_ingest.
    assert (Hm : existsb (mentions a) ts = true).
    { apply existsb_mentions. split; [done|]. exists t. auto. }
    by rewrite Hm.
Qed.

Section TreeShape.
Variable self : TransactionLineageAnalyzer.
Implicit Types (b : string) (v : option (gset string)) (t s : tree)
  (p : list string).

Lemma run_expanded b v t vf l :
  get_full_lineage_tree_run self b v = Some (t, vf) →
  b ∉ default ∅ v → get_batch_lineage self b = Some l →
  ∃ cs, t = LineageNode b (current_volume l) (is_on_hand l)
              (has_left_inventory l) cs None
        ∧ Forall2 (fun (item : string * float) c =>
                     ∃ sub vs, get_full_lineage_tree_run self item.1
                                 (Some ({[ b ]} ∪ default ∅ v)) = Some (sub, vs)
                               ∧ c = set_gallons_contributed sub item.2)
                  (contributing_batches l) cs.
Proof.
  rewrite get_full_lineage_tree_run_unfold. simpl. intros Hrun Hnin Hl.
  rewrite decide_False in Hrun by done. rewrite Hl in Hrun.
  match type of Hrun with context [mapM ?f ?xs] =>
    destruct (mapM f xs) as [subs|] eqn:Hm end; [|discriminate].
  injection Hrun as <- <-. exists subs. split; [done|].
  apply mapM_Some in Hm. eapply Forall2_impl; [exact Hm|].
  intros [c0 g] c Hc. simpl in *.
  destruct (get_full_lineage_tree_run self c0 (Some ({[ b ]} ∪ default ∅ v)))
    as [[sub vs]|]; [|discriminate].
  injection Hc as <-. eauto.
Qed.

Lemma set_gallons_fields sub g :
  tree_name (set_gallons_contributed sub g) = tree_name sub
  ∧ gallons_of (set_gallons_contributed sub g) = Some g
  ∧ not_found (set_gallons_contributed sub g) = not_found sub
  ∧ cycle_detected (set_gallons_contributed sub g) = cycle_detected sub
  ∧ tree_children (set_gallons_contributed sub g) = tree_children sub.
Proof. by destruct sub. Qed.

Lemma run_not_found b v t vf :
  get_full_lineage_tree_run self b v = Some (t, vf) →
  not_found t = true ↔ (b ∉ default ∅ v) ∧ get_batch_lineage self b = None.
Proof.
  rewrite get_full_lineage_tree_run_unfold. simpl.
  destruct (decide (b ∈ default ∅ v)) as [Hin|Hnin].
  { intros [= <- _]. simpl. split; [discriminate | by intros [? _]]. }
  destruct (get_batch_lineage self b) as [l|].
  - match goal with |- context [mapM ?f ?xs] => destruct (mapM f xs) end;
      [|discriminate].
    intros [= <- _]. simpl. split; [discriminate | by intros [_ ?]].
  - intros [= <- _]. simpl. split; auto.
Qed.

(** Below the root of a tree over a graph that holds its contributors, no
    sub-tree is a [not_found] leaf. *)
Lemma no_not_found_below p b v t vf s :
  contributors_in_graph self →
  get_full_lineage_tree_run self b v = Some (t, vf) →
  subtree_at t p s → p ≠ [] → not_found s = false.
Proof.
  intros Hclosed. revert b v t vf.
  induction p as [|n p IH]; intros b v t vf Hrun Hsub Hp; [done|].
  inversion Hsub as [| n0 vol o h cs g0 c path s1 Hc Hs]; subst.
  destruct (decide (b ∈ default ∅ v)) as [Hin|Hnin].
  { rewrite get_full_lineage_tree_run_unfold in Hrun. simpl in Hrun.
    rewrite decide_True in Hrun by done. discriminate. }
  destruct (get_batch_lineage self b) as [l|] eqn:Hl.
  2:{ rewrite get_full_lineage_tree_run_unfold in Hrun. simpl in Hrun.
      rewrite decide_False, Hl in Hrun by done. discriminate. }
  destruct (run_expanded _ _ _ _ _ Hrun Hnin Hl) as (cs' & [= -> _ _ _ <- _] & Hf).
  apply list_elem_of_lookup in Hc as [i Hi].
  destruct (Forall2_lookup_r _ _ _ _ _ Hf Hi) as ([c0 g] & Hitem & sub & vs & Hsubrun & Hc).
  cbn [fst snd] in Hsubrun, Hc. subst c.
  assert (Hkey : c0 ∈ PyDict.keys (contributing_batches l)).
  { unfold PyDict.keys. apply list_elem_of_In, in_map_iff. exists (c0, g).
    split; [done|]. apply list_elem_of_In. by eapply list_elem_of_lookup_2. }
  destruct (Hclosed _ _ _ Hl Hkey) as [lc Hlc].
  apply subtree_at_set_gallons_inv in Hs as [[-> ->]|[Hp' Hs]].
  - destruct (set_gallons_fields sub g) as (_ & _ & -> & _).
    apply not_true_iff_false. intros Hnf.
    apply (run_not_found _ _ _ _ Hsubrun) in Hnf as [_ Hnone]. congruence.
  - by apply (IH _ _ _ _ Hsubrun Hs).
Qed.

(** The ancestors of a sub-tree are distinct batches of the graph that were
    not visited when the traversal started. *)
Lemma ancestors_distinct p b v t vf s :
  get_full_lineage_tree_run self b v = Some (t, vf) →
  subtree_at t p s →
  NoDup p ∧ ∀ x, x ∈ p → x ∈ dom (batch_lineages self) ∖ default ∅ v.
Proof.
  revert b v t vf. induction p as [|n p IH]; intros b v t vf Hrun Hsub.
  { split; [constructor | intros x Hx; by apply elem_of_nil in Hx]. }
  inversion Hsub as [| n0 vol o h cs g0 c path s1 Hc Hs]; subst.
  destruct (decide (b ∈ default ∅ v)) as [Hin|Hnin].
  { rewrite get_full_lineage_tree_run_unfold in Hrun. simpl in Hrun.
    rewrite decide_True in Hrun by done. discriminate. }
  destruct (get_batch_lineage self b) as [l|] eqn:Hl.
  2:{ rewrite get_full_lineage_tree_run_unfold in Hrun. simpl in Hrun.
      rewrite decide_False, Hl in Hrun by done. discriminate. }
  destruct (run_expanded _ _ _ _ _ Hrun Hnin Hl) as (cs' & [= -> _ _ _ <- _] & Hf).
  apply list_elem_of_lookup in Hc as [i Hi].
  destruct (Forall2_lookup_r _ _ _ _ _ Hf Hi) as ([c0 g] & Hitem & sub & vs & Hsubrun & Hc).
  cbn [fst snd] in Hsubrun, Hc. subst c.
  assert (Hb : b ∈ dom (batch_lineages self) ∖ default ∅ v).
  { apply elem_of_difference. split; [|done]. apply elem_of_dom. by exists l. }
  assert (Hrest : NoDup p ∧ ∀ x, x ∈ p →
            x ∈ dom (batch_lineages self) ∖ ({[ b ]} ∪ default ∅ v)).
  { apply subtree_at_set_gallons_inv in Hs as [[-> ->]|[_ Hs]].
    - split; [constructor | intros x Hx; by apply elem_of_nil in Hx].
    - apply (IH _ _ _ _ Hsubrun Hs). }
  destruct Hrest as [Hnd Hall]. split.
  - apply NoDup_cons. split; [|done]. intros Hbp. apply Hall in Hbp.
    apply elem_of_difference in Hbp as [_ Hbp]. apply Hbp, elem_of_union. left.
    by apply elem_of_singleton.
  - intros x [->|Hx]%elem_of_cons; [done|].
    apply Hall, elem_of_difference in Hx as [Hx1 Hx2].
    apply elem_of_difference. split; [done|].
    intros Hx3. apply Hx2, elem_of_union. by right.
Qed.

End TreeShape.

(** X10: after ingestion every contributing batch of every batch is itself
    a batch of the graph. So in a lineage tree over an ingested ledger only
    the root can be a [not_found] leaf, and it is one exactly when the
    batch asked for is not visited and not in the graph; every contributing
    batch below it is found. *)
Theorem not_found_only_at_root (ts : list Transaction) (b : string)
    (v : option (gset string)) (t : tree) :
  get_full_lineage_tree (ingest ts) b v = Some t →
  contributors_in_graph (ingest ts)
  ∧ (not_found t = true
     ↔ (b ∉ default ∅ v) ∧ get_batch_lineage (ingest ts) b = None)
  ∧ ∀ p s, subtree_at t p s → p ≠ [] → not_found s = false.
Proof.
  unfold get_full_lineage_tree.
  destruct (get_full_lineage_tree_run (ingest ts) b v) as [[t' vf]|] eqn:Hrun;
    [|discriminate].
  simpl. intros [= <-]. split; [apply ingest_closed|]. split.
  - apply (run_not_found _ _ _ _ _ Hrun).
  - intros p s Hsub Hp.
    apply (no_not_found_below (ingest ts) p b v t' vf s
             (ingest_closed ts) Hrun Hsub Hp).
Qed.

(** X10 on the diamond ledger: the root for an unknown name is a
    [not_found] leaf, and no sub-tree of the tree of [D] is. *)
Lemma not_found_only_at_root_witness :
  get_full_lineage_tree (ingest diamond_ledger) "Z" None
  = Some (NotFound "Z" None)
  ∧ ∃ t, get_full_lineage_tree (ingest diamond_ledger) "D" None = Some t
         ∧ ∀ p s, subtree_at t p s → p ≠ [] → not_found s = false.
Proof.
  split; [by vm_compute|].
  destruct (get_full_lineage_tree (ingest diamond_ledger) "D" None) as [t|] eqn:Ht;
    [|by vm_compute in Ht].
  exists t. split; [done|].
  by destruct (not_found_only_at_root diamond_ledger "D" None t Ht) as (_ & _ & H).
Defined.

(** X11: every expanded node of a lineage tree shows its batch as the
    graph has it: the volume and the two flags of the batch, and one child
    per contributing batch, in dictionary order, named after it and
    carrying its gallons as [gallons_contributed]. *)
Theorem tree_nodes_show_the_graph (self : TransactionLineageAnalyzer)
    (b : string) (v : option (gset string)) (t : tree)
    (p : list string) (s : tree) (l : BatchLineage) :
  get_full_lineage_tree self b v = Some t →
  subtree_at t p s →
  cycle_detected s = false →
  get_batch_lineage self (tree_name s) = Some l →
  (∃ g, s = LineageNode (tree_name s) (current_volume l) (is_on_hand l)
                (has_left_inventory l) (tree_children s) g)
  ∧ (fun c => (tree_name c, gallons_of c)) <$> tree_children s
    = (fun item : string * float => (item.1, Some item.2))
        <$> contributing_batches l.
Proof.
  unfold get_full_lineage_tree.
  destruct (get_full_lineage_tree_run self b v) as [[t' vf]|] eqn:Hrun;
    [|discriminate].
  simpl. intros [= <-] Hsub Hcyc Hl.
  destruct (subtree_at_is_run self p b v t' vf s Hrun Hsub) as [vs Hs].
  assert (Hnin : tree_name s ∉ default ∅ (Some (default ∅ v ∪ list_to_set p))).
  { simpl. intros Hin. apply not_true_iff_false in Hcyc. apply Hcyc.
    apply (cycle_detected_iff_on_path self p b v t' vf s Hrun Hsub).
    apply elem_of_union in Hin as [?|Hin]; [by left|].
    right. by apply elem_of_list_to_set in Hin. }
  destruct (run_expanded self _ _ _ _ _ Hs Hnin Hl) as (cs & Hnode & Hf).
  assert (Hch : tree_children s = cs) by (destruct s; simpl in *; congruence).
  split.
  - destruct s; simpl in *; try discriminate. injection Hnode as <- <- <- <-.
    by eexists.
  - rewrite Hch. clear -Hf.
    induction Hf as [|[c0 g] c items cs (sub & vs & Hrun & ->) _ IH]; simpl; [done|].
    f_equal; [|exact IH].
    destruct (set_gallons_fields sub g) as (-> & -> & _).
    by rewrite (run_tree_name self _ _ _ _ Hrun).
Qed.

(** X11 on the diamond ledger, at the node of [B] below [D]. *)
Lemma tree_nodes_show_the_graph_witness :
  let B := LineageNode "B" 0 false true
             [LineageNode "A" 0 false true [] (Some 1%float)] (Some 3%float) in
  let D := LineageNode "D" 0 false false
             [B; LineageNode "C" 0 false true
                   [LineageNode "A" 0 false true [] (Some 2%float)] (Some 4%float)]
             None in
  get_full_lineage_tree (ingest diamond_ledger) "D" None = Some D
  ∧ subtree_at D ["D"%string] B
  ∧ (fun c => (tree_name c, gallons_of c)) <$> tree_children B
    = [("A"%string, Some 1%float)].
Proof.
  intros B D.
  assert (Hs : subtree_at D ["D"%string] B).
  { apply subtree_below with (c := B); [apply elem_of_cons; by left | constructor]. }
  split; [exact diamond_ledger_tree|]. split; [exact Hs|].
  destruct (get_batch_lineage (ingest diamond_ledger) "B") as [l|] eqn:Hl;
    [|by vm_compute in Hl].
  assert (Hcb : contributing_batches l = [("A"%string, 1%float)]).
  { vm_compute in Hl. by injection Hl as <-. }
  destruct (tree_nodes_show_the_graph (ingest diamond_ledger) "D" None D
              ["D"%string] B l diamond_ledger_tree Hs eq_refl Hl) as [_ Hch].
  by rewrite Hch, Hcb.
Defined.

(** X12: no sub-tree of a lineage tree lies deeper than the number of
    batches of the graph: the ancestors of every sub-tree are distinct
    batches of the graph, none of them in the visited set the call started
    with. *)
Theorem tree_depth_bounded (self : TransactionLineageAnalyzer) (b : string)
    (v : option (gset string)) (t : tree) (p : list string) (s : tree) :
  get_full_lineage_tree self b v = Some t →
  subtree_at t p s →
  NoDup p
  ∧ (∀ x, x ∈ p → is_Some (get_batch_lineage self x) ∧ x ∉ default ∅ v)
  ∧ length p ≤ size (batch_lineages self).
Proof.
  unfold get_full_lineage_tree.
  destruct (get_full_lineage_tree_run self b v) as [[t' vf]|] eqn:Hrun;
    [|discriminate].
  simpl. intros [= <-] Hsub.
  destruct (ancestors_distinct self p b v t' vf s Hrun Hsub) as [Hnd Hall].
  split; [done|]. split.
  - intros x Hx. apply Hall, elem_of_difference in Hx as [Hx1 Hx2].
    split; [by apply elem_of_dom | done].
  - rewrite <- size_dom.
    rewrite <- (size_list_to_set (C := gset string) p) by done.
    apply subseteq_size. intros x Hx. apply elem_of_list_to_set in Hx.
    by apply Hall, elem_of_difference in Hx as [Hx _].
Qed.

(** X12 on the cyclic ledger: the marker of [A] has three ancestors, as
    many as the graph has batches. *)
Lemma tree_depth_bounded_witness :
  let A := LineageNode "A" 0 false true
             [LineageNode "C" 0 false true
                [LineageNode "B" 0 false true
                   [CycleDetected "A" (Some 1%float)] (Some 2%float)]
                (Some 3%float)]
             None in
  get_full_lineage_tree (ingest cyclic_ledger) "A" None = Some A
  ∧ subtree_at A ["A"; "C"; "B"]%string (CycleDetected "A" (Some 1%float))
  ∧ length ["A"; "C"; "B"]%string ≤ size (batch_lineages (ingest cyclic_ledger)).
Proof.
  intros A.
  assert (Hs : subtree_at A ["A"; "C"; "B"]%string
                 (CycleDetected "A" (Some 1%float))).
  { repeat (eapply subtree_below; [apply elem_of_cons; left; reflexivity|]).
    constructor. }
  split; [exact cyclic_ledger_tree|]. split; [exact Hs|].
  apply (tree_depth_bounded (ingest cyclic_ledger) "A" None A _ _
           cyclic_ledger_tree Hs).
Defined.

(* ===================================================================== *)
(** ** The rows of the lineage edge export *)
(* ===================================================================== *)

Section EdgeExport.
Variable self : TransactionLineageAnalyzer.
Implicit Types (b : string) (l : BatchLineage) (f : option string).

Lemma export_rows_skipped f :
  export_rows self f
  = flat_map (fun item : string * BatchLineage =>
                if skipped f item.2 then [] else rows_of_batch item.1 item.2)
             (map_to_list (batch_lineages self)).
Proof.
  unfold export_rows, skipped. apply flat_map_ext. intros [k l]. simpl.
  by destruct (filter_is f "on-hand" && negb (is_on_hand l)),
       (filter_is f "shipped" && negb (has_left_inventory l)).
Qed.

Lemma rows_for_rows_of_batch k l b :
  rows_for b (rows_of_batch k l)
  = if String.eqb k b then rows_of_batch k l else [].
Proof.
  unfold rows_for.
  assert (H : ∀ rows, (∀ r, In r rows → Destination_Batch r = k) →
              List.filter (fun r => String.eqb (Destination_Batch r) b) rows
              = if String.eqb k b then rows else []).
  { induction rows as [|r rows IH]; intros Hall; simpl; [by destruct (String.eqb k b)|].
    rewrite (Hall r) by (by left). rewrite IH by (intros; apply Hall; by right).
    by destruct (String.eqb k b). }
  apply H. intros r. apply rows_of_batch_destination.
Qed.

Lemma rows_for_flat_map f b (kvs : list (string * BatchLineage)) :
  rows_for b
    (flat_map (fun item : string * BatchLineage =>
                 if skipped f item.2 then [] else rows_of_batch item.1 item.2) kvs)
  = flat_map (fun item : string * BatchLineage =>
                if skipped f item.2 then [] else rows_of_batch item.1 item.2)
      (List.filter (fun item : string * BatchLineage => String.eqb item.1 b) kvs).
Proof.
  unfold rows_for. induction kvs as [|[k l] kvs IH]; simpl; [done|].
  rewrite List.filter_app, IH.
  fold (rows_for b (if skipped f l then [] else rows_of_batch k l)).
  assert (Hhead : rows_for b (if skipped f l then [] else rows_of_batch k l)
                  = if String.eqb k b
                    then (if skipped f l then [] else rows_of_batch k l)
                    else []).
  { destruct (skipped f l); [by destruct (String.eqb k b)|].
    apply rows_for_rows_of_batch. }
  rewrite Hhead. by destruct (String.eqb k b).
Qed.

Lemma filter_key_unique b (kvs : list (string * BatchLineage)) :
  NoDup (kvs.*1) →
  List.filter (fun item : string * BatchLineage => String.eqb item.1 b) kvs
  = match list_find (fun item : string * BatchLineage => item.1 = b) kvs with
    | Some (_, item) => [item]
    | None => []
    end.
Proof.
  induction kvs as [|[k l] kvs IH]; simpl; [done|].
  intros [Hk Hnd]%NoDup_cons. rewrite IH by done.
  destruct (String.eqb_spec k b) as [->|Hne].
  - rewrite decide_True by done. simpl.
    destruct (list_find (fun item : string * BatchLineage => item.1 = b) kvs)
      as [[i [k' l']]|] eqn:Hfind; [|done].
    exfalso. apply list_find_Some in Hfind as (Hi & Hk' & _). simpl in Hk'. subst k'.
    apply Hk. apply list_elem_of_fmap. exists (b, l'). split; [done|].
    by eapply list_elem_of_lookup_2.
  - rewrite decide_False by done.
    by destruct (list_find (fun item : string * BatchLineage => item.1 = b) kvs)
      as [[i [k' l']]|].
Qed.

Lemma filter_key_lookup b :
  List.filter (fun item : string * BatchLineage => String.eqb item.1 b)
    (map_to_list (batch_lineages self))
  = match get_batch_lineage self b with
    | Some l => [(b, l)]
    | None => []
    end.
Proof.
  rewrite filter_key_unique by apply NoDup_fst_map_to_list.
  unfold get_batch_lineage.
  destruct (list_find _ (map_to_list (batch_lineages self)))
    as [[i [k l]]|] eqn:Hfind.
  - apply list_find_Some in Hfind as (Hi & Hk & _). simpl in Hk. subst k.
    apply list_elem_of_lookup_2, elem_of_map_to_list in Hi. by rewrite Hi.
  - destruct (batch_lineages self !! b) as [l|] eqn:Hl; [|done].
    exfalso. apply elem_of_map_to_list in Hl.
    rewrite list_find_None, Forall_forall in Hfind. by apply (Hfind (b, l)).
Qed.

Lemma rows_for_export f b :
  rows_for b (export_rows self f)
  = match get_batch_lineage self b with
    | Some l => if skipped f l then [] else rows_of_batch b l
    | None => []
    end.
Proof.
  rewrite export_rows_skipped, rows_for_flat_map, filter_key_lookup.
  destruct (get_batch_lineage self b) as [l|]; simpl; [|done].
  by rewrite app_nil_r.
Qed.

End EdgeExport.

(** X13: in the export every batch that passes the filter has its rows
    once. A batch without contributing batches has exactly one row, with an
    empty source and the integer 0 as gallons; a batch with contributing
    batches has exactly one row for each, in dictionary order, with that
    batch as source and its gallons. Every such row carries the volume and
    the two flags of the destination. A skipped or unknown batch has no
    row. *)
Theorem export_rows_of_a_batch (self : TransactionLineageAnalyzer)
    (f : option string) (b : string) :
  match get_batch_lineage self b with
  | None => rows_for b (export_rows self f) = []
  | Some l =>
      if skipped f l then rows_for b (export_rows self f) = []
      else
        match contributing_batches l with
        | [] =>
            rows_for b (export_rows self f)
            = [ {| Destination_Batch := b; Source_Batch := "";
                   Gallons_Contributed := PyInt 0;
                   Destination_Current_Volume := current_volume l;
                   Destination_Is_On_Hand := is_on_hand l;
                   Destination_Has_Left := has_left_inventory l |} ]
        | items =>
            rows_for b (export_rows self f)
            = map (fun item : string * float =>
                     {| Destination_Batch := b; Source_Batch := item.1;
                        Gallons_Contributed := PyFlt item.2;
                        Destination_Current_Volume := current_volume l;
                        Destination_Is_On_Hand := is_on_hand l;
                        Destination_Has_Left := has_left_inventory l |}) items
        end
  end.
Proof.
  rewrite rows_for_export.
  destruct (get_batch_lineage self b) as [l|]; [|done].
  destruct (skipped f l); [done|]. unfold rows_of_batch.
  by destruct (contributing_batches l).
Qed.

(** X14: a filter text other than ['on-hand'] and ['shipped'], for instance
    one in another letter case, is not refused: it filters nothing, and the
    export is the one made without a filter. *)
Theorem unknown_filter_filters_nothing (self : TransactionLineageAnalyzer)
    (f : string) :
  f ≠ "on-hand"%string → f ≠ "shipped"%string →
  export_rows self (Some f) = export_rows self None
  ∧ export_lineage_to_csv self (Some f) = export_lineage_to_csv self None.
Proof.
  intros H1 H2.
  assert (H : export_rows self (Some f) = export_rows self None).
  { unfold export_rows. apply flat_map_ext. intros [k l]. simpl.
    apply String.eqb_neq in H1, H2. by rewrite H1, H2. }
  split; [done|]. unfold export_lineage_to_csv. by rewrite H.
Qed.

(** X14 at the filter text [Shipped]. *)
Lemma unknown_filter_filters_nothing_witness :
  export_rows (ingest partly_shipped_ledger) (Some "Shipped"%string)
  = export_rows (ingest partly_shipped_ledger) None
  ∧ export_lineage_to_csv (ingest partly_shipped_ledger) (Some "Shipped"%string)
    = export_lineage_to_csv (ingest partly_shipped_ledger) None.
Proof.
  apply (unknown_filter_filters_nothing (ingest partly_shipped_ledger) "Shipped");
    discriminate.
Defined.

Lemma elem_of_destinations (self : TransactionLineageAnalyzer)
    (f : option string) (b : string) :
  b ∈ destinations (export_rows self f)
  ↔ ∃ l, get_batch_lineage self b = Some l ∧ skipped f l = false.
Proof.
  unfold destinations. rewrite list_elem_of_fmap. split.
  - intros (r & -> & Hr).
    assert (Hin : In r (rows_for (Destination_Batch r) (export_rows self f))).
    { apply filter_In. split; [by apply list_elem_of_In | apply String.eqb_refl]. }
    rewrite rows_for_export in Hin.
    destruct (get_batch_lineage self (Destination_Batch r)) as [l|]; [|done].
    destruct (skipped f l) eqn:Hs; [done|]. eauto.
  - intros (l & Hl & Hs). destruct (rows_of_batch_nonempty b l) as [r Hr].
    exists r. split; [by rewrite (rows_of_batch_destination _ _ _ Hr)|].
    assert (Hin : In r (rows_for b (export_rows self f))).
    { by rewrite rows_for_export, Hl, Hs. }
    apply filter_In in Hin as [Hin _]. by apply list_elem_of_In.
Qed.

(** X15: with [batch_filter='on-hand'] the destination batches of the
    exported rows are exactly the batches of [get_all_on_hand_batches], and
    without a filter they are exactly the batches of the graph. *)
Theorem on_hand_export_matches_enumeration (self : TransactionLineageAnalyzer)
    (b : string) :
  (b ∈ destinations (export_rows self (Some "on-hand"%string))
   ↔ b ∈ get_all_on_hand_batches self)
  ∧ (b ∈ destinations (export_rows self None)
     ↔ is_Some (get_batch_lineage self b)).
Proof.
  rewrite !elem_of_destinations. split.
  - unfold get_all_on_hand_batches. rewrite elem_of_filtered_names. simpl.
    unfold skipped. simpl.
    split; intros (l & Hl & H); exists l; (split; [done|]).
    + by destruct (is_on_hand l).
    + by rewrite H.
  - unfold skipped. simpl. split.
    + intros (l & Hl & _). by exists l.
    + intros [l Hl]. by exists l.
Qed.

Lemma flat_map_nil {A B : Type} (F : A → list B) (xs : list A) :
  flat_map F xs = [] ↔ ∀ x, In x xs → F x = [].
Proof.
  induction xs as [|x xs IH]; simpl; [by split|].
  split.
  - intros [Hx Hxs]%app_eq_nil y [<-|Hy]; [done|]. by apply IH.
  - intros H. rewrite (H x) by (by left). simpl. apply IH. intros y Hy.
    apply H. by right.
Qed.

Lemma ingest_empty_graph (ts : list Transaction) :
  batch_lineages (ingest ts) = ∅
  ↔ Forall (fun t => from_batch t = ""%string ∧ to_batch t = ""%string) ts.
Proof.
  rewrite map_empty. split.
  - intros H. apply Forall_forall. intros t Hin. apply list_elem_of_In in Hin.
    assert (Hnone : ∀ b, existsb (mentions b) ts = false).
    { intros b. pose proof (H b) as Hb.
      change (batch_lineages (ingest ts) !! b)
        with (get_batch_lineage (ingest ts) b) in Hb.
      rewrite get_batch_lineage_ingest in Hb.
      by destruct (existsb (mentions b) ts). }
    split.
    + destruct (String.eqb_spec (from_batch t) "") as [|Hne]; [done|]. exfalso.
      assert (Hm : existsb (mentions (from_batch t)) ts = true).
      { apply existsb_mentions. split; [done|]. exists t. auto. }
      by rewrite Hnone in Hm.
    + destruct (String.eqb_spec (to_batch t) "") as [|Hne]; [done|]. exfalso.
      assert (Hm : existsb (mentions (to_batch t)) ts = true).
      { apply existsb_mentions. split; [done|]. exists t. auto. }
      by rewrite Hnone in Hm.
  - intros H b.
    change (batch_lineages (ingest ts) !! b) with (get_batch_lineage (ingest ts) b).
    rewrite get_batch_lineage_ingest.
    destruct (existsb (mentions b) ts) eqn:Hm; [|done]. exfalso.
    apply existsb_mentions in Hm as (Hb & t & Hin & Hft).
    rewrite Forall_forall in H. apply list_elem_of_In, H in Hin as [Hf Ht].
    destruct Hft; congruence.
Qed.

(** X16: [export_lineage_to_csv] writes no file exactly when the filter
    skips every batch of the graph. Without a filter that is when the graph
    is empty, which after ingestion means that no record of the ledger has
    a non-empty source or destination batch name. *)
Theorem export_writes_nothing :
  (∀ (self : TransactionLineageAnalyzer) (f : option string),
     export_lineage_to_csv self f = None
     ↔ ∀ b l, get_batch_lineage self b = Some l → skipped f l = true)
  ∧ (∀ self : TransactionLineageAnalyzer,
       export_lineage_to_csv self None = None ↔ batch_lineages self = ∅)
  ∧ (∀ ts : list Transaction,
       export_lineage_to_csv (ingest ts) None = None
       ↔ Forall (fun t => from_batch t = ""%string ∧ to_batch t = ""%string) ts).
Proof.
  assert (H1 : ∀ (self : TransactionLineageAnalyzer) (f : option string),
     export_lineage_to_csv self f = None
     ↔ ∀ b l, get_batch_lineage self b = Some l → skipped f l = true).
  { intros self f. unfold export_lineage_to_csv.
    assert (Hnil : export_rows self f = []
                   ↔ ∀ b l, get_batch_lineage self b = Some l → skipped f l = true).
    { rewrite export_rows_skipped, flat_map_nil. unfold get_batch_lineage. split.
      - intros H b l Hl. apply elem_of_map_to_list, list_elem_of_In, H in Hl.
        simpl in Hl. destruct (skipped f l); [done|].
        destruct (rows_of_batch_nonempty b l) as [r Hr]. rewrite Hl in Hr. done.
      - intros H [k l] Hin. apply list_elem_of_In, elem_of_map_to_list in Hin.
        simpl. by rewrite (H _ _ Hin). }
    rewrite <- Hnil. by destruct (export_rows self f). }
  assert (H2 : ∀ self : TransactionLineageAnalyzer,
       export_lineage_to_csv self None = None ↔ batch_lineages self = ∅).
  { intros self. rewrite H1, map_empty. unfold get_batch_lineage, skipped. simpl.
    split.
    - intros H b. destruct (batch_lineages self !! b) as [l|] eqn:Hl; [|done].
      by specialize (H _ _ Hl).
    - intros H b l Hl. by rewrite H in Hl. }
  split; [exact H1|]. split; [exact H2|].
  intros ts. rewrite H2. apply ingest_empty_graph.
Qed.

(* ===================================================================== *)
(** ** Conversion of the input ledger *)
(* ===================================================================== *)

Lemma get_float_as_row_convert (r : row) (key : string) :
  key = "NET"%string ∨ key = "Loss/Gain Amount (gal)"%string →
  get_float (as_row (convert_row r)) key = get_float r key
  ∨ (r !! key = None ∧ get_float (as_row (convert_row r)) key = Ok 0%float
     ∧ get_float r key = Ok 0%float).
Proof.
  intros [-> | ->]; unfold get_float, as_row, convert_row.
  - replace (list_to_map _ !! "NET"%string)
      with (Some (default "0"%string (r !! "NET"%string)))
      by (symmetry; by vm_compute).
    destruct (r !! "NET"%string) as [s|]; simpl; [by left|].
    right. split; [done|]. split; [|done]. by vm_compute.
  - replace (list_to_map _ !! "Loss/Gain Amount (gal)"%string)
      with (Some (default "0"%string (r !! "Loss/Gain Amount (gal)"%string)))
      by (symmetry; by vm_compute).
    destruct (r !! "Loss/Gain Amount (gal)"%string) as [s|]; simpl; [by left|].
    right. split; [done|]. split; [|done]. by vm_compute.
Qed.

Lemma as_row_convert_lookup (r : row) :
  as_row (convert_row r) !! "Op Date"%string = Some (get_str r "Op Date")
  ∧ as_row (convert_row r) !! "Op Id"%string
    = Some (default (get_str r "Tx Id") (r !! "Op Id"%string))
  ∧ as_row (convert_row r) !! "Op Type"%string = Some (get_str r "Op Type")
  ∧ as_row (convert_row r) !! "From Vessel"%string = Some (get_str r "Src Vessel")
  ∧ as_row (convert_row r) !! "From Batch"%string = Some (get_str r "Src Batch Pre")
  ∧ as_row (convert_row r) !! "To Vessel"%string = Some (get_str r "Dest Vessel")
  ∧ as_row (convert_row r) !! "To Batch"%string = Some (get_str r "Dest Batch Post")
  ∧ as_row (convert_row r) !! "Loss/Gain Reason"%string
    = Some (get_str r "Loss/Gain Reason")
  ∧ as_row (convert_row r) !! "Winery"%string = Some ""%string
  ∧ as_row (convert_row r) !! "Src Vessel"%string = None
  ∧ as_row (convert_row r) !! "Src Batch Pre"%string = None
  ∧ as_row (convert_row r) !! "Dest Vessel"%string = None
  ∧ as_row (convert_row r) !! "Dest Batch Post"%string = None
  ∧ as_row (convert_row r) !! "Tx Id"%string = None.
Proof. unfold as_row, convert_row, get_str. repeat split; by vm_compute. Qed.

Lemma get_str_as_row_convert (r : row) :
  get_str (as_row (convert_row r)) "Op Date" = get_str r "Op Date"
  ∧ get_str (as_row (convert_row r)) "Op Id"
    = default (get_str r "Tx Id") (r !! "Op Id"%string)
  ∧ get_str (as_row (convert_row r)) "Op Type" = get_str r "Op Type"
  ∧ get_str (as_row (convert_row r)) "From Vessel" = get_str r "Src Vessel"
  ∧ get_str (as_row (convert_row r)) "From Batch" = get_str r "Src Batch Pre"
  ∧ get_str (as_row (convert_row r)) "To Vessel" = get_str r "Dest Vessel"
  ∧ get_str (as_row (convert_row r)) "To Batch" = get_str r "Dest Batch Post"
  ∧ get_str (as_row (convert_row r)) "Loss/Gain Reason"
    = get_str r "Loss/Gain Reason"
  ∧ get_str (as_row (convert_row r)) "Winery" = ""%string.
Proof.
  destruct (as_row_convert_lookup r)
    as (H1 & H2 & H3 & H4 & H5 & H6 & H7 & H8 & H9 & _).
  repeat split; unfold get_str at 1;
    first [ rewrite H1 | rewrite H2 | rewrite H3 | rewrite H4 | rewrite H5
          | rewrite H6 | rewrite H7 | rewrite H8 | rewrite H9 ]; done.
Qed.

Lemma get_float_convert (r : row) (key : string) :
  key = "NET"%string ∨ key = "Loss/Gain Amount (gal)"%string →
  get_float (as_row (convert_row r)) key = get_float r key.
Proof.
  intros Hk. by destruct (get_float_as_row_convert r key Hk) as [?|(_ & -> & ->)].
Qed.

Lemma convert_row_batches (r : row) (t : Transaction) :
  Transaction_init (as_row (convert_row r)) = Ok t →
  from_batch t = get_str r "Src Batch Pre"
  ∧ to_batch t = get_str r "Dest Batch Post".
Proof.
  remember (as_row (convert_row r)) as d eqn:Hd.
  unfold Transaction_init, bind. cbv zeta.
  destruct (get_float d "NET"); [|discriminate].
  destruct (get_float d "Loss/Gain Amount (gal)"); [|discriminate].
  intros [= <-]. cbn [from_batch to_batch]. subst d.
  by destruct (get_str_as_row_convert r) as (_ & _ & _ & _ & -> & _ & -> & _).
Qed.

(** X17: a transaction built from a converted row takes its source and
    destination vessels and batches from the columns [Src Vessel],
    [Src Batch Pre], [Dest Vessel] and [Dest Batch Post] of the input row,
    its operation id from [Op Id] or else [Tx Id], has an empty winery, and
    has the numbers of the input row, 0.0 for a missing one; building it
    raises exactly when a numeric text of the input row is rejected. *)
Theorem convert_row_then_construct (r : row) :
  (Transaction_init (as_row (convert_row r)) = Raise ValueError
   ↔ rejected r "NET" ∨ rejected r "Loss/Gain Amount (gal)")
  ∧ ∀ t, Transaction_init (as_row (convert_row r)) = Ok t →
      op_date t = get_str r "Op Date"
      ∧ op_id t = default (get_str r "Tx Id") (r !! "Op Id"%string)
      ∧ op_type t = get_str r "Op Type"
      ∧ from_vessel t = get_str r "Src Vessel"
      ∧ from_batch t = get_str r "Src Batch Pre"
      ∧ to_vessel t = get_str r "Dest Vessel"
      ∧ to_batch t = get_str r "Dest Batch Post"
      ∧ field_value r "NET" (net t)
      ∧ field_value r "Loss/Gain Amount (gal)" (loss_gain_amount t)
      ∧ loss_gain_reason t = get_str r "Loss/Gain Reason"
      ∧ winery t = ""%string.
Proof.
  pose proof (get_float_convert r "NET" (or_introl eq_refl)) as Hn.
  pose proof (get_float_convert r "Loss/Gain Amount (gal)" (or_intror eq_refl))
    as Hg.
  split.
  - rewrite Transaction_init_Raise, <- !(get_float_Raise _ _ ValueError).
    by rewrite Hn, Hg.
  - intros t. unfold Transaction_init, bind. cbv zeta. rewrite Hn, Hg.
    destruct (get_float r "NET") as [n|] eqn:Hnet; [|discriminate].
    destruct (get_float r "Loss/Gain Amount (gal)") as [g|] eqn:Hlg; [|discriminate].
    remember (as_row (convert_row r)) as d eqn:Hd.
    intros [= <-].
    cbn [op_date op_id op_type from_vessel from_batch to_vessel to_batch net
         loss_gain_amount loss_gain_reason winery].
    subst d.
    destruct (get_str_as_row_convert r)
      as (-> & -> & -> & -> & -> & -> & -> & -> & ->).
    repeat split; try done; by apply get_float_Ok.
Qed.

(** X18: the conversion does not read the columns of its own output. It
    returns [False] and writes no file exactly when the input file has no
    rows. A row that has no [Src Batch Pre] and no [Dest Batch Post]
    column, as every converted row and every row of a file already in the
    analyzer's format, converts to a transaction without batch names, and
    an analyzer loaded from the conversion of such rows has an empty
    graph. *)
Theorem converting_simple_format_loses_batches :
  (∀ rows : list row,
     convert_transaction_csv_to_simple_format rows = (false, None) ↔ rows = [])
  ∧ (∀ r : row,
       as_row (convert_row r) !! "Src Batch Pre"%string = None
       ∧ as_row (convert_row r) !! "Dest Batch Post"%string = None)
  ∧ (∀ (rows : list row) (written : list (list (string * string)))
       (a : TransactionLineageAnalyzer),
       Forall (fun r : row => r !! "Src Batch Pre"%string = None
                              ∧ r !! "Dest Batch Post"%string = None) rows →
       convert_transaction_csv_to_simple_format rows = (true, Some written) →
       load_from_csv Analyzer_init (map as_row written) = Ok a →
       Forall (fun t => from_batch t = ""%string ∧ to_batch t = ""%string)
              (transactions a)
       ∧ batch_lineages a = ∅).
Proof.
  split; [|split].
  - intros rows. unfold convert_transaction_csv_to_simple_format.
    destruct rows as [|r rows]; simpl; split; intros H; done.
  - intros r. destruct (as_row_convert_lookup r)
      as (_ & _ & _ & _ & _ & _ & _ & _ & _ & _ & ? & _ & ? & _). done.
  - intros rows written a Hrows Hconv Hload.
    assert (Hw : written = map convert_row rows).
    { unfold convert_transaction_csv_to_simple_format in Hconv.
      destruct (map convert_row rows); [discriminate Hconv|].
      by injection Hconv as <-. }
    subst written. rewrite map_map in Hload.
    apply load_from_csv_Ok in Hload as (ts & Hf & ->).
    assert (Hts : Forall (fun t => from_batch t = ""%string ∧ to_batch t = ""%string) ts).
    { apply Forall2_fmap_l in Hf. clear -Hf Hrows.
      induction Hf as [|r t rows ts Ht _ IH]; [constructor|].
      apply Forall_cons in Hrows as [[Hs Hd] Hrows]. constructor; [|by apply IH].
      destruct (convert_row_batches r t Ht) as [-> ->].
      unfold get_str. by rewrite Hs, Hd. }
    split; [done|]. by apply ingest_empty_graph.
Qed.

(** X18 at a file that is already in the analyzer's format. *)
Lemma converting_simple_format_loses_batches_witness :
  ∃ written a,
    convert_transaction_csv_to_simple_format [ledger_row "5.0"]
    = (true, Some written)
    ∧ load_from_csv Analyzer_init (map as_row written) = Ok a
    ∧ batch_lineages a = ∅
    ∧ is_Some (get_batch_lineage (ingest [record "Transfer" "A" "B" 5]) "A").
Proof.
  destruct converting_simple_format_loses_batches as (_ & _ & H).
  exists [convert_row (ledger_row "5.0")].
  destruct (load_from_csv Analyzer_init
              (map as_row [convert_row (ledger_row "5.0")]))
    as [a|] eqn:Ha; [|by vm_compute in Ha].
  exists a. split; [reflexivity|]. split; [done|]. split.
  - apply (H [ledger_row "5.0"] [convert_row (ledger_row "5.0")] a);
      [|reflexivity|done].
    repeat constructor; by vm_compute.
  - eexists. vm_compute. reflexivity.
Defined.

(* ===================================================================== *)
(** ** Report file names *)
(* ===================================================================== *)

Lemma list_ascii_of_string_app (s1 s2 : string) :
  list_ascii_of_string (s1 ++ s2)%string
  = list_ascii_of_string s1 ++ list_ascii_of_string s2.
Proof. induction s1 as [|c s1 IH]; simpl; [done | by rewrite IH]. Qed.

Lemma list_ascii_of_string_inj (s1 s2 : string) :
  list_ascii_of_string s1 = list_ascii_of_string s2 → s1 = s2.
Proof.
  intros H. rewrite <- (string_of_list_ascii_of_string s1),
    <- (string_of_list_ascii_of_string s2). by rewrite H.
Qed.

Lemma replace_char_chars (old new : ascii) (s : string) :
  list_ascii_of_string (replace_char old new s)
  = map (fun c => if Ascii.eqb c old then new else c) (list_ascii_of_string s).
Proof. induction s as [|c s IH]; simpl; [done | by rewrite IH]. Qed.

(** What [safe_filename] does to one character. *)
Lemma safe_filename_chars (s : string) :
  list_ascii_of_string (safe_filename s)
  = map (fun c => if (Ascii.eqb c "/" || Ascii.eqb c "\")%bool then "_"%char else c)
      (list_ascii_of_string s).
Proof.
  unfold safe_filename. rewrite !replace_char_chars, map_map.
  apply map_ext. intros c.
  destruct (Ascii.eqb_spec c "/") as [->|]; [done|].
  by destruct (Ascii.eqb_spec c "\").
Qed.

Lemma same_in_file_name_iff (c d : ascii) :
  (if (Ascii.eqb c "/" || Ascii.eqb c "\")%bool then "_"%char else c)
  = (if (Ascii.eqb d "/" || Ascii.eqb d "\")%bool then "_"%char else d)
  ↔ same_in_file_name c d.
Proof.
  unfold same_in_file_name.
  destruct (Ascii.eqb_spec c "/") as [->|Hc1]; simpl;
    [|destruct (Ascii.eqb_spec c "\") as [->|Hc2]; simpl];
    (destruct (Ascii.eqb_spec d "/") as [->|Hd1]; simpl;
     [|destruct (Ascii.eqb_spec d "\") as [->|Hd2]; simpl]);
    split; intros H; try done; try (right; split; auto; fail);
    try (subst; tauto); try (destruct H as [H|[H1 H2]]; subst; intuition congruence).
Qed.

(** X19: the report file of a batch has no path separator in its name, so
    it is written in the output directory itself. Two batch names get the
    same report file, the later report replacing the earlier, exactly when
    they have the same length and differ only where both have one of the
    characters [/], [\] and [_]. *)
Theorem report_file_names :
  (∀ (batch_name : string) (c : ascii),
     In c (list_ascii_of_string (report_file_name batch_name)) →
     c ≠ "/"%char ∧ c ≠ "\"%char)
  ∧ (∀ a b : string,
       report_file_name a = report_file_name b
       ↔ Forall2 same_in_file_name (list_ascii_of_string a) (list_ascii_of_string b)).
Proof.
  split.
  - intros s c. unfold report_file_name.
    rewrite list_ascii_of_string_app, in_app_iff, safe_filename_chars, in_map_iff.
    intros [(c0 & <- & _)|Hin].
    + destruct (Ascii.eqb_spec c0 "/") as [->|H1]; simpl; [done|].
      destruct (Ascii.eqb_spec c0 "\") as [->|H2]; simpl; done.
    + simpl in Hin. split; intros ->; intuition discriminate.
  - intros a b. unfold report_file_name. split.
    + intros H. apply (f_equal list_ascii_of_string) in H.
      rewrite !list_ascii_of_string_app in H. apply app_inv_tail in H.
      rewrite !safe_filename_chars in H.
      revert H. generalize (list_ascii_of_string a) (list_ascii_of_string b).
      induction l as [|c l IH]; intros [|d l']; simpl; try discriminate.
      * constructor.
      * intros [= Hcd Hl]. constructor; [by apply same_in_file_name_iff | by apply IH].
    + intros H. f_equal. apply list_ascii_of_string_inj.
      rewrite !safe_filename_chars.
      induction H as [|c d l l' Hcd _ IH]; simpl; [done|].
      f_equal; [by apply same_in_file_name_iff | exact IH].
Qed.

(** X19 at the batch names [24/CAB_1] and [24_CAB/1]. *)
Lemma report_file_names_witness :
  report_file_name "24/CAB_1" = report_file_name "24_CAB/1"
  ∧ report_file_name "24/CAB_1" = "24_CAB_1_lineage.txt"%string.
Proof.
  destruct report_file_names as [_ H]. split; [|reflexivity].
  apply (H "24/CAB_1" "24_CAB/1")%string. simpl.
  repeat (constructor; [unfold same_in_file_name; auto 10|]).
  constructor.
Defined.

(* ===================================================================== *)
(** ** The batches that vessels hold *)
(* ===================================================================== *)

Lemma float_zero_not_positive (f : float) :
  PrimFloat.eqb f 0 = true → PrimFloat.ltb 0 f = false.
Proof.
  rewrite FloatAxioms.eqb_spec, FloatAxioms.ltb_spec.
  change (Prim2SF 0) with (S754_zero false).
  by destruct (Prim2SF f) as [[]| [] | |[] ? ?].
Qed.

Lemma vessels_from_spec (vessels : list vessel) (acc : gset string) :
  ∃ s, get_on_hand_batches_from_vessels_from acc vessels = Some s
       ∧ ∀ name, name ∈ s
                 ↔ name ∈ acc
                   ∨ (name ≠ ""%string ∧ ∃ v, In v vessels ∧ holds name v).
Proof.
  revert acc. induction vessels as [|v vessels IH]; intros acc.
  { exists acc. split; [done|]. intros name. split; [auto|].
    intros [?|(_ & v & [] & _)]. done. }
  assert (Hskip : (∀ name, ¬ (name ≠ ""%string ∧ holds name v)) →
            ∃ s, get_on_hand_batches_from_vessels_from acc vessels = Some s
                 ∧ ∀ name, name ∈ s
                     ↔ name ∈ acc
                       ∨ (name ≠ ""%string ∧ ∃ v', In v' (v :: vessels) ∧ holds name v')).
  { intros Hno. destruct (IH acc) as (s & Hs & Hin). exists s. split; [done|].
    intros name. rewrite Hin. split.
    - intros [?|(Hn & v' & Hv' & Hh)]; [auto|]. right. split; [done|].
      exists v'. split; [by right | done].
    - intros [?|(Hn & v' & [<-|Hv'] & Hh)]; [auto| |].
      + exfalso. by apply (Hno name).
      + right. eauto. }
  simpl. unfold holds in Hskip.
  destruct (volume_value v) as [[|z|f]|] eqn:Hvol; simpl.
  - apply Hskip. intros name [_ [_ []]].
  - destruct (Z.eqb_spec z 0) as [->|Hz]; simpl.
    { apply Hskip. intros name [_ [_ H]]. lia. }
    destruct (Z.ltb_spec 0 z) as [Hpos|Hneg].
    2:{ apply Hskip. intros name [_ [_ H]]. lia. }
    destruct (wine_batch_name v) as [[name0|]|] eqn:Hname; simpl.
    + destruct (truthy name0) eqn:Ht.
      * destruct (IH ({[ name0 ]} ∪ acc)) as (s & Hs & Hin). exists s.
        split; [done|]. intros name. rewrite Hin, elem_of_union, elem_of_singleton.
        apply truthy_true in Ht. split.
        -- intros [[->|?]|(Hn & v' & Hv' & Hh)]; [|auto|].
           ++ right. split; [done|]. exists v. split; [by left|].
              unfold holds. by rewrite Hname, Hvol.
           ++ right. split; [done|]. exists v'. split; [by right | done].
        -- intros [?|(Hn & v' & [<-|Hv'] & Hh)]; [auto| |].
           ++ destruct Hh as [Hh _]. rewrite Hname in Hh. injection Hh as ->. auto.
           ++ right. eauto.
      * apply Hskip. intros name [Hn [Hh _]]. injection Hh as ->.
        apply truthy_false in Ht. done.
    + apply Hskip. intros name [_ [Hh _]]. discriminate.
    + apply Hskip. intros name [Hn [Hh _]]. discriminate.
  - destruct (PrimFloat.eqb f 0) eqn:Hz; simpl.
    { apply Hskip. intros name [_ [_ H]].
      apply float_zero_not_positive in Hz. congruence. }
    destruct (PrimFloat.ltb 0 f) eqn:Hpos.
    2:{ apply Hskip. intros name [_ [_ H]]. congruence. }
    destruct (wine_batch_name v) as [[name0|]|] eqn:Hname; simpl.
    + destruct (truthy name0) eqn:Ht.
      * destruct (IH ({[ name0 ]} ∪ acc)) as (s & Hs & Hin). exists s.
        split; [done|]. intros name. rewrite Hin, elem_of_union, elem_of_singleton.
        apply truthy_true in Ht. split.
        -- intros [[->|?]|(Hn & v' & Hv' & Hh)]; [|auto|].
           ++ right. split; [done|]. exists v. split; [by left|].
              unfold holds. by rewrite Hname, Hvol.
           ++ right. split; [done|]. exists v'. split; [by right | done].
        -- intros [?|(Hn & v' & [<-|Hv'] & Hh)]; [auto| |].
           ++ destruct Hh as [Hh _]. rewrite Hname in Hh. injection Hh as ->. auto.
           ++ right. eauto.
      * apply Hskip. intros name [Hn [Hh _]]. injection Hh as ->.
        apply truthy_false in Ht. done.
    + apply Hskip. intros name [_ [Hh _]]. discriminate.
    + apply Hskip. intros name [Hn [Hh _]]. discriminate.
  - apply Hskip. intros name [_ [_ []]].
Qed.

(** X20: [get_on_hand_batches_from_vessels] never raises on vessels whose
    volume is a number, [null] or missing, and returns exactly the
    non-empty batch names that some vessel holds with a volume above zero:
    a vessel with a zero, negative, not-a-number, [null] or missing volume,
    or with an empty, [null] or missing batch name, adds nothing. *)
Theorem vessels_on_hand_batches (vessels : list vessel) :
  ∃ s, get_on_hand_batches_from_vessels vessels = Some s
       ∧ ∀ name, name ∈ s
                 ↔ name ≠ ""%string ∧ ∃ v, In v vessels ∧ holds name v.
Proof.
  destruct (vessels_from_spec vessels ∅) as (s & Hs & Hin).
  exists s. split; [done|]. intros name. rewrite Hin. split.
  - intros [Hempty|?]; [|done]. by apply not_elem_of_empty in Hempty.
  - auto.
Qed.

(* ===================================================================== *)
(** ** The lineage report *)
(* ===================================================================== *)

#[global] Instance str_le_total : Total str_le.
Proof. intros a b. apply String.leb_total. Qed.

Lemma str_le_iff (a b : string) :
  str_le a b ↔ OrderedTypeEx.String_as_OT.lt a b ∨ a = b.
Proof.
  unfold str_le, String.leb.
  rewrite <- OrderedTypeEx.String_as_OT.cmp_lt, <- OrderedTypeEx.String_as_OT.cmp_eq.
  unfold OrderedTypeEx.String_as_OT.cmp.
  destruct (String.compare a b); split; intros H; auto; try done.
  by destruct H.
Qed.

#[global] Instance str_le_trans : Transitive str_le.
Proof.
  intros a b c. rewrite !str_le_iff. intros [H1| ->] [H2| ->]; auto.
  left. by apply OrderedTypeEx.String_as_OT.lt_trans with b.
Qed.

#[global] Instance name_le_total : Total name_le.
Proof. intros x y. apply str_le_total. Qed.

#[global] Instance name_le_trans : Transitive name_le.
Proof. intros x y z. apply str_le_trans. Qed.

Lemma concat_head (sep : string) (c : ascii) (s : string) (rest : list string) :
  ∃ s', String.concat sep (String c s :: rest) = String c s'.
Proof. destruct rest; simpl; eauto. Qed.

Lemma status_of_cases (l : BatchLineage) :
  (status_of l = "ON-HAND"%string ↔ is_on_hand l = true)
  ∧ (status_of l = "SHIPPED"%string
     ↔ is_on_hand l = false ∧ has_left_inventory l = true)
  ∧ (status_of l = "UNKNOWN"%string
     ↔ is_on_hand l = false ∧ has_left_inventory l = false).
Proof.
  unfold status_of. destruct (is_on_hand l), (has_left_inventory l);
    repeat split; try done; intros H; try discriminate H;
    destruct H; discriminate.
Qed.

(** X21: the report of a batch is the one-line "not found" text exactly
    when the graph does not have the batch. For a batch of the graph the
    report opens with a rule, the title with the batch name, a rule and the
    status line, and the status agrees with the two enumerations: it is
    ON-HAND exactly for the batches of [get_all_on_hand_batches], SHIPPED
    exactly for those of [get_all_shipped_batches], and UNKNOWN for every
    other batch of the graph, such as one that only ever received
    transfers. *)
Theorem report_status (self : TransactionLineageAnalyzer) (b : string) :
  (generate_lineage_report self b = not_found_text b
   ↔ get_batch_lineage self b = None)
  ∧ ∀ l, get_batch_lineage self b = Some l →
      (∃ rest, report_lines b l
               = PyFormat.times "=" 80 :: ("LINEAGE REPORT FOR: " ++ b)%string
                 :: PyFormat.times "=" 80 :: ("Status: " ++ status_of l)%string
                 :: rest)
      ∧ (status_of l = "ON-HAND"%string ↔ b ∈ get_all_on_hand_batches self)
      ∧ (status_of l = "SHIPPED"%string ↔ b ∈ get_all_shipped_batches self)
      ∧ (status_of l = "UNKNOWN"%string
         ↔ (b ∉ get_all_on_hand_batches self)
           ∧ (b ∉ get_all_shipped_batches self)).
Proof.
  assert (Hon : ∀ l, get_batch_lineage self b = Some l →
            (b ∈ get_all_on_hand_batches self ↔ is_on_hand l = true)).
  { intros l Hl. unfold get_all_on_hand_batches. rewrite elem_of_filtered_names.
    simpl. split; [intros (l' & Hl' & H); congruence | eauto]. }
  assert (Hsh : ∀ l, get_batch_lineage self b = Some l →
            (b ∈ get_all_shipped_batches self
             ↔ has_left_inventory l = true ∧ is_on_hand l = false)).
  { intros l Hl. unfold get_all_shipped_batches. rewrite elem_of_filtered_names.
    simpl. split.
    - intros (l' & Hl' & H). assert (l' = l) as -> by congruence.
      apply andb_true_iff in H as [H1 H2]. by apply negb_true_iff in H2.
    - intros [H1 H2]. exists l. by rewrite H1, H2. }
  split.
  - unfold generate_lineage_report.
    destruct (get_batch_lineage self b) as [l|]; [|done].
    split; [|discriminate]. intros H. exfalso.
    unfold report_lines in H. cbn [PyFormat.times app] in H.
    match type of H with String.concat ?sep (String ?c ?s :: ?rest) = _ =>
      destruct (concat_head sep c s rest) as [s' Hs'] end.
    rewrite Hs' in H. discriminate H.
  - intros l Hl. split; [eexists; unfold report_lines; simpl; reflexivity|].
    destruct (status_of_cases l) as (H1 & H2 & H3).
    rewrite H1, H2, H3, (Hon l Hl), (Hsh l Hl).
    destruct (is_on_hand l), (has_left_inventory l); intuition congruence.
Qed.

(** X22: when a batch has contributing batches, its report lists each of
    them on one line, after the eight lines of the head, in ascending order
    of their names by code points (capital letters before small ones),
    whatever the order in which the ledger named them. *)
Theorem report_contributors_by_name (b : string) (l : BatchLineage) :
  contributing_batches l ≠ [] →
  ∃ items,
    report_lines b l
    = [ PyFormat.times "=" 80; ("LINEAGE REPORT FOR: " ++ b)%string;
        PyFormat.times "=" 80; ("Status: " ++ status_of l)%string;
        ("Current Volume: " ++ PyFormat.fixed2 (current_volume l)
         ++ " gallons")%string;
        ""%string;
        ("CONTRIBUTING BATCHES ("
         ++ PyFormat.str (length (contributing_batches l)) ++ "):")%string;
        PyFormat.times "-" 80 ]
      ++ map contributor_line items
      ++ [""%string]
      ++ transaction_section "INCOMING TRANSACTIONS" (contributing_transactions l)
      ++ transaction_section "OUTGOING TRANSACTIONS" (outgoing_transactions l)
      ++ [ PyFormat.times "=" 80 ]
    ∧ items ≡ₚ contributing_batches l
    ∧ StronglySorted name_le items.
Proof.
  intros Hne. exists (sorted_items (contributing_batches l)). split; [|split].
  - unfold report_lines. destruct (contributing_batches l) as [|item items]; [done|].
    cbn [app]. by rewrite <- !app_assoc.
  - apply merge_sort_Permutation.
  - apply (StronglySorted_merge_sort name_le).
Qed.

(** X22 at a batch fed from [Zeta], then [alpha], then [Beta]. *)
Lemma report_contributors_by_name_witness :
  ∃ l, get_batch_lineage
         (ingest [record "Transfer" "Zeta" "B" 1; record "Blend" "alpha" "B" 2.5;
                  record "Transfer" "Beta" "B" 0.125]) "B" = Some l
       ∧ ∃ items before after,
           report_lines "B" l = before ++ map contributor_line items ++ after
           ∧ length before = 8
           ∧ items = [("Beta", 0.125); ("Zeta", 1); ("alpha", 2.5)]%string%float.
Proof.
  destruct (get_batch_lineage
              (ingest [record "Transfer" "Zeta" "B" 1; record "Blend" "alpha" "B" 2.5;
                       record "Transfer" "Beta" "B" 0.125]) "B") as [l|] eqn:Hl;
    [|by vm_compute in Hl].
  exists l. split; [done|].
  assert (Hcb : contributing_batches l
                = [("Zeta", 1); ("alpha", 2.5); ("Beta", 0.125)]%string%float).
  { vm_compute in Hl. by injection Hl as <-. }
  destruct (report_contributors_by_name "B" l) as (items & Heq & Hperm & Hsorted).
  { by rewrite Hcb. }
  exists items. eexists. eexists. split; [exact Heq|]. split; [done|].
  rewrite Hcb in Hperm. clear -Hperm Hsorted.
  apply (StronglySorted_unique_strong name_le); [|done| |].
  - intros x1 x2 Hx1 Hx2 H12 H21. rewrite Hperm in Hx1.
    rewrite !elem_of_cons, elem_of_nil in Hx1, Hx2.
    destruct Hx1 as [->|[->|[->|[]]]], Hx2 as [->|[->|[->|[]]]];
      try reflexivity; vm_compute in H12, H21; congruence.
  - repeat constructor; by vm_compute.
  - rewrite Hperm. symmetry. apply (Permutation_cons_append [_; _]).
Defined.

(* ===================================================================== *)
(** ** The report files *)
(* ===================================================================== *)

Section WrittenFiles.
Variables (name text : string → string).
#[local] Abbreviation write_all := (write_all name text).

Lemma write_all_snoc files bs b :
  write_all files (bs ++ [b]) = <[ name b := text b ]> (write_all files bs).
Proof. unfold write_all. by rewrite foldl_app. Qed.

Lemma write_all_lookup bs f t :
  write_all ∅ bs !! f = Some t → ∃ b, b ∈ bs ∧ f = name b ∧ t = text b.
Proof.
  induction bs as [|b bs IH] using rev_ind; [done|].
  rewrite write_all_snoc. destruct (decide (name b = f)) as [<-|Hne].
  - rewrite lookup_insert_eq. intros [= <-]. exists b. split; [|done].
    apply elem_of_app. right. by apply list_elem_of_singleton.
  - rewrite lookup_insert_ne by done. intros (b' & Hin & ? & ?)%IH.
    exists b'. split; [|done]. apply elem_of_app. by left.
Qed.

Lemma write_all_last files bs1 b bs2 :
  (∀ x, x ∈ bs2 → name x ≠ name b) →
  write_all files (bs1 ++ b :: bs2) !! name b = Some (text b).
Proof.
  induction bs2 as [|x bs2 IH] using rev_ind; intros Hlater.
  - rewrite write_all_snoc. apply lookup_insert_eq.
  - rewrite app_comm_cons, app_assoc, write_all_snoc.
    rewrite lookup_insert_ne.
    + apply IH. intros y Hy. apply Hlater, elem_of_app. by left.
    + apply Hlater, elem_of_app. right. by apply list_elem_of_singleton.
Qed.

End WrittenFiles.

(** X23: [generate_detailed_batch_reports] writes one file per report file
    name of the batches it is given, also for the batches that the graph
    does not have, whose file holds the "not found" text. Every file holds
    the report of a batch with that file name; the report of a batch is in
    its file in the end when no batch after it in the order of names has
    the same file name, so in particular when no other batch has. *)
Theorem detailed_reports_files (analyzer : TransactionLineageAnalyzer)
    (batches : gset string) :
  let files := generate_detailed_batch_reports analyzer batches in
  (∀ f, is_Some (files !! f) ↔ ∃ b, b ∈ batches ∧ f = report_file_name b)
  ∧ (∀ f t, files !! f = Some t →
       ∃ b, b ∈ batches ∧ f = report_file_name b
            ∧ t = generate_lineage_report analyzer b)
  ∧ (∀ b, b ∈ batches →
       (∀ b', b' ∈ batches → report_file_name b' = report_file_name b →
              str_le b' b) →
       files !! report_file_name b = Some (generate_lineage_report analyzer b))
  ∧ (∀ b, b ∈ batches → get_batch_lineage analyzer b = None →
       (∀ b', b' ∈ batches → report_file_name b' = report_file_name b → b' = b) →
       files !! report_file_name b = Some (not_found_text b)).
Proof.
  intros files.
  set (bs := sorted_names batches).
  assert (Hfiles : files = write_all report_file_name
                             (generate_lineage_report analyzer) ∅ bs) by done.
  assert (Hbs : ∀ b, b ∈ bs ↔ b ∈ batches).
  { intros b. unfold bs, sorted_names. rewrite merge_sort_Permutation. apply elem_of_elements. }
  assert (Hnd : NoDup bs).
  { unfold bs, sorted_names. rewrite merge_sort_Permutation. apply NoDup_elements. }
  assert (Hsorted : StronglySorted str_le bs)
    by apply (StronglySorted_merge_sort str_le).
  assert (Hlast : ∀ b, b ∈ batches →
            (∀ b', b' ∈ batches → report_file_name b' = report_file_name b →
                   str_le b' b) →
            files !! report_file_name b = Some (generate_lineage_report analyzer b)).
  { intros b Hb Hmax. apply Hbs, list_elem_of_split in Hb as (bs1 & bs2 & Hsplit).
    rewrite Hfiles, Hsplit. apply write_all_last. intros x Hx Hname.
    assert (Hxb : str_le x b).
    { apply Hmax; [|done]. apply Hbs. rewrite Hsplit, elem_of_app, elem_of_cons. auto. }
    assert (Hbx : str_le b x).
    { rewrite Hsplit, (cons_middle b bs1 bs2), app_assoc in Hsorted.
      apply (StronglySorted_app_1_elem_of _ _ _ _ _ Hsorted); [|done].
      apply elem_of_app. right. by apply list_elem_of_singleton. }
    assert (x = b) as -> by (by apply String.leb_antisym).
    rewrite Hsplit in Hnd. apply NoDup_app in Hnd as (_ & _ & Hnd).
    by apply NoDup_cons in Hnd as [Hnd _]. }
  assert (Hholds : ∀ f t, files !! f = Some t →
            ∃ b, b ∈ batches ∧ f = report_file_name b
                 ∧ t = generate_lineage_report analyzer b).
  { intros f t Hf. rewrite Hfiles in Hf.
    apply write_all_lookup in Hf as (b & Hb & ? & ?). exists b. by rewrite <- Hbs. }
  split; [|split; [exact Hholds|split; [exact Hlast|]]].
  - intros f. split.
    + intros [t Ht]. apply Hholds in Ht as (b & ? & ? & _). eauto.
    + intros (b & Hb & ->). apply Hbs, list_elem_of_split in Hb as (bs1 & bs2 & Hsplit).
      rewrite Hfiles, Hsplit. clear. induction bs2 as [|x bs2 IH] using rev_ind.
      * rewrite write_all_snoc, lookup_insert_eq. eauto.
      * rewrite app_comm_cons, app_assoc, write_all_snoc.
        destruct (decide (report_file_name x = report_file_name b)) as [->|Hne].
        -- rewrite lookup_insert_eq. eauto.
        -- by rewrite lookup_insert_ne.
  - intros b Hb Hnone Hinj. rewrite Hlast; [|done|].
    + unfold generate_lineage_report. by rewrite Hnone.
    + intros b' Hb' Hname. rewrite (Hinj b' Hb' Hname). by destruct (String.leb_total b b).
Qed.

(** X23 at three batch names of which two share a file: the file holds the
    report of the later one. *)
Lemma detailed_reports_files_witness :
  generate_detailed_batch_reports (ingest partly_shipped_ledger)
    {[ "A/1"; "A_1"; "B" ]}%string !! "A_1_lineage.txt"%string
  = Some (not_found_text "A_1").
Proof.
  destruct (detailed_reports_files (ingest partly_shipped_ledger)
              {[ "A/1"; "A_1"; "B" ]}%string) as (_ & _ & H & _).
  change "A_1_lineage.txt"%string with (report_file_name "A_1").
  rewrite (H "A_1"%string).
  - reflexivity.
  - set_solver.
  - intros b' Hb' Hname. apply elem_of_union in Hb' as [Hb'|Hb'];
      [apply elem_of_union in Hb' as [Hb'|Hb']|];
      apply elem_of_singleton in Hb'; subst b'; try reflexivity.
    discriminate Hname.
Defined.

(* ===================================================================== *)
(** ** The inventory summary *)
(* ===================================================================== *)

Lemma size_split (X Y : gset string) : size (X ∩ Y) + size (X ∖ Y) = size X.
Proof.
  rewrite <- size_union.
  - f_equal. apply set_eq. intros x.
    rewrite elem_of_union, elem_of_intersection, elem_of_difference.
    destruct (decide (x ∈ Y)); tauto.
  - intros x [_ Hin]%elem_of_intersection [_ Hnin]%elem_of_difference. done.
Qed.


Lemma elem_of_sorted_names (s : gset string) (b : string) :
  b ∈ sorted_names s ↔ b ∈ s.
Proof. unfold sorted_names. rewrite merge_sort_Permutation. apply elem_of_elements. Qed.

(** X24: with vessel data the summary counts the batches of both sources,
    and the counts add up: the batches found in both sources and those only
    in transactions are the on-hand batches of the ledger, those found in
    both and those only in vessels are the batches of the vessels. The
    warning and the note that follow are both left out exactly when the
    two sources name the same batches. *)
Theorem cross_reference_counts (generated : string)
    (analyzer : TransactionLineageAnalyzer) (vessel_batches : gset string) :
  vessel_batches ≠ ∅ →
  let on_hand := get_all_on_hand_batches analyzer in
  ∃ both only_t only_v notes rest,
    generate_inventory_summary_report generated analyzer (Some vessel_batches)
    = String.concat PyFormat.nl
      ([ PyFormat.times "=" 100; "INVENTORY LOTS ANALYSIS SUMMARY"%string;
        PyFormat.times "=" 100; ("Generated: " ++ generated)%string; ""%string;
        ("On-hand batches from transaction data: "
         ++ PyFormat.str (length on_hand))%string;
        ("Batches with volume from vessel data: "
         ++ PyFormat.str (size vessel_batches))%string;
        ("Batches found in both sources: " ++ PyFormat.str both)%string;
        ("Batches only in transactions: " ++ PyFormat.str only_t)%string;
        ("Batches only in vessels: " ++ PyFormat.str only_v)%string;
        ""%string ]
       ++ notes
       ++ PyFormat.times "=" 100 :: "ON-HAND INVENTORY DETAILS"%string :: rest)
    ∧ both + only_t = length on_hand
    ∧ both + only_v = size vessel_batches
    ∧ (notes = [] ↔ ∀ b, b ∈ on_hand ↔ b ∈ vessel_batches).
Proof.
  intros Hne on_hand.
  set (X := list_to_set on_hand : gset string).
  assert (HX : size X = length on_hand).
  { apply size_list_to_set, NoDup_filtered_names. }
  assert (HinX : ∀ b, b ∈ X ↔ b ∈ on_hand) by (intros b; apply elem_of_list_to_set).
  exists (size (X ∩ vessel_batches)), (size (X ∖ vessel_batches)),
    (size (vessel_batches ∖ X)).
  exists
    ((if bool_decide (X ∖ vessel_batches = ∅) then [] else
      "WARNING: Batches in transactions but not in vessel data:"%string
      :: first_ten (X ∖ vessel_batches) ++ [""%string])
     ++ (if bool_decide (vessel_batches ∖ X = ∅) then [] else
         "NOTE: Batches in vessel data but not marked as on-hand in transactions:"%string
         :: first_ten (vessel_batches ∖ X) ++ [""%string])).
  eexists. split; [|split; [|split]].
  - unfold generate_inventory_summary_report.
    apply (f_equal (String.concat PyFormat.nl)).
    unfold summary_lines, cross_reference. fold on_hand. fold X.
    rewrite bool_decide_eq_false_2 by done.
    cbn [app]. rewrite <- !app_assoc. cbn [app]. reflexivity.
  - rewrite <- HX. apply size_split.
  - rewrite (comm_L (∩) X vessel_batches). apply size_split.
  - split.
    + intros Hnil. apply app_eq_nil in Hnil as [H1 H2].
      destruct (bool_decide (X ∖ vessel_batches = ∅)) eqn:Ht; [|discriminate H1].
      destruct (bool_decide (vessel_batches ∖ X = ∅)) eqn:Hv; [|discriminate H2].
      apply bool_decide_eq_true_1 in Ht, Hv. intros b. rewrite <- HinX. split.
      * intros Hb. destruct (decide (b ∈ vessel_batches)) as [|Hnin]; [done|].
        assert (Hd : b ∈ X ∖ vessel_batches) by (by apply elem_of_difference).
        rewrite Ht in Hd. by apply not_elem_of_empty in Hd.
      * intros Hb. destruct (decide (b ∈ X)) as [|Hnin]; [done|].
        assert (Hd : b ∈ vessel_batches ∖ X) by (by apply elem_of_difference).
        rewrite Hv in Hd. by apply not_elem_of_empty in Hd.
    + intros Hsame.
      assert (Ht : X ∖ vessel_batches = ∅).
      { apply set_eq. intros b. rewrite elem_of_difference, HinX, Hsame.
        split; [tauto | intros []%not_elem_of_empty]. }
      assert (Hv : vessel_batches ∖ X = ∅).
      { apply set_eq. intros b. rewrite elem_of_difference, HinX, Hsame.
        split; [tauto | intros []%not_elem_of_empty]. }
      by rewrite !bool_decide_eq_true_2.
Qed.

(** X24 at a ledger with the on-hand batch [A] and vessels that hold [A]
    and [X]. *)
Lemma cross_reference_counts_witness :
  ∃ both only_t only_v, both + only_t = 1 ∧ both + only_v = 2.
Proof.
  destruct (cross_reference_counts "2025-01-01 10:00:00"
              (ingest partly_shipped_ledger) {[ "A"; "X" ]}%string)
    as (both & only_t & only_v & _ & _ & _ & H1 & H2 & _).
  { intros H. apply (f_equal size) in H. by vm_compute in H. }
  exists both, only_t, only_v. split; [exact H1 | exact H2].
Defined.

(** X25: the volume of the vessel data never reaches the summary. A batch
    that a vessel holds and that no On-Hand record of the ledger names has
    a row in the details table, and the row shows [N/A] twice when the
    ledger does not know the batch and the volume [0.00] when it does. *)
Theorem vessel_only_rows (generated : string) (ts : list Transaction)
    (vessel_batches : gset string) (b : string) :
  b ∈ vessel_batches →
  b ∉ get_all_on_hand_batches (ingest ts) →
  summary_row (ingest ts) b
    ∈ summary_lines generated (ingest ts) (Some vessel_batches)
  ∧ summary_row (ingest ts) b
    = match get_batch_lineage (ingest ts) b with
      | None =>
          (PyFormat.ljust 40 b ++ " N/A             N/A                 ")%string
      | Some l =>
          (PyFormat.ljust 40 b ++ "          0.00   "
           ++ PyFormat.rjust 18 (PyFormat.str (length (contributing_batches l))))%string
      end.
Proof.
  intros Hb Hnot. split.
  - unfold summary_lines. rewrite !elem_of_app. right. right. right. left.
    apply list_elem_of_fmap. exists b. split; [done|].
    apply elem_of_sorted_names. unfold summary_batches.
    rewrite bool_decide_eq_false_2.
    + apply elem_of_union. by right.
    + intros H. rewrite H in Hb. by apply not_elem_of_empty in Hb.
  - unfold summary_row.
    destruct (get_batch_lineage (ingest ts) b) as [l|] eqn:Hl; [|reflexivity].
    assert (Hoff : is_on_hand l = false).
    { apply not_true_iff_false. intros Hon. apply Hnot.
      unfold get_all_on_hand_batches. apply elem_of_filtered_names. eauto. }
    pose proof (ingest_lineage_fields _ _ _ Hl) as (_ & _ & Hon & _).
    rewrite Hoff in Hon. symmetry in Hon.
    rewrite get_batch_lineage_ingest in Hl.
    destruct (existsb (mentions b) ts); [|discriminate Hl]. injection Hl as <-.
    unfold lineage_of at 1. rewrite foldl_apply_current_volume_keep by done.
    reflexivity.
Qed.

(** X25 at a ledger that transfers into [B] and vessels that hold [B] and
    the unknown batch [X]. *)
Lemma vessel_only_rows_witness :
  summary_row (ingest partly_shipped_ledger) "B"
  = "B                                                 0.00                    1"%string
  ∧ summary_row (ingest partly_shipped_ledger) "X"
    = "X                                        N/A             N/A                 "%string.
Proof.
  assert (Hon : get_all_on_hand_batches (ingest partly_shipped_ledger)
                = ["A"%string]) by (by vm_compute).
  split.
  - destruct (vessel_only_rows "2025-01-01 10:00:00" partly_shipped_ledger
                {[ "B"; "X" ]}%string "B") as [_ H].
    + apply elem_of_union. left. by apply elem_of_singleton.
    + rewrite Hon. by intros [=]%list_elem_of_singleton.
    + rewrite H. by vm_compute.
  - destruct (vessel_only_rows "2025-01-01 10:00:00" partly_shipped_ledger
                {[ "B"; "X" ]}%string "X") as [_ H].
    + apply elem_of_union. right. by apply elem_of_singleton.
    + rewrite Hon. by intros [=]%list_elem_of_singleton.
    + rewrite H. by vm_compute.
Defined.
